(** * Deception detector of the verification subsystem

    A shallow embedding of the class [DeceptionDetector]
    (src/dist-cjs/src/verification/index.js, lines 1608-2379) and the
    properties of its report analyses.

    Numbers.  The detector only ever adds, subtracts, multiplies, divides and
    compares its numbers, with one exception ([Math.sqrt], see the section
    [Detector]).  JavaScript numbers are embedded as exact rationals [Q]:
    the decimal literals of the source ([0.3], [0.95], ...) denote the
    rationals they spell, arithmetic is exact, and numeric equality is
    [Qeq]; NaN and the infinities are not represented.  Counters and array
    lengths are [nat], and [timestamp] (integer epoch milliseconds) is [Z].
    Where a verdict rests on a sum of literals landing exactly on a
    threshold, the sum is also evaluated in binary64 ([binary64Score]).

    The file goes on with the other methods of the detector, with the
    [TruthDBAdapter] (src/dist-cjs/src/verification/truth-db-adapter.js)
    and with [createSecuritySystem]. *)

From Stdlib Require Import QArith Qminmax Qabs Qround Lqa Lia ZArith PrimFloat.
From Stdlib Require Import Sorted.
From Stdlib Require Uint63 FloatOps SpecFloat.
From stdpp Require Import gmap strings list.

Set Warnings "-inexact-float".

(** ** Numbers *)

(** [a > b] and [a < b] on numbers, as booleans. *)
Definition Qgtb (a b : Q) : bool := negb (Qle_bool a b).
Definition Qltb (a b : Q) : bool := negb (Qle_bool b a).

(** ToBoolean on a number: every number but zero is truthy. *)
Definition truthy (q : Q) : bool := negb (Qeq_bool q 0).

(** An integer counter or an array length used in arithmetic. *)
Definition num (n : nat) : Q := inject_Z (Z.of_nat n).

(** [Math.round]: the nearest integer, halves going up. *)
Definition Math_round (x : Q) : Q := inject_Z (Qfloor (x + (1 # 2))%Q).

(** ** Data model *)

Record Performance := {
  improvement : Q;
  metrics : gmap string Q
}.

Record Quality := {
  codeQuality : Q;
  documentation : Q;
  maintainability : Q
}.

Record TaskOutcome := {
  success : bool;
  testsPass : bool;
  noErrors : bool;
  performance : Performance;
  quality : Quality
}.

(** [evidence: any] is a free-form bag that may be absent; the detector reads
    the number of its keys and the numeric entries [duration] and
    [otherAgentQuality]. *)
Record AgentReport := {
  id : string;
  agentId : string;
  taskId : string;
  claimedOutcome : TaskOutcome;
  evidence : option (gmap string Q);
  timestamp : Z;
  truthScore : option Q;
  verified : bool;
  conflicts : list string
}.

(** Field paths that the source spells [report.claimedOutcome. ...]. *)
Definition claimsSuccess (r : AgentReport) : bool :=
  success (claimedOutcome r).
Definition claimsTestsPass (r : AgentReport) : bool :=
  testsPass (claimedOutcome r).
Definition claimsNoErrors (r : AgentReport) : bool :=
  noErrors (claimedOutcome r).
Definition claimedImprovement (r : AgentReport) : Q :=
  improvement (performance (claimedOutcome r)).
Definition claimedCodeQuality (r : AgentReport) : Q :=
  codeQuality (quality (claimedOutcome r)).

(** [report.evidence?.key]. *)
Definition evidenceField (key : string) (r : AgentReport) : option Q :=
  match evidence r with
  | Some ev => ev !! key
  | None => None
  end.

(** [!report.evidence || Object.keys(report.evidence).length < 3]. *)
Definition lacksEvidence (r : AgentReport) : bool :=
  match evidence r with
  | Some ev => size ev <? 3
  | None => true
  end.

(** ** detectFabrication (lines 1770-1813) *)

Module FabricationResult.
Record t := {
  isFabricated : bool;
  confidence : Q;
  indicators : list string
}.
End FabricationResult.

(** The two locals of [detectFabrication]: [indicators] and
    [fabricationScore]. *)
Record FabricationState := {
  fs_indicators : list string;
  fs_score : Q
}.

Definition pushIndicator (label : string) (delta : Q) (s : FabricationState)
  : FabricationState :=
  {| fs_indicators := fs_indicators s ++ [label];
     fs_score := (fs_score s + delta)%Q |}.

Definition checkPerfectResults (report : AgentReport) (s : FabricationState)
  : FabricationState :=
  if claimsTestsPass report && claimsNoErrors report && claimsSuccess report
     && Qgtb (claimedCodeQuality report) 0.95
  then pushIndicator "suspiciously-perfect-results" 0.3 s
  else s.

Definition checkEvidenceDetail (report : AgentReport) (s : FabricationState)
  : FabricationState :=
  if lacksEvidence report
  then pushIndicator "insufficient-evidence" 0.2 s
  else s.

Definition checkTiming (report : AgentReport) (s : FabricationState)
  : FabricationState :=
  match evidenceField "duration" report with
  | Some duration =>
      if negb (timestamp report =? 0)%Z && truthy duration
      then if Qltb duration 1000
           then pushIndicator "unrealistically-fast-completion" 0.25 s
           else s
      else s
  | None => s
  end.

Definition checkOverperformance (report : AgentReport) (s : FabricationState)
  : FabricationState :=
  if Qgtb (claimedImprovement report) 0.5
  then pushIndicator "unrealistic-performance-improvement" 0.25 s
  else s.

Definition fabricationState (report : AgentReport) : FabricationState :=
  checkOverperformance report
    (checkTiming report
       (checkEvidenceDetail report
          (checkPerfectResults report
             {| fs_indicators := []; fs_score := 0 |}))).

Definition detectFabrication (report : AgentReport) : FabricationResult.t :=
  let s := fabricationState report in
  {| FabricationResult.isFabricated := Qgtb (fs_score s) 0.5;
     FabricationResult.confidence := Qmin (fs_score s) 1.0;
     FabricationResult.indicators := fs_indicators s |}.

(** ** detectGaslighting (lines 1862-1904) *)

Module GaslightingResult.
Record t := {
  isGaslighting : bool;
  confidence : Q;
  contradictions : list string;
  contradictionsWithOtherAgents : nat;
  systematicDisagreement : bool
}.
End GaslightingResult.

(** The filter predicate of [sameTaskReports]. *)
Definition sameTaskOtherAgent (report r : AgentReport) : bool :=
  String.eqb (taskId r) (taskId report)
  && negb (String.eqb (agentId r) (agentId report)).

(** One [contradictions.push(...); contradictionCount++]. *)
Definition pushContradiction (text : string) (st : list string * nat)
  : list string * nat :=
  (st.1 ++ [text], S st.2).

(** The body of the loop over [sameTaskReports]; the state is the pair of
    locals [(contradictions, contradictionCount)]. *)
Definition compareWithOther (report otherReport : AgentReport)
    (st : list string * nat) : list string * nat :=
  let st1 :=
    if negb (Bool.eqb (claimsSuccess report) (claimsSuccess otherReport))
    then pushContradiction
           ("Contradicts " +:+ agentId otherReport +:+ " on task success") st
    else st in
  let st2 :=
    if Qgtb (Qabs (claimedImprovement report - claimedImprovement otherReport))
            0.3
    then pushContradiction
           ("Large discrepancy in performance claims vs "
              +:+ agentId otherReport) st1
    else st1 in
  if Qgtb (claimedCodeQuality report) 0.8
     && Qltb (claimedCodeQuality otherReport) 0.6
  then pushContradiction
         ("Systematically disagrees with " +:+ agentId otherReport
            +:+ "'s quality assessment") st2
  else st2.

Definition detectGaslighting (report : AgentReport)
    (otherReports : list AgentReport) : GaslightingResult.t :=
  let sameTaskReports :=
    List.filter (sameTaskOtherAgent report) otherReports in
  let st :=
    fold_left (fun st otherReport => compareWithOther report otherReport st)
      sameTaskReports ([], 0) in
  let contradictions := st.1 in
  let contradictionCount := st.2 in
  let systematicDisagreement :=
    Nat.min (length sameTaskReports) 8 <=? contradictionCount in
  {| GaslightingResult.isGaslighting := 2 <=? length contradictions;
     GaslightingResult.confidence :=
       Qmin (num (length contradictions) * 0.3) 1.0;
     GaslightingResult.contradictions := contradictions;
     GaslightingResult.contradictionsWithOtherAgents := contradictionCount;
     GaslightingResult.systematicDisagreement := systematicDisagreement |}.

(** ** Grouping by task

    [taskGroups] is a [Map] from task id to the array of that task's reports.
    A [Map] iterates in insertion order of its keys, so it is an association
    list; [pushToGroup] is
    [if (!has(k)) set(k, []); get(k).push(report)]. *)

Fixpoint pushToGroup (k : string) (report : AgentReport)
    (groups : list (string * list AgentReport))
  : list (string * list AgentReport) :=
  match groups with
  | [] => [(k, [report])]
  | (k', rs) :: rest =>
      if String.eqb k' k
      then (k', rs ++ [report]) :: rest
      else (k', rs) :: pushToGroup k report rest
  end.

Definition groupByTask (reports : list AgentReport)
  : list (string * list AgentReport) :=
  fold_left (fun groups report => pushToGroup (taskId report) report groups)
    reports [].

(** ** detectCollusion (lines 2267-2335) *)

Module CollusionResult.
Record evidence_t := {
  synchronizedReporting : bool;
  identicalFalseClaims : nat
}.
Record t := {
  isCollusion : bool;
  confidence : Q;
  evidence : evidence_t
}.
End CollusionResult.

(** [.sort((a, b) => a - b)] on numbers: ascending order. *)
Fixpoint insertNumber (x : Z) (sorted : list Z) : list Z :=
  match sorted with
  | [] => [x]
  | y :: rest => if (x <? y)%Z then x :: y :: rest else y :: insertNumber x rest
  end.

Definition sortNumbers (xs : list Z) : list Z :=
  fold_left (fun sorted x => insertNumber x sorted) xs [].

(** The loop [for (i = 1; i < timestamps.length; i++)] counting the adjacent
    pairs less than 5000 ms apart. *)
Fixpoint countSynchronized (timestamps : list Z) : nat :=
  match timestamps with
  | previous :: (current :: _) as rest =>
      (if (current - previous <? 5000)%Z then 1 else 0) + countSynchronized rest
  | _ => 0
  end.

(** [new Set(qualityScores)]: the distinct numbers, in order of first
    occurrence. *)
Fixpoint uniqueNumbers (xs : list Q) : list Q :=
  match xs with
  | [] => []
  | x :: rest =>
      x :: List.filter (fun y => negb (Qeq_bool y x)) (uniqueNumbers rest)
  end.

(** The body of the loop over [taskGroups]; the state is the pair of locals
    [(synchronizedCount, identicalClaimsCount)]. *)
Definition inspectTaskGroup (reports : list AgentReport) (st : nat * nat)
  : nat * nat :=
  if length reports <? 2 then st
  else
    let timestamps := sortNumbers (map timestamp reports) in
    let synchronizedCount := st.1 + countSynchronized timestamps in
    let allClaimSuccess := forallb claimsSuccess reports in
    let allClaimNoErrors := forallb claimsNoErrors reports in
    let allClaimHighPerformance :=
      forallb (fun r => Qgtb (claimedImprovement r) 0.3) reports in
    let identicalClaimsCount :=
      if allClaimSuccess && allClaimNoErrors && allClaimHighPerformance
      then S st.2 else st.2 in
    let qualityScores := map claimedCodeQuality reports in
    let uniqueScores := uniqueNumbers qualityScores in
    let identicalClaimsCount :=
      if (length uniqueScores =? 1)
         && match qualityScores with
            | first :: _ => Qgtb first 0.9
            | [] => false
            end
      then S identicalClaimsCount else identicalClaimsCount in
    (synchronizedCount, identicalClaimsCount).

Definition detectCollusion (allReports : list AgentReport)
  : CollusionResult.t :=
  if length allReports <? 4 then
    {| CollusionResult.isCollusion := false;
       CollusionResult.confidence := 0;
       CollusionResult.evidence :=
         {| CollusionResult.synchronizedReporting := false;
            CollusionResult.identicalFalseClaims := 0 |} |}
  else
    let taskGroups := groupByTask allReports in
    let st :=
      fold_left (fun st group => inspectTaskGroup group.2 st)
        taskGroups (0, 0) in
    let synchronizedCount := st.1 in
    let identicalClaimsCount := st.2 in
    let synchronizedReporting := 2 <? synchronizedCount in
    let isCollusion := (2 <? identicalClaimsCount) || synchronizedReporting in
    let confidence :=
      Qmin (num (identicalClaimsCount + synchronizedCount) * 0.2) 1.0 in
    {| CollusionResult.isCollusion := isCollusion;
       CollusionResult.confidence := confidence;
       CollusionResult.evidence :=
         {| CollusionResult.synchronizedReporting := synchronizedReporting;
            CollusionResult.identicalFalseClaims := identicalClaimsCount |} |}.

(** ** Rate and average analyses (lines 1906-1939)

    Each of these returns an object with a single field; the embedding
    returns the field. *)

Definition analyzeSuccessRates (reports : list AgentReport) : Q :=
  let claimedSuccesses := length (List.filter claimsSuccess reports) in
  let claimedRate := (num claimedSuccesses / num (length reports))%Q in
  let realisticRate := 0.7%Q in
  Qmax 0 (claimedRate - realisticRate).

Definition analyzePerformanceClaims (reports : list AgentReport) : Q :=
  let avgImprovement :=
    (fold_left (fun sum r => sum + claimedImprovement r) reports 0
       / num (length reports))%Q in
  let realisticImprovement := 0.15%Q in
  Qmax 0 (avgImprovement - realisticImprovement).

Definition analyzeQualityClaims (reports : list AgentReport) : Q :=
  let avgQuality :=
    (fold_left (fun sum r => sum + claimedCodeQuality r) reports 0
       / num (length reports))%Q in
  let realisticQuality := 0.7%Q in
  Qmax 0 (avgQuality - realisticQuality).

(** ** detectIssueHiding (lines 1962-1983) *)

Record IssueHiding := {
  isHiding : bool;
  hiddenCount : Q
}.

Definition detectIssueHiding (reports : list AgentReport) : IssueHiding :=
  if length reports <? 10 then {| isHiding := false; hiddenCount := 0 |}
  else
    let noErrorReports := length (List.filter claimsNoErrors reports) in
    let noErrorRate := (num noErrorReports / num (length reports))%Q in
    if Qgtb noErrorRate 0.9 then
      let realisticRate := 0.65%Q in
      {| isHiding := true;
         hiddenCount :=
           Math_round ((noErrorRate - realisticRate) * num (length reports)) |}
    else {| isHiding := false; hiddenCount := 0 |}.

(** ** detectCherryPicking (lines 1988-2025) *)

Definition allMetricsGood (report : AgentReport) : bool :=
  Qgtb (claimedCodeQuality report) 0.7
  && Qgtb (documentation (quality (claimedOutcome report))) 0.7
  && Qgtb (maintainability (quality (claimedOutcome report))) 0.7
  && claimsTestsPass report.

(** [metrics] is an object, hence truthy; only its number of keys counts. *)
Definition incompleteMetrics (report : AgentReport) : bool :=
  let metricsCount := size (metrics (performance (claimedOutcome report))) in
  (0 <? metricsCount) && (metricsCount <? 4).

Definition detectCherryPicking (reports : list AgentReport) : bool :=
  if length reports <? 5 then false
  else
    let counts :=
      fold_left
        (fun (c : nat * nat) report =>
           (if allMetricsGood report then S c.1 else c.1,
            if incompleteMetrics report then S c.2 else c.2))
        reports (0, 0) in
    let favorableRate := (num counts.1 / num (length reports))%Q in
    let incompleteRate := (num counts.2 / num (length reports))%Q in
    Qgtb favorableRate 0.7 && Qgtb incompleteRate 0.5.

(** ** detectContradictions (lines 2030-2075) *)

(** [taskReports.sort((a, b) => a.timestamp - b.timestamp)]; the sort is
    stable. *)
Fixpoint insertReport (x : AgentReport) (sorted : list AgentReport)
  : list AgentReport :=
  match sorted with
  | [] => [x]
  | y :: rest =>
      if (timestamp x <? timestamp y)%Z then x :: y :: rest
      else y :: insertReport x rest
  end.

Definition sortByTimestamp (reports : list AgentReport) : list AgentReport :=
  fold_left (fun sorted x => insertReport x sorted) reports [].

(** The inner loop over adjacent reports [prev], [curr] of one task. *)
Fixpoint countFlips (taskReports : list AgentReport) : nat :=
  match taskReports with
  | prev :: (curr :: _) as rest =>
      (if negb (Bool.eqb (claimsSuccess prev) (claimsSuccess curr))
       then 1 else 0)
      + (if Qgtb (Qabs (claimedImprovement prev - claimedImprovement curr)) 0.3
         then 1 else 0)
      + countFlips rest
  | _ => 0
  end.

Record Contradictions := {
  hasContradictions : bool;
  count : nat
}.

Definition detectContradictions (reports : list AgentReport) : Contradictions :=
  if length reports <? 3 then {| hasContradictions := false; count := 0 |}
  else
    let taskGroups := groupByTask reports in
    let contradictionCount :=
      fold_left
        (fun n (group : string * list AgentReport) =>
           if 1 <? length group.2
           then n + countFlips (sortByTimestamp group.2)
           else n)
        taskGroups 0 in
    {| hasContradictions := 0 <? contradictionCount;
       count := contradictionCount |}.

(** ** detectGaslightingPatterns (lines 2080-2118) *)

Record GaslightingPatterns := {
  hasGaslighting : bool;
  hasDiscrediting : bool;
  contradictionCount : nat
}.

Definition ratesOthersPoorly (report : AgentReport) : bool :=
  Qgtb (claimedCodeQuality report) 0.8
  && match evidenceField "otherAgentQuality" report with
     | Some otherAgentQuality =>
         truthy otherAgentQuality && Qltb otherAgentQuality 0.6
     | None => false
     end.

(** The loop body; the state is
    [(contradictionCount, systematicNegativeAssessments)]. *)
Definition inspectOwnReport (report : AgentReport) (st : nat * nat)
  : nat * nat :=
  let st1 := if ratesOthersPoorly report then (S st.1, S st.2) else st in
  if 0 <? length (conflicts report)
  then (st1.1 + length (conflicts report), st1.2)
  else st1.

Definition detectGaslightingPatterns (reports : list AgentReport)
  : GaslightingPatterns :=
  if length reports <? 5 then
    {| hasGaslighting := false; hasDiscrediting := false;
       contradictionCount := 0 |}
  else
    let st := fold_left (fun st report => inspectOwnReport report st)
                reports (0, 0) in
    let discreditingRate := (num st.2 / num (length reports))%Q in
    {| hasGaslighting := 2 <? st.1;
       hasDiscrediting := Qgtb discreditingRate 0.4 || (7 <? st.1);
       contradictionCount := st.1 |}.

(** ** detectFabricationPattern (lines 2123-2165) *)

Definition b2n (b : bool) : nat := if b then 1 else 0.

(** The four checks of the loop body, in source order. *)
Definition patternPerfectResults (report : AgentReport) : bool :=
  Qgtb (claimedCodeQuality report) 0.95
  && claimsTestsPass report && claimsNoErrors report.

Definition patternFastCompletion (report : AgentReport) : bool :=
  match evidenceField "duration" report with
  | Some duration => truthy duration && Qltb duration 1000
  | None => false
  end.

Definition patternIndicators (report : AgentReport) : nat :=
  b2n (patternPerfectResults report)
  + b2n (patternFastCompletion report)
  + b2n (lacksEvidence report)
  + b2n (Qgtb (claimedImprovement report) 0.5).

Module FabricationPattern.
Record t := {
  isFabricated : bool;
  inconsistencyScore : Q
}.
End FabricationPattern.

(** The loop, with state [(fabricationIndicators, totalIndicators)]. *)
Definition tallyIndicators (reports : list AgentReport) : nat * nat :=
  fold_left
    (fun (st : nat * nat) report => (st.1 + patternIndicators report, st.2 + 4))
    reports (0, 0).

Definition detectFabricationPattern (reports : list AgentReport)
  : FabricationPattern.t :=
  if length reports <? 5 then
    {| FabricationPattern.isFabricated := false;
       FabricationPattern.inconsistencyScore := 0 |}
  else
    let st := tallyIndicators reports in
    let inconsistencyScore := (num st.1 / num st.2)%Q in
    {| FabricationPattern.isFabricated := Qgtb inconsistencyScore 0.4;
       FabricationPattern.inconsistencyScore := inconsistencyScore |}.

(** ** DeceptionAnalysis *)

(** The values the detector stores under the keys of [analysis.evidence]. *)
Inductive EvidenceValue :=
| EvNum (q : Q)
| EvBool (b : bool).

Module DeceptionAnalysis.
Record t := {
  reportId : option string;
  agentId : string;
  truthScore : Q;
  deceptionDetected : bool;
  deceptionType : list string;
  confidence : Q;
  evidence : gmap string EvidenceValue;
  recommendations : list string
}.
End DeceptionAnalysis.

Import DeceptionAnalysis (deceptionDetected, deceptionType, recommendations).

(** The assignments that [analyzeAgentPattern] makes to the fields of
    [analysis]. *)
Definition markDetected (a : DeceptionAnalysis.t) : DeceptionAnalysis.t :=
  {| DeceptionAnalysis.reportId := DeceptionAnalysis.reportId a;
     DeceptionAnalysis.agentId := DeceptionAnalysis.agentId a;
     DeceptionAnalysis.truthScore := DeceptionAnalysis.truthScore a;
     deceptionDetected := true;
     deceptionType := deceptionType a;
     DeceptionAnalysis.confidence := DeceptionAnalysis.confidence a;
     DeceptionAnalysis.evidence := DeceptionAnalysis.evidence a;
     recommendations := recommendations a |}.

Definition pushType (label : string) (a : DeceptionAnalysis.t)
  : DeceptionAnalysis.t :=
  {| DeceptionAnalysis.reportId := DeceptionAnalysis.reportId a;
     DeceptionAnalysis.agentId := DeceptionAnalysis.agentId a;
     DeceptionAnalysis.truthScore := DeceptionAnalysis.truthScore a;
     deceptionDetected := deceptionDetected a;
     deceptionType := deceptionType a ++ [label];
     DeceptionAnalysis.confidence := DeceptionAnalysis.confidence a;
     DeceptionAnalysis.evidence := DeceptionAnalysis.evidence a;
     recommendations := recommendations a |}.

Definition setEvidence (key : string) (v : EvidenceValue)
    (a : DeceptionAnalysis.t) : DeceptionAnalysis.t :=
  {| DeceptionAnalysis.reportId := DeceptionAnalysis.reportId a;
     DeceptionAnalysis.agentId := DeceptionAnalysis.agentId a;
     DeceptionAnalysis.truthScore := DeceptionAnalysis.truthScore a;
     deceptionDetected := deceptionDetected a;
     deceptionType := deceptionType a;
     DeceptionAnalysis.confidence := DeceptionAnalysis.confidence a;
     DeceptionAnalysis.evidence := <[key := v]> (DeceptionAnalysis.evidence a);
     recommendations := recommendations a |}.

Definition setConfidence (c : Q) (a : DeceptionAnalysis.t)
  : DeceptionAnalysis.t :=
  {| DeceptionAnalysis.reportId := DeceptionAnalysis.reportId a;
     DeceptionAnalysis.agentId := DeceptionAnalysis.agentId a;
     DeceptionAnalysis.truthScore := DeceptionAnalysis.truthScore a;
     deceptionDetected := deceptionDetected a;
     deceptionType := deceptionType a;
     DeceptionAnalysis.confidence := c;
     DeceptionAnalysis.evidence := DeceptionAnalysis.evidence a;
     recommendations := recommendations a |}.

Definition addConfidence (delta : Q) (a : DeceptionAnalysis.t)
  : DeceptionAnalysis.t :=
  setConfidence (DeceptionAnalysis.confidence a + delta) a.

Definition setTruthScore (s : Q) (a : DeceptionAnalysis.t)
  : DeceptionAnalysis.t :=
  {| DeceptionAnalysis.reportId := DeceptionAnalysis.reportId a;
     DeceptionAnalysis.agentId := DeceptionAnalysis.agentId a;
     DeceptionAnalysis.truthScore := s;
     deceptionDetected := deceptionDetected a;
     deceptionType := deceptionType a;
     DeceptionAnalysis.confidence := DeceptionAnalysis.confidence a;
     DeceptionAnalysis.evidence := DeceptionAnalysis.evidence a;
     recommendations := recommendations a |}.

Definition setRecommendations (rs : list string) (a : DeceptionAnalysis.t)
  : DeceptionAnalysis.t :=
  {| DeceptionAnalysis.reportId := DeceptionAnalysis.reportId a;
     DeceptionAnalysis.agentId := DeceptionAnalysis.agentId a;
     DeceptionAnalysis.truthScore := DeceptionAnalysis.truthScore a;
     deceptionDetected := deceptionDetected a;
     deceptionType := deceptionType a;
     DeceptionAnalysis.confidence := DeceptionAnalysis.confidence a;
     DeceptionAnalysis.evidence := DeceptionAnalysis.evidence a;
     recommendations := rs |}.

(** [array.includes(label)] on an array of strings. *)
Definition includes (label : string) (labels : list string) : bool :=
  existsb (String.eqb label) labels.

(** ** calculateOverallTruthScore (lines 2167-2201) *)

Definition deduct (label : string) (penalty : Q) (a : DeceptionAnalysis.t)
    (score : Q) : Q :=
  if includes label (deceptionType a) then (score - penalty)%Q else score.

Definition calculateOverallTruthScore (reports : list AgentReport)
    (analysis : DeceptionAnalysis.t) : Q :=
  let score := 1.0%Q in
  let score := deduct "overconfidence" 0.25 analysis score in
  let score := deduct "exaggeration" 0.2 analysis score in
  let score := deduct "quality-inflation" 0.15 analysis score in
  let score := deduct "inconsistency" 0.2 analysis score in
  let score := deduct "issue_hiding" 0.2 analysis score in
  let score := deduct "cherry_picking" 0.15 analysis score in
  let score := deduct "fabrication" 0.3 analysis score in
  let score := deduct "impossible_claims" 0.25 analysis score in
  let score := deduct "contradictory_statements" 0.2 analysis score in
  Qmax 0 (Qmin 1 score).

(** ** generateRecommendations (lines 2203-2262) *)

Definition recommend (fires : bool) (texts : list string)
    (recommendations : list string) : list string :=
  if fires then recommendations ++ texts else recommendations.

Definition generateRecommendations (analysis : DeceptionAnalysis.t)
  : list string :=
  let has label := includes label (deceptionType analysis) in
  let rs := [] in
  let rs := recommend (has "overconfidence")
    ["Implement stricter verification for this agent";
     "Require additional evidence for success claims";
     "Implement additional verification for this agent"] rs in
  let rs := recommend (has "exaggeration")
    ["Cross-verify performance claims with actual metrics";
     "Implement automated performance testing"] rs in
  let rs := recommend (has "quality-inflation")
    ["Add mandatory code review by independent agent";
     "Implement automated quality assessment"] rs in
  let rs := recommend (has "inconsistency")
    ["Flag for manual review due to inconsistent reporting";
     "Increase monitoring frequency"] rs in
  let rs := recommend (has "issue_hiding")
    ["Require detailed issue reporting";
     "Implement automated error detection"] rs in
  let rs := recommend (has "cherry_picking")
    ["Require comprehensive metrics reporting";
     "Mandate reporting of both positive and negative metrics"] rs in
  let rs := recommend (has "fabrication")
    ["Require third-party verification for all claims";
     "Implement evidence validation system"] rs in
  let rs := recommend (has "impossible_claims")
    ["Require third-party verification for performance claims";
     "Flag unrealistic improvements automatically"] rs in
  let rs := recommend (has "contradictory_statements")
    ["Implement immutable audit trail for agent reports";
     "Cross-reference with historical reports"] rs in
  let rs := recommend (has "gaslighting" || has "discrediting_others")
    ["Implement multi-agent consensus verification";
     "Monitor for systematic disagreement patterns"] rs in
  recommend (Qgtb (DeceptionAnalysis.confidence analysis) 0.8)
    ["CRITICAL: High confidence deception detected - escalate immediately"] rs.

(** ** The per-agent history (field [analysisHistory], lines 1611, 2340)

    The detector state: of the three fields of the class, [truthCalculator]
    and [tempDir] are read by no analysis. *)

Record DetectorState := {
  analysisHistory : gmap string (list DeceptionAnalysis.t)
}.

Definition getAgentHistory (agentId : string) (st : DetectorState)
  : list DeceptionAnalysis.t :=
  default [] (analysisHistory st !! agentId).

(** [if (!has(agentId)) set(agentId, []); get(agentId).push(analysis)]. *)
Definition storeAnalysis (agentId : string) (analysis : DeceptionAnalysis.t)
    (st : DetectorState) : DetectorState :=
  let history :=
    match analysisHistory st !! agentId with
    | Some _ => analysisHistory st
    | None => <[agentId := []]> (analysisHistory st)
    end in
  {| analysisHistory := alter (fun l => l ++ [analysis]) agentId history |}.

(** ** analyzeConsistency and analyzeAgentPattern

    [Math.sqrt] is the one operation of the detector that leaves the
    rationals.  It is a parameter of the embedding: what is proved below holds
    for every function [Math_sqrt]. *)

Section Detector.

Variable Math_sqrt : Q -> Q.

(** lines 1941-1957 *)
Definition analyzeConsistency (reports : list AgentReport) : Q :=
  if length reports <? 2 then 1.0%Q
  else
    let improvements := map claimedImprovement reports in
    let avgImprovement :=
      (fold_left Qplus improvements 0 / num (length improvements))%Q in
    let variance :=
      (fold_left (fun sum val => sum + (val - avgImprovement) ^ 2)
         improvements 0 / num (length improvements))%Q in
    let stdDev := Math_sqrt variance in
    Qmax 0 (1 - stdDev * 2).

(** The blocks of [analyzeAgentPattern] between the empty-list return and the
    truth score (lines 1642-1737), one definition per sub-check called. *)

Definition checkSuccessRates (reports : list AgentReport)
    (analysis : DeceptionAnalysis.t) : DeceptionAnalysis.t :=
  let discrepancy := analyzeSuccessRates reports in
  if Qgtb discrepancy 0.15 then
    addConfidence 0.3
      (setEvidence "successRateDiscrepancy" (EvNum discrepancy)
         (pushType "overconfidence" (markDetected analysis)))
  else analysis.

Definition checkPerformanceClaims (reports : list AgentReport)
    (analysis : DeceptionAnalysis.t) : DeceptionAnalysis.t :=
  let exaggeration := analyzePerformanceClaims reports in
  let analysis :=
    if Qgtb exaggeration 0.1 then
      addConfidence 0.25
        (setEvidence "performanceExaggeration" (EvNum exaggeration)
           (pushType "exaggeration" (markDetected analysis)))
    else analysis in
  if Qgtb exaggeration 0.5 then
    addConfidence 0.2
      (setEvidence "impossiblePerformanceGains" (EvBool true)
         (pushType "impossible_claims" analysis))
  else analysis.

Definition checkQualityClaims (reports : list AgentReport)
    (analysis : DeceptionAnalysis.t) : DeceptionAnalysis.t :=
  let inflation := analyzeQualityClaims reports in
  if Qgtb inflation 0.15 then
    addConfidence 0.2
      (setEvidence "qualityInflation" (EvNum inflation)
         (pushType "quality-inflation" (markDetected analysis)))
  else analysis.

Definition checkConsistency (reports : list AgentReport)
    (analysis : DeceptionAnalysis.t) : DeceptionAnalysis.t :=
  let consistency := analyzeConsistency reports in
  if Qltb consistency 0.5 then
    addConfidence 0.25
      (setEvidence "inconsistencyScore" (EvNum (1 - consistency))
         (pushType "inconsistency" (markDetected analysis)))
  else analysis.

Definition checkIssueHiding (reports : list AgentReport)
    (analysis : DeceptionAnalysis.t) : DeceptionAnalysis.t :=
  let issueHidingAnalysis := detectIssueHiding reports in
  if isHiding issueHidingAnalysis then
    addConfidence 0.3
      (setEvidence "hiddenIssuesCount"
         (EvNum (hiddenCount issueHidingAnalysis))
         (pushType "issue_hiding" (markDetected analysis)))
  else analysis.

Definition checkCherryPicking (reports : list AgentReport)
    (analysis : DeceptionAnalysis.t) : DeceptionAnalysis.t :=
  if detectCherryPicking reports then
    addConfidence 0.25
      (setEvidence "incompleteMetricsReporting" (EvBool true)
         (pushType "cherry_picking" (markDetected analysis)))
  else analysis.

Definition checkContradictions (reports : list AgentReport)
    (analysis : DeceptionAnalysis.t) : DeceptionAnalysis.t :=
  let contradictionAnalysis := detectContradictions reports in
  if hasContradictions contradictionAnalysis then
    addConfidence 0.3
      (setEvidence "contradictionCount"
         (EvNum (num (count contradictionAnalysis)))
         (pushType "contradictory_statements" (markDetected analysis)))
  else analysis.

Definition checkFabricationPattern (reports : list AgentReport)
    (analysis : DeceptionAnalysis.t) : DeceptionAnalysis.t :=
  let fabricationAnalysis := detectFabricationPattern reports in
  if FabricationPattern.isFabricated fabricationAnalysis then
    addConfidence 0.35
      (setEvidence "evidenceInconsistency"
         (EvNum (FabricationPattern.inconsistencyScore fabricationAnalysis))
         (setEvidence "unrealisticResults" (EvBool true)
            (pushType "fabrication" (markDetected analysis))))
  else analysis.

Definition checkGaslightingPatterns (reports : list AgentReport)
    (analysis : DeceptionAnalysis.t) : DeceptionAnalysis.t :=
  let gaslightingIndicators := detectGaslightingPatterns reports in
  let analysis :=
    if hasGaslighting gaslightingIndicators then
      addConfidence 0.3
        (setEvidence "contradictionsWithOtherAgents"
           (EvNum (num (contradictionCount gaslightingIndicators)))
           (pushType "gaslighting" (markDetected analysis)))
    else analysis in
  if hasDiscrediting gaslightingIndicators then
    addConfidence 0.35
      (setEvidence "systematicDisagreement" (EvBool true)
         (pushType "discrediting_others" (markDetected analysis)))
  else analysis.

Definition runChecks (reports : list AgentReport)
    (analysis : DeceptionAnalysis.t) : DeceptionAnalysis.t :=
  let analysis := checkSuccessRates reports analysis in
  let analysis := checkPerformanceClaims reports analysis in
  let analysis := checkQualityClaims reports analysis in
  let analysis := checkConsistency reports analysis in
  let analysis := checkIssueHiding reports analysis in
  let analysis := checkCherryPicking reports analysis in
  let analysis := checkContradictions reports analysis in
  let analysis := checkFabricationPattern reports analysis in
  checkGaslightingPatterns reports analysis.

(** The object literal that opens [analyzeAgentPattern]. *)
Definition newAnalysis (agentId : string) : DeceptionAnalysis.t :=
  {| DeceptionAnalysis.reportId := None;
     DeceptionAnalysis.agentId := agentId;
     DeceptionAnalysis.truthScore := 1.0;
     deceptionDetected := false;
     deceptionType := [];
     DeceptionAnalysis.confidence := 0;
     DeceptionAnalysis.evidence := ∅;
     recommendations := [] |}.

(** lines 1627-1755.  The method is [async] but never awaits: it runs to
    completion on the detector state it is given. *)
Definition analyzeAgentPattern (agentId : string) (reports : list AgentReport)
    (st : DetectorState) : DeceptionAnalysis.t * DetectorState :=
  let analysis := newAnalysis agentId in
  if length reports =? 0 then (analysis, st)
  else
    let analysis := runChecks reports analysis in
    let analysis :=
      setTruthScore (calculateOverallTruthScore reports analysis) analysis in
    let analysis :=
      setConfidence (Qmin (DeceptionAnalysis.confidence analysis) 1.0)
        analysis in
    let analysis :=
      setRecommendations (generateRecommendations analysis) analysis in
    (analysis, storeAnalysis agentId analysis st).

End Detector.

(** A dyadic approximation of the square root (52 fractional bits), to run
    the detector on examples. *)
Definition sqrtDyadic (x : Q) : Q :=
  Z.sqrt (Qfloor (x * inject_Z (2 ^ 104))) # (2 ^ 52).

(** ** The indicators that detectFabrication fires *)

Definition standaloneIndicators (report : AgentReport) : nat :=
  length (FabricationResult.indicators (detectFabrication report)).

Definition firesIndicator (label : string) (report : AgentReport) : bool :=
  existsb (String.eqb label)
    (FabricationResult.indicators (detectFabrication report)).

(** ** The fabrication check as the specification words it

    "per-report indicator score (same 4 checks as §4.1, one point each, no
    weighting) averaged over (4·n) total checks; fires when average > 0.4",
    for at least 5 reports: the per-report score is the number of indicators
    that [detectFabrication] returns for the report. *)

Definition specFabricationAverage (reports : list AgentReport) : Q :=
  (num (list_sum (map standaloneIndicators reports))
     / num (4 * length reports))%Q.

Definition specFabricationFires (reports : list AgentReport) : bool :=
  (5 <=? length reports) && Qgtb (specFabricationAverage reports) 0.4.

(** ** Example reports *)

Definition exampleReport (agent task : string) (succeeds passes clean : bool)
    (gain codeQ : Q) (ev : option (gmap string Q)) (time : Z) : AgentReport :=
  {| id := agent +:+ "/" +:+ task;
     agentId := agent;
     taskId := task;
     claimedOutcome :=
       {| success := succeeds;
          testsPass := passes;
          noErrors := clean;
          performance := {| improvement := gain; metrics := ∅ |};
          quality :=
            {| codeQuality := codeQ;
               documentation := 0.5;
               maintainability := 0.5 |} |};
     evidence := ev;
     timestamp := time;
     truthScore := None;
     verified := false;
     conflicts := [] |}.

(** Scenario A of the specification: a flawless report without evidence. *)
Definition flawlessNoEvidence : AgentReport :=
  exampleReport "agent-1" "task-1" true true true 0.1 0.99 None 1700000000000.

(** The same claims, with a one-key evidence bag that holds a half-second
    duration. *)
Definition flawlessHalfSecond : AgentReport :=
  exampleReport "agent-1" "task-1" true true true 0.1 0.99
    (Some {[ "duration" := 500%Q ]}) 1700000000000.

(** A report of a half-second duration whose timestamp is 0. *)
Definition halfSecondNoTimestamp : AgentReport :=
  exampleReport "agent-1" "task-1" false false false 0.1 0.5
    (Some {[ "duration" := 500%Q ]}) 0.

(** Tests pass, no errors, top code quality, and yet the task is reported as
    failed; no evidence. *)
Definition flawlessButFailed : AgentReport :=
  exampleReport "agent-1" "task-1" false true true 0 0.99 None 1700000000000.

(** Scenario D of the specification: two tasks, two reports each, the same
    code quality 0.95, and the two reports of a task one second apart. *)
Definition scenarioD : list AgentReport :=
  [ exampleReport "agent-1" "task-1" false true true 0.1 0.95 None
      1700000000000;
    exampleReport "agent-2" "task-1" false true true 0.1 0.95 None
      1700000001000;
    exampleReport "agent-1" "task-2" false true true 0.1 0.95 None
      1700000060000;
    exampleReport "agent-2" "task-2" false true true 0.1 0.95 None
      1700000061000 ].

(** A report that claims everything at once. *)
Definition boastful : AgentReport :=
  exampleReport "agent-1" "task-1" true true true 0.9 0.99 None 1700000000000.

(** Reports that have no bearing on [boastful]: two on another task, and a
    later one of the same agent on the same task. *)
Definition unrelated : list AgentReport :=
  [ exampleReport "agent-2" "task-2" false false false 0 0.1 None
      1700000002000;
    exampleReport "agent-3" "task-2" false false false 0 0.1 None
      1700000003000;
    exampleReport "agent-1" "task-1" false false false 0 0.1 None
      1700000004000 ].

(** Scenario C of the specification: two agents disagree on the success of
    a task and on nothing else. *)
Definition claimsDone : AgentReport :=
  exampleReport "agent-1" "task-1" true true true 0.2 0.7 None 1700000000000.
Definition claimsFailed : AgentReport :=
  exampleReport "agent-2" "task-1" false true true 0.2 0.7 None 1700000005000.

Definition emptyDetector : DetectorState := {| analysisHistory := ∅ |}.

(** ** Notions used in the statements *)

(** The claims that [detectCollusion] calls unrealistic when all the reports
    of a task make them. *)
Definition unrealistic (r : AgentReport) : Prop :=
  claimsSuccess r = true /\ claimsNoErrors r = true
  /\ (0.3 < claimedImprovement r)%Q.

(** The three [every] tests of [detectCollusion] on a group of two. *)
Definition pairAgrees (ra rb : AgentReport) : bool :=
  (claimsSuccess ra && claimsSuccess rb)
  && (claimsNoErrors ra && claimsNoErrors rb)
  && (Qgtb (claimedImprovement ra) 0.3 && Qgtb (claimedImprovement rb) 0.3).

(** The conditions under which [checkPerfectResults] and [checkTiming]
    push their indicator. *)
Definition perfectResultsFire (report : AgentReport) : bool :=
  claimsTestsPass report && claimsNoErrors report && claimsSuccess report
  && Qgtb (claimedCodeQuality report) 0.95.

Definition timingFires (report : AgentReport) : bool :=
  match evidenceField "duration" report with
  | Some duration =>
      negb (timestamp report =? 0)%Z && truthy duration && Qltb duration 1000
  | None => false
  end.

(** [fabricationScore] as a function of the outcomes of the four tests of
    [detectFabrication]: in the rationals, and in binary64 as the source
    computes it. *)
Definition exactScore (perfect lacks fast over : bool) : Q :=
  let s := 0%Q in
  let s := if perfect then (s + 0.3)%Q else s in
  let s := if lacks then (s + 0.2)%Q else s in
  let s := if fast then (s + 0.25)%Q else s in
  if over then (s + 0.25)%Q else s.

Definition binary64Score (perfect lacks fast over : bool) : float :=
  let s := 0%float in
  let s := if perfect then (s + 0.3)%float else s in
  let s := if lacks then (s + 0.2)%float else s in
  let s := if fast then (s + 0.25)%float else s in
  if over then (s + 0.25)%float else s.

(** A check of [analyzeAgentPattern] that leaves the label fabrication
    alone. *)
Definition keepsFabrication
    (check : DeceptionAnalysis.t -> DeceptionAnalysis.t) : Prop :=
  forall a, includes "fabrication" (deceptionType (check a))
            = includes "fabrication" (deceptionType a).

(** Five reports of passing tests and top quality on a failed task, and twenty
    reports that claim everything. *)
Definition fiveFailed : list AgentReport := replicate 5 flawlessButFailed.
Definition twentyBoasts : list AgentReport := replicate 20 boastful.

(** Five reports that claim success and everything else. *)
Definition fiveBoasts : list AgentReport := replicate 5 boastful.

(** ** detectSelectiveReporting (lines 1818-1857) *)

(** The three shapes of the [evidence] object that
    [detectSelectiveReporting] returns. *)
Inductive SelectiveEvidence :=
| NoPattern
| AlwaysPositive (reportedSuccessRate : Q) (totalReports : nat)
| NoErrorsReported (totalReports : nat).

Module SelectiveResult.
Record t := {
  isSelective : bool;
  confidence : Q;
  evidence : SelectiveEvidence
}.
End SelectiveResult.

Definition detectSelectiveReporting (reports : list AgentReport)
  : SelectiveResult.t :=
  if length reports <? 5 then
    {| SelectiveResult.isSelective := false;
       SelectiveResult.confidence := 0;
       SelectiveResult.evidence := NoPattern |}
  else
    let successCount := length (List.filter claimsSuccess reports) in
    let successRate := (num successCount / num (length reports))%Q in
    if Qgtb successRate 0.95 && (10 <? length reports) then
      {| SelectiveResult.isSelective := true;
         SelectiveResult.confidence := 0.8;
         SelectiveResult.evidence :=
           AlwaysPositive successRate (length reports) |}
    else
      let errorReports :=
        List.filter (fun r => negb (claimsNoErrors r)) reports in
      if (length errorReports =? 0) && (15 <? length reports) then
        {| SelectiveResult.isSelective := true;
           SelectiveResult.confidence := 0.7;
           SelectiveResult.evidence := NoErrorsReported (length reports) |}
      else
        {| SelectiveResult.isSelective := false;
           SelectiveResult.confidence := 0;
           SelectiveResult.evidence := NoPattern |}.

(** ** analyzeSingleReport (lines 1760-1765) *)

Definition setReportId (reportId : string) (a : DeceptionAnalysis.t)
  : DeceptionAnalysis.t :=
  {| DeceptionAnalysis.reportId := Some reportId;
     DeceptionAnalysis.agentId := DeceptionAnalysis.agentId a;
     DeceptionAnalysis.truthScore := DeceptionAnalysis.truthScore a;
     deceptionDetected := deceptionDetected a;
     deceptionType := deceptionType a;
     DeceptionAnalysis.confidence := DeceptionAnalysis.confidence a;
     DeceptionAnalysis.evidence := DeceptionAnalysis.evidence a;
     recommendations := recommendations a |}.

(** An assignment to a field of the last object of an array. *)
Fixpoint updateLast {A} (f : A -> A) (l : list A) : list A :=
  match l with
  | [] => []
  | [x] => [f x]
  | x :: rest => x :: updateLast f rest
  end.

(** [allReports] is never empty, so [analyzeAgentPattern] has pushed the
    analysis it returns onto the history of [report.agentId]: the object
    returned and the last object of that history are one object, and
    [analysis.reportId = report.id] shows in both. *)
Definition analyzeSingleReport (Math_sqrt : Q -> Q) (report : AgentReport)
    (historicalReports : list AgentReport) (st : DetectorState)
  : DeceptionAnalysis.t * DetectorState :=
  let allReports := historicalReports ++ [report] in
  let result := analyzeAgentPattern Math_sqrt (agentId report) allReports st in
  (setReportId (id report) result.1,
   {| analysisHistory :=
        alter (updateLast (setReportId (id report))) (agentId report)
          (analysisHistory result.2) |}).

(** ** calculateRiskScore (lines 2347-2378) *)

Inductive RiskLevel := low | medium | high | critical.

Module RiskResult.
Record t := {
  riskScore : Q;
  riskLevel : RiskLevel;
  recentPatterns : list string
}.
End RiskResult.

(** [Array.from(new Set(labels))]: a [Set] keeps the first occurrence of each
    value, in insertion order. *)
Definition uniqueStrings (labels : list string) : list string :=
  fold_left (fun seen x => if includes x seen then seen else seen ++ [x])
    labels [].

(** [history.slice(-5)]. *)
Definition lastFive {A} (l : list A) : list A := skipn (length l - 5) l.

Definition calculateRiskScore (agentId : string) (st : DetectorState)
  : RiskResult.t :=
  let history := getAgentHistory agentId st in
  if length history =? 0 then
    {| RiskResult.riskScore := 0;
       RiskResult.riskLevel := low;
       RiskResult.recentPatterns := [] |}
  else
    let avgTruthScore :=
      (fold_left (fun sum a => sum + DeceptionAnalysis.truthScore a) history 0
         / num (length history))%Q in
    let avgConfidence :=
      (fold_left (fun sum a => sum + DeceptionAnalysis.confidence a) history 0
         / num (length history))%Q in
    let deceptionCount := length (List.filter deceptionDetected history) in
    let deceptionRate := (num deceptionCount / num (length history))%Q in
    let riskScore :=
      ((1 - avgTruthScore) * 0.4 + avgConfidence * 0.3
         + deceptionRate * 0.3)%Q in
    let riskLevel :=
      if Qltb riskScore 0.3 then low
      else if Qltb riskScore 0.5 then medium
      else if Qltb riskScore 0.7 then high
      else critical in
    let recentAnalyses := lastFive history in
    let recentPatterns :=
      uniqueStrings (flat_map deceptionType recentAnalyses) in
    {| RiskResult.riskScore := riskScore;
       RiskResult.riskLevel := riskLevel;
       RiskResult.recentPatterns := recentPatterns |}.

(** The detector states that the methods of the class produce from a new
    detector. *)
Inductive reachable (Math_sqrt : Q -> Q) : DetectorState -> Prop :=
| reachable_new : reachable Math_sqrt {| analysisHistory := ∅ |}
| reachable_pattern st agentId reports :
    reachable Math_sqrt st ->
    reachable Math_sqrt (analyzeAgentPattern Math_sqrt agentId reports st).2
| reachable_single st report historicalReports :
    reachable Math_sqrt st ->
    reachable Math_sqrt
      (analyzeSingleReport Math_sqrt report historicalReports st).2.

(** ** What the checks of analyzeAgentPattern decide

    The conditions of the [if]s of lines 1642-1737, and the labels they push,
    in the order of the source. *)

Definition firesOverconfidence (reports : list AgentReport) : bool :=
  Qgtb (analyzeSuccessRates reports) 0.15.
Definition firesExaggeration (reports : list AgentReport) : bool :=
  Qgtb (analyzePerformanceClaims reports) 0.1.
Definition firesImpossibleClaims (reports : list AgentReport) : bool :=
  Qgtb (analyzePerformanceClaims reports) 0.5.
Definition firesQualityInflation (reports : list AgentReport) : bool :=
  Qgtb (analyzeQualityClaims reports) 0.15.
Definition firesInconsistency (Math_sqrt : Q -> Q)
    (reports : list AgentReport) : bool :=
  Qltb (analyzeConsistency Math_sqrt reports) 0.5.

Definition label (fires : bool) (name : string) : list string :=
  if fires then [name] else [].

Definition firedLabels (Math_sqrt : Q -> Q) (reports : list AgentReport)
  : list string :=
  label (firesOverconfidence reports) "overconfidence"
  ++ label (firesExaggeration reports) "exaggeration"
  ++ label (firesImpossibleClaims reports) "impossible_claims"
  ++ label (firesQualityInflation reports) "quality-inflation"
  ++ label (firesInconsistency Math_sqrt reports) "inconsistency"
  ++ label (isHiding (detectIssueHiding reports)) "issue_hiding"
  ++ label (detectCherryPicking reports) "cherry_picking"
  ++ label (hasContradictions (detectContradictions reports))
       "contradictory_statements"
  ++ label (FabricationPattern.isFabricated (detectFabricationPattern reports))
       "fabrication"
  ++ label (hasGaslighting (detectGaslightingPatterns reports)) "gaslighting"
  ++ label (hasDiscrediting (detectGaslightingPatterns reports))
       "discrediting_others".

(** The labels of the taxonomy, in the order in which the checks run. *)
Definition taxonomy : list string :=
  [ "overconfidence"; "exaggeration"; "impossible_claims";
    "quality-inflation"; "inconsistency"; "issue_hiding"; "cherry_picking";
    "contradictory_statements"; "fabrication"; "gaslighting";
    "discrediting_others" ].

(** The labels for which [calculateOverallTruthScore] deducts a penalty. *)
Definition penalized : list string :=
  [ "overconfidence"; "exaggeration"; "quality-inflation"; "inconsistency";
    "issue_hiding"; "cherry_picking"; "fabrication"; "impossible_claims";
    "contradictory_statements" ].

(** The confidence that [analyzeAgentPattern] adds when it pushes a label
    (the [analysis.confidence += ...] next to each [push]). *)
Definition confidenceDelta (name : string) : Q :=
  if String.eqb name "overconfidence" then 0.3
  else if String.eqb name "exaggeration" then 0.25
  else if String.eqb name "impossible_claims" then 0.2
  else if String.eqb name "quality-inflation" then 0.2
  else if String.eqb name "inconsistency" then 0.25
  else if String.eqb name "issue_hiding" then 0.3
  else if String.eqb name "cherry_picking" then 0.25
  else if String.eqb name "contradictory_statements" then 0.3
  else if String.eqb name "fabrication" then 0.35
  else if String.eqb name "gaslighting" then 0.3
  else if String.eqb name "discrediting_others" then 0.35
  else 0.

Definition addDeltas (names : list string) (confidence : Q) : Q :=
  fold_left (fun c name => (c + confidenceDelta name)%Q) names confidence.

(** The least number of reports from which a label can fire: the
    [reports.length < n] gates of the sub-checks. *)
Definition minReports (name : string) : nat :=
  if String.eqb name "inconsistency" then 2
  else if String.eqb name "contradictory_statements" then 3
  else if String.eqb name "cherry_picking" then 5
  else if String.eqb name "fabrication" then 5
  else if String.eqb name "gaslighting" then 5
  else if String.eqb name "discrediting_others" then 5
  else if String.eqb name "issue_hiding" then 10
  else 1.

(** The indicators of [detectFabrication], in the order of its checks. *)
Definition fabricationIndicators : list string :=
  [ "suspiciously-perfect-results"; "insufficient-evidence";
    "unrealistically-fast-completion"; "unrealistic-performance-improvement" ].

(** Four reports with the same boastful claims and the same timestamp, each
    on a task of its own. *)
Definition distinctTasks : list AgentReport :=
  [ exampleReport "agent-1" "task-1" true true true 0.9 0.99 None
      1700000000000;
    exampleReport "agent-2" "task-2" true true true 0.9 0.99 None
      1700000000000;
    exampleReport "agent-3" "task-3" true true true 0.9 0.99 None
      1700000000000;
    exampleReport "agent-4" "task-4" true true true 0.9 0.99 None
      1700000000000 ].

(** What every analysis that the detector stores satisfies. *)
Definition soundAnalysis (a : DeceptionAnalysis.t) : Prop :=
  (0 <= DeceptionAnalysis.confidence a <= 1)%Q
  /\ (0 <= DeceptionAnalysis.truthScore a <= 1)%Q
  /\ (deceptionDetected a = false ->
      (DeceptionAnalysis.confidence a == 0)%Q
      /\ (DeceptionAnalysis.truthScore a == 1)%Q
      /\ deceptionType a = [])
  /\ (deceptionDetected a = true ->
      (0.2 <= DeceptionAnalysis.confidence a)%Q).

(** The state after one analysis of [twentyBoasts]. *)
Definition afterBoasts : DetectorState :=
  (analyzeAgentPattern sqrtDyadic "agent-1" twentyBoasts emptyDetector).2.

(** * TruthDBAdapter (dist-cjs/src/verification/truth-db-adapter.js)

    ** hashString (lines 247-255) *)

(** [ToInt32], which [<<], [>>] and [&] apply to their operands and to their
    result. *)
Definition toInt32 (x : Z) : Z :=
  ((x + 2147483648) mod 4294967296 - 2147483648)%Z.

(** [str.charCodeAt(i)]: the characters of a Rocq string are the code units
    below 256. *)
Definition charCodeAt (c : Ascii.ascii) : Z := Z.of_N (Ascii.N_of_ascii c).

(** The body of the loop.  [(hash << 5) - hash + char] is a sum of three
    integers below 2^32 in absolute value, which binary64 represents
    exactly. *)
Definition hashStep (hash char : Z) : Z :=
  let hash := (toInt32 (Z.shiftl (toInt32 hash) 5) - hash + char)%Z in
  toInt32 (Z.land (toInt32 hash) (toInt32 hash)).

(** [hashString] on the code units of a string. *)
Definition hashCodeUnits (units : list Z) : Z :=
  Z.abs (fold_left hashStep units 0%Z).

Definition hashString (str : string) : Z :=
  hashCodeUnits (map charCodeAt (String.list_ascii_of_string str)).

(** The polynomial of base 31 over the code units, without wrap-around. *)
Definition polynomial31 (units : list Z) : Z :=
  fold_left (fun h c => (31 * h + c)%Z) units 0%Z.

(** ** Documents *)

Module TruthDocument.
Record t := {
  taskId : option string;
  sessionId : option string;
  timestamp : option Z;
  phase : option string;
  accuracyScore : option Q;
  confidenceScore : option Q;
  passed : bool;
  checksPassed : option (list string);
  checksFailed : option (list string);
  errorCount : option Q
}.
End TruthDocument.

(** The fields [state] and [metadata] of a snapshot are read by no method:
    they are left out. *)
Module SnapshotDocument.
Record t := {
  snapshotId : option string;
  taskId : option string;
  timestamp : option Z;
  phase : option string
}.
End SnapshotDocument.

(** ** generateEmbedding and generateSnapshotEmbedding (lines 178-246) *)

Definition phases : list string :=
  [ "pre-task"; "execution"; "post-task"; "validation"; "complete";
    "failed" ].

(** [array.indexOf(x)]: the first index of [x], or -1. *)
Fixpoint indexFrom (i : Z) (x : string) (l : list string) : Z :=
  match l with
  | [] => (-1)%Z
  | y :: rest => if String.eqb y x then i else indexFrom (i + 1)%Z x rest
  end.

Definition indexOf (x : string) (l : list string) : Z := indexFrom 0 x l.

(** The truth value of a string that may be undefined. *)
Definition truthyString (s : option string) : bool :=
  match s with
  | Some s => negb (String.eqb s "")
  | None => false
  end.

(** [hash >> i & 1], as a condition. *)
Definition hashBit (hash : Z) (i : nat) : bool :=
  negb (Z.land (Z.shiftr (toInt32 hash) (Z.of_nat i)) 1 =? 0)%Z.

(** [for (i = 0; i < 16; i++) embedding[offset + i] = ...]. *)
Definition writeHashBits (offset : nat) (hash : Z) (embedding : list Q)
  : list Q :=
  fold_left
    (fun embedding i =>
       <[offset + i := if hashBit hash i then 0.5%Q else (-0.5)%Q]> embedding)
    (seq 0 16) embedding.

(** [if (id) { const hash = this.hashString(id); for ... }]. *)
Definition writeId (offset : nat) (id : option string) (embedding : list Q)
  : list Q :=
  if truthyString id
  then writeHashBits offset (hashString (default "" id)) embedding
  else embedding.

Definition writePhase (phase : option string) (embedding : list Q) : list Q :=
  let phaseIndex := indexOf (default "pre-task" phase) phases in
  if (0 <=? phaseIndex)%Z && (phaseIndex <? 16)%Z
  then <[Z.to_nat (32 + phaseIndex) := 1%Q]> embedding
  else embedding.

(** [timestamp % 86400000 / 86400000]; [%] has the sign of the dividend. *)
Definition dayNorm (timestamp : Z) : Q :=
  (inject_Z (Z.rem timestamp 86400000) / 86400000)%Q.

(** [array?.length ?? 0]. *)
Definition lengthOr0 (l : option (list string)) : nat :=
  match l with
  | Some l => length l
  | None => 0
  end.

Section TruthDB.

(** [Math.sin], [Math.cos] and [Math.PI] leave the rationals: they are
    parameters.  [now] is what [Date.now()] returns when it is called. *)
Variables Math_sin Math_cos : Q -> Q.
Variable Math_PI : Q.

Definition generateEmbedding (now : Z) (doc : TruthDocument.t) : list Q :=
  let embedding := replicate 128 0%Q in
  let embedding :=
    <[0 := default 0%Q (TruthDocument.accuracyScore doc)]> embedding in
  let embedding :=
    <[1 := default 0%Q (TruthDocument.confidenceScore doc)]> embedding in
  let embedding :=
    <[2 := if TruthDocument.passed doc then 1%Q else 0%Q]> embedding in
  let embedding :=
    <[3 := Qmin (default 0%Q (TruthDocument.errorCount doc) / 10) 1]>
      embedding in
  let embedding :=
    <[4 := Qmin (num (lengthOr0 (TruthDocument.checksPassed doc)) / 20) 1]>
      embedding in
  let embedding :=
    <[5 := Qmin (num (lengthOr0 (TruthDocument.checksFailed doc)) / 20) 1]>
      embedding in
  let timestamp := default now (TruthDocument.timestamp doc) in
  let dayNorm := dayNorm timestamp in
  let embedding := <[16 := dayNorm]> embedding in
  let embedding := <[17 := Math_sin (dayNorm * 2 * Math_PI)]> embedding in
  let embedding := <[18 := Math_cos (dayNorm * 2 * Math_PI)]> embedding in
  let embedding := writePhase (TruthDocument.phase doc) embedding in
  let embedding := writeId 48 (TruthDocument.taskId doc) embedding in
  writeId 64 (TruthDocument.sessionId doc) embedding.

Definition generateSnapshotEmbedding (now : Z) (snapshot : SnapshotDocument.t)
  : list Q :=
  let embedding := replicate 128 0%Q in
  let timestamp := default now (SnapshotDocument.timestamp snapshot) in
  let embedding := <[0 := dayNorm timestamp]> embedding in
  let embedding := writePhase (SnapshotDocument.phase snapshot) embedding in
  let embedding := writeId 48 (SnapshotDocument.taskId snapshot) embedding in
  writeId 80 (SnapshotDocument.snapshotId snapshot) embedding.

End TruthDB.

(** What the block of an id holds at its place [i]: 0 without an id, and
    otherwise 0.5 or -0.5 as bit [i] of the hash of the id is set or not. *)
Definition idEntry (id : option string) (i : nat) : Q :=
  if truthyString id
  then if Z.testbit (hashString (default "" id)) (Z.of_nat i)
       then 0.5%Q else (-0.5)%Q
  else 0%Q.

(** ** The adapter and its backend (lines 1-177)

    The methods are [async]; they are embedded as they run when each call is
    awaited before the next one is made.  Writes to the console are left
    out. *)

(** What the adapter stores with a vector: the document, spread, then
    [_type] ('truth_score' or 'snapshot'), [_storedAt] and, for a truth
    score, [_version]. *)
Inductive Metadata :=
| TruthScoreMeta (data : TruthDocument.t) (storedAt : Z) (version : Z)
| SnapshotMeta (snapshot : SnapshotDocument.t) (storedAt : Z).

(** A call of the backend resolves, or rejects with an error, of which the
    adapter reads the message. *)
Inductive Outcome (A : Type) :=
| Resolved (value : A)
| Rejected (message : string).
Arguments Resolved {A} value.
Arguments Rejected {A} message.

Module SearchOptions.
Record t := {
  k : Z;
  filter : option (string * string)
}.
End SearchOptions.

(** The methods of [AgentDBBackend] that the adapter calls, on a backend in
    state [Backend].  [getVector] resolves with [null], or with a result
    whose [metadata] may be missing; [search] resolves with the [metadata]
    of its results. *)
Class AgentDBBackend (Backend : Type) := {
  backend_initialize : Backend -> Backend * Outcome unit;
  backend_storeVector :
    string -> list Q -> Metadata -> Backend -> Backend * Outcome unit;
  backend_getVector :
    string -> Backend -> Backend * Outcome (option (option Metadata));
  backend_deleteVector : string -> Backend -> Backend * Outcome bool;
  backend_search :
    list Q -> SearchOptions.t -> Backend
    -> Backend * Outcome (list (option Metadata));
  backend_getStats : Backend -> Backend * Outcome Z;
  backend_close : Backend -> Backend * Outcome unit
}.

Inductive BackendCall :=
| CallInitialize
| CallStoreVector (key : string)
| CallGetVector (key : string)
| CallDeleteVector (key : string)
| CallSearch (options : SearchOptions.t)
| CallGetStats
| CallClose.

Definition isInitialize (c : BackendCall) : bool :=
  match c with
  | CallInitialize => true
  | _ => false
  end.

(** The fields of the class; [initPromise] is [null] or a promise, and
    [calls] records the calls made to the backend so far. *)
Record Adapter (Backend : Type) := {
  backend : Backend;
  calls : list BackendCall;
  initialized : bool;
  initPromise : bool
}.
Arguments backend {Backend} _.
Arguments calls {Backend} _.
Arguments initialized {Backend} _.
Arguments initPromise {Backend} _.

(** [getStats] returns one of three objects. *)
Inductive Stats :=
| StatsNotInitialized
| StatsOk (vectorCount : Z)
| StatsError (message : string).

(** [s && s.snapshotId] and [d && d._type === 'truth_score'], on the
    [metadata] of a search result. *)
Definition keepSnapshot (m : option Metadata) : option Metadata :=
  match m with
  | Some (SnapshotMeta s _) =>
      if truthyString (SnapshotDocument.snapshotId s) then m else None
  | _ => None
  end.

Definition keepTruthScore (m : option Metadata) : option Metadata :=
  match m with
  | Some (TruthScoreMeta _ _ _) => m
  | _ => None
  end.

Definition metaTimestamp (m : Metadata) : option Z :=
  match m with
  | TruthScoreMeta d _ _ => TruthDocument.timestamp d
  | SnapshotMeta s _ => SnapshotDocument.timestamp s
  end.

(** [a.timestamp - b.timestamp < 0]; a difference that is [NaN] counts
    as 0. *)
Definition earlier (a b : Metadata) : bool :=
  match metaTimestamp a, metaTimestamp b with
  | Some x, Some y => (x <? y)%Z
  | _, _ => false
  end.

(** [.sort((a, b) => a.timestamp - b.timestamp)]; the sort is stable. *)
Fixpoint insertSnapshot (x : Metadata) (sorted : list Metadata)
  : list Metadata :=
  match sorted with
  | [] => [x]
  | y :: rest =>
      if earlier x y then x :: y :: rest else y :: insertSnapshot x rest
  end.

Definition sortSnapshots (snapshots : list Metadata) : list Metadata :=
  fold_left (fun sorted x => insertSnapshot x sorted) snapshots [].

Section TruthDBAdapter.

Variables Math_sin Math_cos : Q -> Q.
Variable Math_PI : Q.
Context {Backend : Type} `{AgentDBBackend Backend}.

Definition newAdapter (b : Backend) : Adapter Backend :=
  {| backend := b; calls := []; initialized := false; initPromise := false |}.

Definition setInitialized (v : bool) (st : Adapter Backend)
  : Adapter Backend :=
  {| backend := backend st; calls := calls st; initialized := v;
     initPromise := initPromise st |}.

Definition setInitPromise (st : Adapter Backend) : Adapter Backend :=
  {| backend := backend st; calls := calls st;
     initialized := initialized st; initPromise := true |}.

(** [await this.backend.method(...)]. *)
Definition callBackend {A} (c : BackendCall)
    (method : Backend -> Backend * Outcome A) (st : Adapter Backend)
  : Outcome A * Adapter Backend :=
  let r := method (backend st) in
  (r.2,
   {| backend := r.1; calls := calls st ++ [c];
      initialized := initialized st; initPromise := initPromise st |}).

Definition doInitialize (st : Adapter Backend) : Adapter Backend :=
  let r := callBackend CallInitialize backend_initialize st in
  match r.1 with
  | Resolved _ => setInitialized true r.2
  | Rejected _ => setInitialized false r.2
  end.

Definition initialize (st : Adapter Backend) : bool * Adapter Backend :=
  if initialized st then (true, st)
  else if initPromise st then (initialized st, st)
  else
    let st := doInitialize (setInitPromise st) in
    (initialized st, st).

Definition isReady (st : Adapter Backend) : bool := initialized st.

(** [if (!this.initialized) { await this.initialize(); }]. *)
Definition ensureInitialized (st : Adapter Backend) : Adapter Backend :=
  if negb (initialized st) then (initialize st).2 else st.

(** [now] is what [Date.now()] returns inside [generateEmbedding], and
    [storedAt] what it returns for [_storedAt]. *)
Definition saveContext (now storedAt : Z) (taskId : string)
    (data : TruthDocument.t) (st : Adapter Backend)
  : Outcome unit * Adapter Backend :=
  let st := ensureInitialized st in
  if negb (initialized st) then (Resolved tt, st)
  else
    let key := "truth:" +:+ taskId in
    let embedding := generateEmbedding Math_sin Math_cos Math_PI now data in
    let r :=
      callBackend (CallStoreVector key)
        (backend_storeVector key embedding (TruthScoreMeta data storedAt 1))
        st in
    match r.1 with
    | Resolved _ => (Resolved tt, r.2)
    | Rejected error => (Rejected error, r.2)
    end.

Definition getContext (taskId : string) (st : Adapter Backend)
  : option Metadata * Adapter Backend :=
  let st := ensureInitialized st in
  if negb (initialized st) then (None, st)
  else
    let key := "truth:" +:+ taskId in
    let r := callBackend (CallGetVector key) (backend_getVector key) st in
    match r.1 with
    | Resolved (Some (Some metadata)) => (Some metadata, r.2)
    | Resolved _ => (None, r.2)
    | Rejected _ => (None, r.2)
    end.

Definition deleteContext (taskId : string) (st : Adapter Backend)
  : bool * Adapter Backend :=
  if negb (initialized st) then (false, st)
  else
    let key := "truth:" +:+ taskId in
    let r := callBackend (CallDeleteVector key) (backend_deleteVector key) st in
    match r.1 with
    | Resolved deleted => (deleted, r.2)
    | Rejected _ => (false, r.2)
    end.

Definition saveSnapshot (now storedAt : Z) (taskId : string)
    (snapshot : SnapshotDocument.t) (st : Adapter Backend)
  : unit * Adapter Backend :=
  let st := ensureInitialized st in
  if negb (initialized st) then (tt, st)
  else
    let key :=
      "snapshot:" +:+ taskId +:+ ":"
      +:+ default "undefined" (SnapshotDocument.snapshotId snapshot) in
    let embedding := generateSnapshotEmbedding now snapshot in
    let r :=
      callBackend (CallStoreVector key)
        (backend_storeVector key embedding (SnapshotMeta snapshot storedAt))
        st in
    (tt, r.2).

Definition getSnapshots (now : Z) (taskId : string) (st : Adapter Backend)
  : list Metadata * Adapter Backend :=
  if negb (initialized st) then ([], st)
  else
    let queryEmbedding :=
      generateSnapshotEmbedding now
        {| SnapshotDocument.snapshotId := Some "";
           SnapshotDocument.taskId := Some taskId;
           SnapshotDocument.timestamp := Some now;
           SnapshotDocument.phase := Some "query" |} in
    let options :=
      {| SearchOptions.k := 100;
         SearchOptions.filter := Some (taskId, "snapshot") |} in
    let r :=
      callBackend (CallSearch options) (backend_search queryEmbedding options)
        st in
    match r.1 with
    | Resolved results => (sortSnapshots (omap keepSnapshot results), r.2)
    | Rejected _ => ([], r.2)
    end.

(** [k] is [None] when the caller leaves it out. *)
Definition searchSimilar (now : Z) (query : TruthDocument.t) (k : option Z)
    (st : Adapter Backend) : list Metadata * Adapter Backend :=
  if negb (initialized st) then ([], st)
  else
    let embedding := generateEmbedding Math_sin Math_cos Math_PI now query in
    let options :=
      {| SearchOptions.k := default 10%Z k; SearchOptions.filter := None |} in
    let r :=
      callBackend (CallSearch options) (backend_search embedding options) st in
    match r.1 with
    | Resolved results => (omap keepTruthScore results, r.2)
    | Rejected _ => ([], r.2)
    end.

Definition getStats (st : Adapter Backend) : Stats * Adapter Backend :=
  if negb (initialized st) then (StatsNotInitialized, st)
  else
    let r := callBackend CallGetStats backend_getStats st in
    match r.1 with
    | Resolved vectorCount => (StatsOk vectorCount, r.2)
    | Rejected error => (StatsError error, r.2)
    end.

(** A rejection of [backend.close()] leaves [initialized] as it is. *)
Definition close (st : Adapter Backend) : Outcome unit * Adapter Backend :=
  if initialized st then
    let r := callBackend CallClose backend_close st in
    match r.1 with
    | Resolved _ => (Resolved tt, setInitialized false r.2)
    | Rejected error => (Rejected error, r.2)
    end
  else (Resolved tt, st).

(** A caller of the adapter: the calls it can make, and what it gets back. *)
Inductive Method :=
| Initialize
| IsReady
| SaveContext (now storedAt : Z) (taskId : string) (data : TruthDocument.t)
| GetContext (taskId : string)
| DeleteContext (taskId : string)
| SaveSnapshot (now storedAt : Z) (taskId : string)
    (snapshot : SnapshotDocument.t)
| GetSnapshots (now : Z) (taskId : string)
| SearchSimilar (now : Z) (query : TruthDocument.t) (k : option Z)
| GetStats
| Close.

Inductive Reply :=
| ReplyBool (b : bool)
| ReplyDone (outcome : Outcome unit)
| ReplyContext (context : option Metadata)
| ReplyList (documents : list Metadata)
| ReplyStats (stats : Stats).

Definition invoke (m : Method) (st : Adapter Backend)
  : Reply * Adapter Backend :=
  match m with
  | Initialize => let r := initialize st in (ReplyBool r.1, r.2)
  | IsReady => (ReplyBool (isReady st), st)
  | SaveContext now storedAt taskId data =>
      let r := saveContext now storedAt taskId data st in (ReplyDone r.1, r.2)
  | GetContext taskId =>
      let r := getContext taskId st in (ReplyContext r.1, r.2)
  | DeleteContext taskId =>
      let r := deleteContext taskId st in (ReplyBool r.1, r.2)
  | SaveSnapshot now storedAt taskId snapshot =>
      let r := saveSnapshot now storedAt taskId snapshot st in
      (ReplyDone (Resolved tt), r.2)
  | GetSnapshots now taskId =>
      let r := getSnapshots now taskId st in (ReplyList r.1, r.2)
  | SearchSimilar now query k =>
      let r := searchSimilar now query k st in (ReplyList r.1, r.2)
  | GetStats => let r := getStats st in (ReplyStats r.1, r.2)
  | Close => let r := close st in (ReplyDone r.1, r.2)
  end.

Fixpoint run (ms : list Method) (st : Adapter Backend)
  : list Reply * Adapter Backend :=
  match ms with
  | [] => ([], st)
  | m :: rest =>
      let r := invoke m st in
      let rs := run rest r.2 in
      (r.1 :: rs.1, rs.2)
  end.

(** What each method answers when the adapter is not initialized and does
    not initialize. *)
Definition notInitializedReply (m : Method) : Reply :=
  match m with
  | Initialize | IsReady | DeleteContext _ => ReplyBool false
  | SaveContext _ _ _ _ | SaveSnapshot _ _ _ _ | Close =>
      ReplyDone (Resolved tt)
  | GetContext _ => ReplyContext None
  | GetSnapshots _ _ | SearchSimilar _ _ _ => ReplyList []
  | GetStats => ReplyStats StatsNotInitialized
  end.

(** The calls of [backend.initialize] on record. *)
Definition initializeCalls (st : Adapter Backend) : list BackendCall :=
  List.filter isInitialize (calls st).

(** Before the first [initialize] the adapter is not initialized and has
    not called [backend.initialize]; afterwards it has called it once. *)
Definition initializedOnce (st : Adapter Backend) : Prop :=
  if initPromise st then initializeCalls st = [CallInitialize]
  else initialized st = false /\ initializeCalls st = [].

End TruthDBAdapter.

(** [a] is not later than [b]: both carry a timestamp, in this order. *)
Definition notLater (a b : Metadata) : Prop :=
  match metaTimestamp a, metaTimestamp b with
  | Some x, Some y => (x <= y)%Z
  | _, _ => False
  end.

(** The backend of the test suite: every method resolves, with nothing
    stored; [initialize] rejects when [initOk] is false and [search] finds
    [found]. *)
Definition mockBackend (initOk : bool) (found : list (option Metadata))
  : AgentDBBackend unit :=
  {| backend_initialize b :=
       (b, if initOk then Resolved tt else Rejected "DB connection failed");
     backend_storeVector _ _ _ b := (b, Resolved tt);
     backend_getVector _ b := (b, Resolved None);
     backend_deleteVector _ b := (b, Resolved true);
     backend_search _ _ b := (b, Resolved found);
     backend_getStats b := (b, Resolved 0%Z);
     backend_close b := (b, Resolved tt) |}.

(** The sample documents of the test suite. *)
Definition sampleDocument : TruthDocument.t :=
  {| TruthDocument.taskId := Some "task-001";
     TruthDocument.sessionId := Some "session-001";
     TruthDocument.timestamp := Some 1700000000000%Z;
     TruthDocument.phase := Some "validation";
     TruthDocument.accuracyScore := Some 0.95%Q;
     TruthDocument.confidenceScore := Some 0.88%Q;
     TruthDocument.passed := true;
     TruthDocument.checksPassed := Some ["syntax"; "logic"; "format"];
     TruthDocument.checksFailed := Some [];
     TruthDocument.errorCount := Some 0%Q |}.

Definition sampleSnapshot : SnapshotDocument.t :=
  {| SnapshotDocument.snapshotId := Some "snap-001";
     SnapshotDocument.taskId := Some "task-001";
     SnapshotDocument.timestamp := Some 1700000000000%Z;
     SnapshotDocument.phase := Some "pre-task" |}.

(** Three search results: a snapshot of time 2000, a result without
    metadata, and a snapshot of time 1000. *)
Definition exampleSnapshot (snapshotId : string) (time : Z) : Metadata :=
  SnapshotMeta
    {| SnapshotDocument.snapshotId := Some snapshotId;
       SnapshotDocument.taskId := Some "task-1";
       SnapshotDocument.timestamp := Some time;
       SnapshotDocument.phase := Some "execution" |} 3000.

Definition foundSnapshots : list (option Metadata) :=
  [ Some (exampleSnapshot "valid2" 2000); None;
    Some (exampleSnapshot "valid" 1000) ].

(** * createSecuritySystem (dist-cjs/src/verification/index.js, lines 8-52)

    The class [SecurityEnforcementSystem] is not part of these sources: a
    security system is the pair of arguments that its constructor receives.
    Node counts and thresholds are integers.  [Math.floor(totalNodes * 2 / 3)]
    is embedded as the integer quotient: binary64 computes [totalNodes * 2]
    exactly, and below 2^52 its numbers are at most 1/2 apart, so that a
    quotient that ends in 1/3 or 2/3 is never rounded up to the next
    integer.  The two agree for node counts up to [maxExactNodes], 3 * 2^51,
    and no further ([binary64DefaultThreshold]). *)

Definition maxExactNodes : Z := 6755399441055744.

Module SecurityConfig.
Record t := {
  totalNodes : option Z;
  threshold : option Z
}.
End SecurityConfig.

Module SecuritySystem.
Record t := {
  totalNodes : Z;
  threshold : Z
}.
End SecuritySystem.

(** [x || fallback] on a number that may be undefined: 0 is falsy. *)
Definition orElse (x : option Z) (fallback : Z) : Z :=
  match x with
  | Some n => if (n =? 0)%Z then fallback else n
  | None => fallback
  end.

(** [config] is [None] when the caller passes none. *)
Definition createSecuritySystem (config : option SecurityConfig.t)
  : SecuritySystem.t :=
  let totalNodes := orElse (config ≫= SecurityConfig.totalNodes) 5 in
  let threshold :=
    orElse (config ≫= SecurityConfig.threshold)
      (totalNodes * 2 / 3 + 1)%Z in
  {| SecuritySystem.totalNodes := totalNodes;
     SecuritySystem.threshold := threshold |}.

Definition createDevelopmentSecuritySystem : SecuritySystem.t :=
  createSecuritySystem
    (Some {| SecurityConfig.totalNodes := Some 3%Z;
             SecurityConfig.threshold := Some 2%Z |}).

Definition createProductionSecuritySystem : SecuritySystem.t :=
  createSecuritySystem
    (Some {| SecurityConfig.totalNodes := Some 7%Z;
             SecurityConfig.threshold := Some 5%Z |}).

Definition createHighSecuritySystem : SecuritySystem.t :=
  createSecuritySystem
    (Some {| SecurityConfig.totalNodes := Some 9%Z;
             SecurityConfig.threshold := Some 7%Z |}).

(** [Math.floor(x)] on a finite binary64 number. *)
Definition binary64Floor (x : float) : Z :=
  match FloatOps.Prim2SF x with
  | SpecFloat.S754_finite false m e => Z.shiftl (Z.pos m) e
  | SpecFloat.S754_finite true m e => (- Z.shiftl (Z.pos m - 1) e - 1)%Z
  | _ => 0%Z
  end.

(** [Math.floor(totalNodes * 2 / 3) + 1] as binary64 computes it, for a node
    count below 2^53. *)
Definition binary64DefaultThreshold (totalNodes : Z) : Z :=
  (binary64Floor (PrimFloat.of_uint63 (Uint63.of_Z totalNodes) * 2 / 3)%float
   + 1)%Z.

(** Node counts on which the two are compared: 1 to 2000, and the 2000
    counts that end at [maxExactNodes]. *)
Definition sampledNodes : list Z :=
  map (fun k => Z.of_nat k) (seq 1 2000)
  ++ map (fun k => (maxExactNodes - Z.of_nat k)%Z) (seq 0 2000).

(** A threshold of more than two thirds of the nodes. *)
Definition twoThirdsMajority (s : SecuritySystem.t) : Prop :=
  (2 * SecuritySystem.totalNodes s < 3 * SecuritySystem.threshold s)%Z.

(** * Properties *)

(** ** Comparisons *)

Lemma Qgtb_true (a b : Q) : Qgtb a b = true <-> (b < a)%Q.
Proof.
  unfold Qgtb. rewrite negb_true_iff, <- not_true_iff_false, Qle_bool_iff.
  split; [apply Qnot_le_lt | apply Qlt_not_le].
Qed.

Lemma Qgtb_false (a b : Q) : Qgtb a b = false <-> (a <= b)%Q.
Proof. unfold Qgtb. rewrite negb_false_iff. apply Qle_bool_iff. Qed.

Lemma Qltb_true (a b : Q) : Qltb a b = true <-> (a < b)%Q.
Proof. apply Qgtb_true. Qed.

Lemma Qltb_false (a b : Q) : Qltb a b = false <-> (b <= a)%Q.
Proof. apply Qgtb_false. Qed.

Lemma truthy_true (q : Q) : truthy q = true <-> ~ (q == 0)%Q.
Proof.
  unfold truthy. rewrite negb_true_iff, <- not_true_iff_false, Qeq_bool_iff.
  reflexivity.
Qed.

(** ** detectFabrication *)

Lemma pushIndicator_indicators label delta s :
  fs_indicators (pushIndicator label delta s) = fs_indicators s ++ [label].
Proof. reflexivity. Qed.

Lemma checkOverperformance_keeps report s label :
  In label (fs_indicators s) ->
  In label (fs_indicators (checkOverperformance report s)).
Proof.
  intros Hin. unfold checkOverperformance.
  destruct (Qgtb _ _); [|exact Hin].
  rewrite pushIndicator_indicators. apply in_or_app. now left.
Qed.

(** When the timing check does not fire, the state is left as it is. *)
Lemma checkTiming_quiet report s :
  match evidence report with
  | None => True
  | Some ev =>
      timestamp report = 0%Z
      \/ match ev !! "duration" with
         | None => True
         | Some d => (d == 0)%Q \/ (1000 <= d)%Q
         end
  end ->
  checkTiming report s = s.
Proof.
  unfold checkTiming, evidenceField.
  destruct (evidence report) as [ev|]; [|reflexivity].
  destruct (ev !! "duration") as [d|]; [|reflexivity].
  intros [Ht | [Hd | Hd]].
  - rewrite Ht. reflexivity.
  - assert (truthy d = false) as ->.
    { apply not_true_iff_false. rewrite truthy_true. tauto. }
    now rewrite andb_false_r.
  - apply Qltb_false in Hd. rewrite Hd. now destruct (_ && _).
Qed.

(** C3, as amended.  A report that claims passing tests, no errors, success
    and code quality 0.99, with an improvement of at most 0.5, and whose
    evidence is absent, or has fewer than 3 keys and does not trigger the
    fast-completion check (timestamp 0, or no duration, or a duration of at
    least 1000), gets exactly the two indicators suspiciously-perfect-results
    and insufficient-evidence: the confidence is exactly 0.5 and, the
    threshold being strict, isFabricated is false. *)
Theorem detectFabrication_boundary (report : AgentReport) :
  claimsTestsPass report = true ->
  claimsNoErrors report = true ->
  claimsSuccess report = true ->
  (claimedCodeQuality report == 0.99)%Q ->
  (claimedImprovement report <= 0.5)%Q ->
  match evidence report with
  | None => True
  | Some ev =>
      size ev < 3
      /\ (timestamp report = 0%Z
          \/ match ev !! "duration" with
             | None => True
             | Some d => (1000 <= d)%Q
             end)
  end ->
  (FabricationResult.confidence (detectFabrication report) == 0.5)%Q
  /\ FabricationResult.isFabricated (detectFabrication report) = false
  /\ FabricationResult.indicators (detectFabrication report)
     = ["suspiciously-perfect-results"; "insufficient-evidence"].
Proof.
  intros Htests Herrors Hsuccess Hquality Himprovement Hevidence.
  assert (Hperfect : Qgtb (claimedCodeQuality report) 0.95 = true).
  { apply Qgtb_true. rewrite Hquality. reflexivity. }
  assert (Hlacks : lacksEvidence report = true).
  { unfold lacksEvidence. destruct (evidence report) as [ev|]; [|reflexivity].
    apply Nat.ltb_lt. tauto. }
  assert (Hquiet : forall s, checkTiming report s = s).
  { intros s. apply checkTiming_quiet.
    destruct (evidence report) as [ev|]; [|exact I].
    destruct Hevidence as [_ [Htime | Hduration]]; [now left | right].
    destruct (ev !! "duration"); [now right | exact I]. }
  apply Qgtb_false in Himprovement.
  unfold detectFabrication, fabricationState, checkOverperformance.
  rewrite Himprovement, Hquiet.
  unfold checkEvidenceDetail, checkPerfectResults.
  rewrite Hlacks, Htests, Herrors, Hsuccess, Hperfect.
  repeat split.
Qed.

(** C3: a witness, Scenario A of the specification. *)
Lemma detectFabrication_boundary_witness :
  (FabricationResult.confidence (detectFabrication flawlessNoEvidence) == 0.5)%Q
  /\ FabricationResult.isFabricated (detectFabrication flawlessNoEvidence)
     = false
  /\ FabricationResult.indicators (detectFabrication flawlessNoEvidence)
     = ["suspiciously-perfect-results"; "insufficient-evidence"].
Proof.
  apply (detectFabrication_boundary flawlessNoEvidence);
    vm_compute; try reflexivity; try exact I; discriminate.
Defined.

(** C3 as stated fails: an evidence bag with fewer than 3 keys may hold a
    short duration, which adds 0.25 and makes the report fabricated. *)
Lemma detectFabrication_boundary_counterexample :
  claimsTestsPass flawlessHalfSecond = true
  /\ claimsNoErrors flawlessHalfSecond = true
  /\ claimsSuccess flawlessHalfSecond = true
  /\ (claimedCodeQuality flawlessHalfSecond == 0.99)%Q
  /\ (claimedImprovement flawlessHalfSecond <= 0.5)%Q
  /\ lacksEvidence flawlessHalfSecond = true
  /\ FabricationResult.isFabricated (detectFabrication flawlessHalfSecond)
     = true
  /\ (FabricationResult.confidence (detectFabrication flawlessHalfSecond)
      == 0.75)%Q.
Proof. vm_compute. repeat split; discriminate. Qed.

(** C4, as amended.  For every report with a non-zero timestamp whose
    evidence holds, under the key duration, a non-zero value strictly less
    than 1000, the timing check of detectFabrication appends the indicator
    unrealistically-fast-completion to the indicators gathered so far and
    adds 0.25 to the score accumulated so far; the indicator is among those
    that detectFabrication returns. *)
Theorem detectFabrication_fast_completion
    (report : AgentReport) (ev : gmap string Q) (d : Q) :
  timestamp report <> 0%Z ->
  evidence report = Some ev ->
  ev !! "duration" = Some d ->
  ~ (d == 0)%Q ->
  (d < 1000)%Q ->
  (forall s,
     fs_indicators (checkTiming report s)
     = fs_indicators s ++ ["unrealistically-fast-completion"]
     /\ fs_score (checkTiming report s) = (fs_score s + 0.25)%Q)
  /\ In "unrealistically-fast-completion"
       (FabricationResult.indicators (detectFabrication report)).
Proof.
  intros Htime Hev Hduration Hnonzero Hfast.
  assert (Hfires : forall s,
    checkTiming report s
    = pushIndicator "unrealistically-fast-completion" 0.25 s).
  { intros s. unfold checkTiming, evidenceField. rewrite Hev, Hduration.
    apply Z.eqb_neq in Htime. rewrite Htime.
    apply truthy_true in Hnonzero. rewrite Hnonzero.
    apply Qltb_true in Hfast. rewrite Hfast. reflexivity. }
  split.
  - intros s. rewrite Hfires. split; reflexivity.
  - unfold detectFabrication, fabricationState. simpl.
    apply checkOverperformance_keeps. rewrite Hfires.
    rewrite pushIndicator_indicators. apply in_or_app. right. now left.
Qed.

(** C4: a witness, a half-second duration on a report with a timestamp. *)
Lemma detectFabrication_fast_completion_witness :
  (forall s,
     fs_indicators (checkTiming flawlessHalfSecond s)
     = fs_indicators s ++ ["unrealistically-fast-completion"]
     /\ fs_score (checkTiming flawlessHalfSecond s) = (fs_score s + 0.25)%Q)
  /\ In "unrealistically-fast-completion"
       (FabricationResult.indicators (detectFabrication flawlessHalfSecond)).
Proof.
  apply (detectFabrication_fast_completion flawlessHalfSecond
           {[ "duration" := 500%Q ]} 500%Q).
  - discriminate.
  - reflexivity.
  - vm_compute. reflexivity.
  - vm_compute. discriminate.
  - vm_compute. reflexivity.
Defined.

(** C4 as stated fails: the guard of the timing check also asks for a truthy
    timestamp, so a duration of 500 on a report whose timestamp is 0 leaves
    indicators and score as they were. *)
Lemma detectFabrication_fast_completion_counterexample :
  evidenceField "duration" halfSecondNoTimestamp = Some 500%Q
  /\ (500 < 1000)%Q
  /\ ~ In "unrealistically-fast-completion"
         (FabricationResult.indicators
            (detectFabrication halfSecondNoTimestamp))
  /\ forall s, checkTiming halfSecondNoTimestamp s = s.
Proof.
  split; [vm_compute; reflexivity|].
  split; [reflexivity|].
  split.
  - vm_compute. intros [H|[]]. discriminate.
  - intros s. apply checkTiming_quiet. left. reflexivity.
Qed.

(** ** detectGaslighting *)

Lemma filter_none {A} (f : A -> bool) (l : list A) :
  (forall x, In x l -> f x = false) -> List.filter f l = [].
Proof.
  induction l as [|x l IH]; intros Hall; [reflexivity|].
  simpl. rewrite (Hall x (or_introl eq_refl)).
  apply IH. intros y Hy. apply Hall. now right.
Qed.

Lemma sameTaskOtherAgent_true (report r : AgentReport) :
  sameTaskOtherAgent report r = true
  <-> taskId r = taskId report /\ agentId r <> agentId report.
Proof.
  unfold sameTaskOtherAgent.
  rewrite andb_true_iff, negb_true_iff, String.eqb_eq, String.eqb_neq.
  reflexivity.
Qed.

(** C9.  When no other report shares the report's taskId under a different
    agentId, detectGaslighting finds nothing, and yet reports
    systematicDisagreement: the threshold min(0, 8) = 0 is met by a
    contradiction count of 0. *)
Theorem detectGaslighting_no_peers
    (report : AgentReport) (otherReports : list AgentReport) :
  (forall r, In r otherReports ->
     ~ (taskId r = taskId report /\ agentId r <> agentId report)) ->
  GaslightingResult.contradictions (detectGaslighting report otherReports) = []
  /\ GaslightingResult.contradictionsWithOtherAgents
       (detectGaslighting report otherReports) = 0
  /\ GaslightingResult.isGaslighting (detectGaslighting report otherReports)
     = false
  /\ (GaslightingResult.confidence (detectGaslighting report otherReports)
      == 0)%Q
  /\ GaslightingResult.systematicDisagreement
       (detectGaslighting report otherReports) = true.
Proof.
  intros Hnone. unfold detectGaslighting.
  rewrite filter_none.
  - simpl. repeat split.
  - intros r Hr. apply not_true_iff_false.
    rewrite sameTaskOtherAgent_true. now apply Hnone.
Qed.

(** C9: a witness, a report next to two reports on another task and a later
    report of the same agent on the same task. *)
Lemma detectGaslighting_no_peers_witness :
  GaslightingResult.contradictions (detectGaslighting boastful unrelated) = []
  /\ GaslightingResult.contradictionsWithOtherAgents
       (detectGaslighting boastful unrelated) = 0
  /\ GaslightingResult.isGaslighting (detectGaslighting boastful unrelated)
     = false
  /\ (GaslightingResult.confidence (detectGaslighting boastful unrelated)
      == 0)%Q
  /\ GaslightingResult.systematicDisagreement
       (detectGaslighting boastful unrelated) = true.
Proof.
  apply (detectGaslighting_no_peers boastful unrelated).
  intros r [<-|[<-|[<-|[]]]] [Htask Hagent];
    solve [discriminate Htask | now apply Hagent].
Defined.

(** Scenario C of the specification: one contradiction, which is not
    gaslighting. *)
Example detectGaslighting_scenarioC :
  GaslightingResult.contradictions (detectGaslighting claimsDone [claimsFailed])
  = ["Contradicts agent-2 on task success"]
  /\ GaslightingResult.isGaslighting
       (detectGaslighting claimsDone [claimsFailed]) = false
  /\ GaslightingResult.systematicDisagreement
       (detectGaslighting claimsDone [claimsFailed]) = true.
Proof. vm_compute. repeat split. Qed.

(** ** detectCollusion *)

Lemma pairAgrees_true (ra rb : AgentReport) :
  pairAgrees ra rb = true <-> unrealistic ra /\ unrealistic rb.
Proof.
  unfold pairAgrees, unrealistic.
  rewrite !andb_true_iff, !Qgtb_true. tauto.
Qed.

(** A group of two reports less than 5 seconds apart with the same code
    quality above 0.9: one synchronized pair, and one or two identical
    claims. *)
Lemma inspectTaskGroup_pair (ra rb : AgentReport) (st : nat * nat) :
  (Z.abs (timestamp ra - timestamp rb) <= 2000)%Z ->
  (claimedCodeQuality ra == 0.95)%Q ->
  (claimedCodeQuality rb == 0.95)%Q ->
  inspectTaskGroup [ra; rb] st
  = (S st.1, S (st.2 + b2n (pairAgrees ra rb))).
Proof.
  intros Hclose Hqa Hqb.
  unfold inspectTaskGroup. cbn [length Nat.ltb Nat.leb map].
  assert (Hsync :
    countSynchronized (sortNumbers [timestamp ra; timestamp rb]) = 1).
  { unfold sortNumbers. cbn [fold_left insertNumber].
    destruct (timestamp rb <? timestamp ra)%Z eqn:Hord;
      cbn [countSynchronized];
      [apply Z.ltb_lt in Hord | apply Z.ltb_ge in Hord];
      match goal with |- context [(?d <? 5000)%Z] =>
        assert ((d <? 5000)%Z = true) as -> by (apply Z.ltb_lt; lia) end;
      reflexivity. }
  rewrite Hsync.
  assert (Huniq :
    length (uniqueNumbers [claimedCodeQuality ra; claimedCodeQuality rb]) = 1).
  { cbn [uniqueNumbers List.filter].
    assert (Qeq_bool (claimedCodeQuality rb) (claimedCodeQuality ra) = true)
      as ->.
    { apply Qeq_bool_iff. rewrite Hqa, Hqb. reflexivity. }
    reflexivity. }
  rewrite Huniq.
  assert (Qgtb (claimedCodeQuality ra) 0.9 = true) as ->.
  { apply Qgtb_true. rewrite Hqa. reflexivity. }
  cbn [forallb fst snd Nat.eqb andb].
  unfold pairAgrees.
  rewrite !andb_true_r.
  destruct (_ && _ && _); cbn [b2n]; f_equal; lia.
Qed.

Lemma inspect_two_groups (ra rb rc rd : AgentReport) (ta tc : string) :
  (Z.abs (timestamp ra - timestamp rb) <= 2000)%Z ->
  (Z.abs (timestamp rc - timestamp rd) <= 2000)%Z ->
  (claimedCodeQuality ra == 0.95)%Q ->
  (claimedCodeQuality rb == 0.95)%Q ->
  (claimedCodeQuality rc == 0.95)%Q ->
  (claimedCodeQuality rd == 0.95)%Q ->
  fold_left
    (fun st (group : string * list AgentReport) => inspectTaskGroup group.2 st)
    [(ta, [ra; rb]); (tc, [rc; rd])] (0, 0)
  = (2, 2 + b2n (pairAgrees ra rb) + b2n (pairAgrees rc rd)).
Proof.
  intros. cbn [fold_left snd].
  rewrite !inspectTaskGroup_pair by assumption.
  reflexivity.
Qed.

Lemma detectCollusion_of_two_groups (allReports : list AgentReport)
    (ra rb rc rd : AgentReport) (ta tc : string) :
  length allReports = 4 ->
  groupByTask allReports = [(ta, [ra; rb]); (tc, [rc; rd])] ->
  (Z.abs (timestamp ra - timestamp rb) <= 2000)%Z ->
  (Z.abs (timestamp rc - timestamp rd) <= 2000)%Z ->
  (claimedCodeQuality ra == 0.95)%Q ->
  (claimedCodeQuality rb == 0.95)%Q ->
  (claimedCodeQuality rc == 0.95)%Q ->
  (claimedCodeQuality rd == 0.95)%Q ->
  CollusionResult.synchronizedReporting
    (CollusionResult.evidence (detectCollusion allReports)) = false
  /\ CollusionResult.isCollusion (detectCollusion allReports)
     = pairAgrees ra rb || pairAgrees rc rd.
Proof.
  intros Hlen Hgroups Hab Hcd Ha Hb Hc Hd.
  unfold detectCollusion. rewrite Hlen, Hgroups.
  rewrite inspect_two_groups by assumption.
  cbn [Nat.ltb Nat.leb fst snd CollusionResult.evidence
       CollusionResult.synchronizedReporting CollusionResult.isCollusion].
  split; [reflexivity|].
  destruct (pairAgrees ra rb), (pairAgrees rc rd); reflexivity.
Qed.

(** C1, as amended.  On a corpus of exactly 4 reports over 2 distinct
    taskIds, 2 reports each, where all reports have code quality 0.95 and the
    two reports of a task are at most 2000 ms apart, detectCollusion returns
    synchronizedReporting=false (there are 2 synchronized pairs, and the
    threshold is more than 2), and isCollusion=true exactly when, for one of
    the two tasks, both reports claim success, no errors and an improvement
    above 0.3. *)
Theorem detectCollusion_two_pairs
    (allReports : list AgentReport) (t1 t2 : string) :
  length allReports = 4 ->
  t1 <> t2 ->
  length (List.filter (fun r => String.eqb (taskId r) t1) allReports) = 2 ->
  length (List.filter (fun r => String.eqb (taskId r) t2) allReports) = 2 ->
  (forall r, In r allReports -> (claimedCodeQuality r == 0.95)%Q) ->
  (forall r r', In r allReports -> In r' allReports -> taskId r = taskId r' ->
     (Z.abs (timestamp r - timestamp r') <= 2000)%Z) ->
  CollusionResult.synchronizedReporting
    (CollusionResult.evidence (detectCollusion allReports)) = false
  /\ (CollusionResult.isCollusion (detectCollusion allReports) = true
      <-> exists t, (t = t1 \/ t = t2)
            /\ forall r, In r allReports -> taskId r = t -> unrealistic r).
Proof.
  intros Hlen Hdistinct Hfirst Hsecond Hquality Hclose.
  destruct allReports as [|r1 [|r2 [|r3 [|r4 [|]]]]]; try discriminate Hlen.
  assert (E12 : String.eqb t1 t2 = false) by now apply String.eqb_neq.
  assert (E21 : String.eqb t2 t1 = false)
    by (apply String.eqb_neq; congruence).
  pose proof (eq_refl (groupByTask [r1; r2; r3; r4])) as Hgroups.
  unfold groupByTask at 2 in Hgroups.
  cbn [List.filter] in Hfirst, Hsecond.
  destruct (String.eqb (taskId r1) t1) eqn:A1;
  destruct (String.eqb (taskId r1) t2) eqn:B1;
  destruct (String.eqb (taskId r2) t1) eqn:A2;
  destruct (String.eqb (taskId r2) t2) eqn:B2;
  destruct (String.eqb (taskId r3) t1) eqn:A3;
  destruct (String.eqb (taskId r3) t2) eqn:B3;
  destruct (String.eqb (taskId r4) t1) eqn:A4;
  destruct (String.eqb (taskId r4) t2) eqn:B4;
  try discriminate Hfirst; try discriminate Hsecond.
  all: repeat match goal with
       | H : String.eqb _ _ = true |- _ => apply String.eqb_eq in H
       end.
  all: try congruence.
  all: clear Hfirst Hsecond.
  (* six interleavings of the two groups remain *)
  all: cbn [fold_left pushToGroup] in Hgroups;
       repeat match goal with
       | H : taskId _ = _ |- _ => rewrite !H in Hgroups
       end;
       repeat (rewrite ?String.eqb_refl, ?E12, ?E21 in Hgroups;
               cbn [fold_left pushToGroup app] in Hgroups).
  all: eapply detectCollusion_of_two_groups in Hgroups;
       [ | first [ exact Hlen
                 | apply Hclose; [simpl; tauto | simpl; tauto | congruence]
                 | apply Hquality; simpl; tauto ]..].
  all: destruct Hgroups as [-> ->]; split; [reflexivity|].
  all: rewrite orb_true_iff, !pairAgrees_true.
  all: split;
       [ intros [[Hx Hy]|[Hx Hy]];
         [ first [ exists t1; split; [now left|];
                   intros r [<-|[<-|[<-|[<-|[]]]]] Ht;
                   solve [assumption | congruence]
                 | exists t2; split; [now right|];
                   intros r [<-|[<-|[<-|[<-|[]]]]] Ht;
                   solve [assumption | congruence] ] .. ]
       | intros [t [[->| ->] Hall]];
         first
           [ left; split; apply Hall; solve [simpl; tauto | assumption]
           | right; split; apply Hall; solve [simpl; tauto | assumption] ] ].
Qed.

(** C1: a witness, Scenario D of the specification. *)
Lemma detectCollusion_two_pairs_witness :
  CollusionResult.synchronizedReporting
    (CollusionResult.evidence (detectCollusion scenarioD)) = false
  /\ (CollusionResult.isCollusion (detectCollusion scenarioD) = true
      <-> exists t, (t = "task-1" \/ t = "task-2")
            /\ forall r, In r scenarioD -> taskId r = t -> unrealistic r).
Proof.
  apply (detectCollusion_two_pairs scenarioD "task-1" "task-2").
  - reflexivity.
  - discriminate.
  - reflexivity.
  - reflexivity.
  - intros r [<-|[<-|[<-|[<-|[]]]]]; reflexivity.
  - intros r r' [<-|[<-|[<-|[<-|[]]]]] [<-|[<-|[<-|[<-|[]]]]] Htask;
      solve [discriminate Htask | vm_compute; discriminate].
Defined.

(** C1 as stated fails.  Scenario D has exactly 2 synchronized pairs, one per
    task, so synchronizedReporting is false; and as its reports do not claim
    success, isCollusion is false as well. *)
Lemma detectCollusion_scenarioD_counterexample :
  map taskId scenarioD = ["task-1"; "task-1"; "task-2"; "task-2"]
  /\ map claimedCodeQuality scenarioD = [0.95; 0.95; 0.95; 0.95]%Q
  /\ map timestamp scenarioD
     = [1700000000000; 1700000001000; 1700000060000; 1700000061000]%Z
  /\ CollusionResult.synchronizedReporting
       (CollusionResult.evidence (detectCollusion scenarioD)) = false
  /\ CollusionResult.isCollusion (detectCollusion scenarioD) = false.
Proof. vm_compute. repeat split. Qed.

(** ** analyzeSuccessRates *)

Lemma num_pos (n : nat) : 0 < n -> (0 < num n)%Q.
Proof.
  intros Hn. unfold num. change 0%Q with (inject_Z 0).
  rewrite <- Zlt_Qlt. lia.
Qed.

Lemma num_le (n m : nat) : n <= m -> (num n <= num m)%Q.
Proof. intros Hnm. unfold num. rewrite <- Zle_Qle. lia. Qed.

Lemma filter_all {A} (f : A -> bool) (l : list A) :
  (forall x, In x l -> f x = true) -> List.filter f l = l.
Proof.
  induction l as [|x l IH]; intros Hall; [reflexivity|].
  simpl. rewrite (Hall x (or_introl eq_refl)). f_equal.
  apply IH. intros y Hy. apply Hall. now right.
Qed.

(** C8.  On a non-empty list of reports that all claim success, appending
    one report with success=false and improvement 0 does not increase the
    overconfidence discrepancy max(0, success-claim rate - 0.7). *)
Theorem analyzeSuccessRates_failure_appended
    (reports : list AgentReport) (failure : AgentReport) :
  reports <> [] ->
  (forall r, In r reports -> claimsSuccess r = true) ->
  claimsSuccess failure = false ->
  (claimedImprovement failure == 0)%Q ->
  (analyzeSuccessRates (reports ++ [failure]) <= analyzeSuccessRates reports)%Q.
Proof.
  intros Hnonempty Hall Hfailed _.
  unfold analyzeSuccessRates.
  rewrite List.filter_app, (filter_all _ _ Hall). cbn [List.filter].
  rewrite Hfailed, app_nil_r, length_app. cbn [length].
  assert (Hk : 0 < length reports)
    by (destruct reports; [congruence | simpl; lia]).
  apply Q.max_le_compat_l.
  apply Qplus_le_l.
  pose proof (num_pos _ Hk) as Hpos.
  assert (Hone : (num (length reports) / num (length reports) == 1)%Q).
  { apply Qmult_inv_r. lra. }
  rewrite Hone.
  apply Qle_shift_div_r.
  - apply num_pos. lia.
  - rewrite Qmult_1_l. apply num_le. lia.
Qed.

(** ** analyzeAgentPattern *)

Ltac unfold_check :=
  unfold checkSuccessRates, checkPerformanceClaims, checkQualityClaims,
    checkConsistency, checkIssueHiding, checkCherryPicking,
    checkContradictions, checkFabricationPattern, checkGaslightingPatterns,
    addConfidence.

Ltac split_check :=
  unfold_check;
  repeat match goal with
         | |- context [if ?c then _ else _] => destruct c
         end;
  cbn [DeceptionAnalysis.confidence deceptionType deceptionDetected
       setConfidence setEvidence pushType markDetected].

Lemma includes_In (label : string) (labels : list string) :
  includes label labels = true <-> In label labels.
Proof.
  unfold includes. rewrite existsb_exists. split.
  - intros [x [Hin Heq]]. apply String.eqb_eq in Heq. now subst.
  - intros Hin. exists label. split; [exact Hin | apply String.eqb_refl].
Qed.

Lemma includes_app (label : string) (xs ys : list string) :
  includes label (xs ++ ys) = includes label xs || includes label ys.
Proof. apply existsb_app. Qed.

Lemma tally_from (reports : list AgentReport) (st : nat * nat) :
  fold_left
    (fun (st : nat * nat) report => (st.1 + patternIndicators report, st.2 + 4))
    reports st
  = (st.1 + list_sum (map patternIndicators reports),
     st.2 + 4 * length reports).
Proof.
  revert st. induction reports as [|r reports IH]; intros [a b].
  - cbn [fold_left map list_sum fold_right length fst snd]. f_equal; lia.
  - cbn [fold_left]. rewrite IH.
    unfold list_sum. cbn [map fold_right length fst snd]. f_equal; lia.
Qed.

Lemma tallyIndicators_sum (reports : list AgentReport) :
  tallyIndicators reports
  = (list_sum (map patternIndicators reports), 4 * length reports).
Proof. unfold tallyIndicators. now rewrite tally_from. Qed.

Lemma pushIndicator_length label delta s :
  length (fs_indicators (pushIndicator label delta s))
  = length (fs_indicators s) + 1.
Proof. unfold pushIndicator. cbn [fs_indicators]. apply length_app. Qed.

(** The indicators of [detectFabrication], check by check. *)
Lemma detectFabrication_indicators (r : AgentReport) :
  FabricationResult.indicators (detectFabrication r)
  = (if perfectResultsFire r then ["suspiciously-perfect-results"] else [])
    ++ (if lacksEvidence r then ["insufficient-evidence"] else [])
    ++ (if timingFires r then ["unrealistically-fast-completion"] else [])
    ++ (if Qgtb (claimedImprovement r) 0.5
        then ["unrealistic-performance-improvement"] else []).
Proof.
  unfold detectFabrication, fabricationState.
  cbn [FabricationResult.indicators].
  unfold checkOverperformance, checkTiming, checkEvidenceDetail,
    checkPerfectResults, timingFires.
  fold (perfectResultsFire r).
  generalize (perfectResultsFire r) (lacksEvidence r)
    (Qgtb (claimedImprovement r) 0.5).
  intros perfect lacks over.
  destruct (evidenceField "duration" r) as [d|];
    [destruct (negb (timestamp r =? 0)%Z), (truthy d), (Qltb d 1000)|];
    destruct perfect, lacks, over; reflexivity.
Qed.

(** The verdict of [detectFabrication] does not depend on the arithmetic: the
    exact score exceeds 0.5 when the binary64 score does.  With the first two
    indicators alone the binary64 score is 0.5 itself. *)
Lemma detectFabrication_score (r : AgentReport) :
  fs_score (fabricationState r)
  = exactScore (perfectResultsFire r) (lacksEvidence r) (timingFires r)
      (Qgtb (claimedImprovement r) 0.5).
Proof.
  unfold fabricationState, checkOverperformance, checkTiming,
    checkEvidenceDetail, checkPerfectResults, timingFires.
  fold (perfectResultsFire r).
  generalize (perfectResultsFire r) (lacksEvidence r)
    (Qgtb (claimedImprovement r) 0.5).
  intros perfect lacks over.
  destruct (evidenceField "duration" r) as [d|];
    [destruct (negb (timestamp r =? 0)%Z), (truthy d), (Qltb d 1000)|];
    destruct perfect, lacks, over; reflexivity.
Qed.

Lemma binary64_isFabricated (r : AgentReport) :
  FabricationResult.isFabricated (detectFabrication r)
  = PrimFloat.ltb 0.5
      (binary64Score (perfectResultsFire r) (lacksEvidence r) (timingFires r)
         (Qgtb (claimedImprovement r) 0.5)).
Proof.
  unfold detectFabrication. cbn [FabricationResult.isFabricated].
  rewrite detectFabrication_score.
  destruct (perfectResultsFire r), (lacksEvidence r), (timingFires r),
    (Qgtb (claimedImprovement r) 0.5); vm_compute; reflexivity.
Qed.

Lemma binary64_boundary :
  PrimFloat.eqb (binary64Score true true false false) 0.5 = true.
Proof. vm_compute. reflexivity. Qed.

(** On a report that claims success and has a timestamp, the four tests of
    the pattern check are the four tests of [detectFabrication]. *)
Lemma patternIndicators_standalone (r : AgentReport) :
  claimsSuccess r = true -> timestamp r <> 0%Z ->
  patternPerfectResults r = firesIndicator "suspiciously-perfect-results" r
  /\ patternFastCompletion r
     = firesIndicator "unrealistically-fast-completion" r
  /\ lacksEvidence r = firesIndicator "insufficient-evidence" r
  /\ Qgtb (claimedImprovement r) 0.5
     = firesIndicator "unrealistic-performance-improvement" r
  /\ patternIndicators r = standaloneIndicators r.
Proof.
  intros Hsuccess Htime. apply Z.eqb_neq in Htime.
  assert (Hperfect : perfectResultsFire r = patternPerfectResults r).
  { unfold perfectResultsFire, patternPerfectResults. rewrite Hsuccess.
    destruct (claimsTestsPass r), (claimsNoErrors r), (Qgtb _ _); reflexivity. }
  assert (Htiming : timingFires r = patternFastCompletion r).
  { unfold timingFires, patternFastCompletion. now rewrite Htime. }
  unfold patternIndicators, standaloneIndicators, firesIndicator.
  rewrite detectFabrication_indicators, Hperfect, Htiming.
  destruct (patternPerfectResults r), (patternFastCompletion r),
    (lacksEvidence r), (Qgtb (claimedImprovement r) 0.5);
    vm_compute; repeat split.
Qed.

Ltac keeps :=
  intros ?; split_check; rewrite ?includes_app, ?orb_false_r; reflexivity.

Section DetectorProperties.

Variable Math_sqrt : Q -> Q.

(** No check lowers the confidence. *)
Lemma runChecks_confidence (reports : list AgentReport)
    (a : DeceptionAnalysis.t) :
  (DeceptionAnalysis.confidence a
   <= DeceptionAnalysis.confidence (runChecks Math_sqrt reports a))%Q.
Proof.
  unfold runChecks. cbv zeta.
  repeat match goal with
  | |- (_ <= DeceptionAnalysis.confidence (?check ?x))%Q =>
      apply Qle_trans with (DeceptionAnalysis.confidence x);
      [| generalize x; intros y; split_check; lra]
  end.
  apply Qle_refl.
Qed.


(** Only the fabrication block pushes the label fabrication. *)
Lemma runChecks_fabrication (reports : list AgentReport)
    (a : DeceptionAnalysis.t) :
  includes "fabrication" (deceptionType (runChecks Math_sqrt reports a))
  = includes "fabrication" (deceptionType a)
    || FabricationPattern.isFabricated (detectFabricationPattern reports).
Proof.
  assert (K1 : keepsFabrication (checkSuccessRates reports)) by keeps.
  assert (K2 : keepsFabrication (checkPerformanceClaims reports)) by keeps.
  assert (K3 : keepsFabrication (checkQualityClaims reports)) by keeps.
  assert (K4 : keepsFabrication (checkConsistency Math_sqrt reports)) by keeps.
  assert (K5 : keepsFabrication (checkIssueHiding reports)) by keeps.
  assert (K6 : keepsFabrication (checkCherryPicking reports)) by keeps.
  assert (K7 : keepsFabrication (checkContradictions reports)) by keeps.
  assert (K9 : keepsFabrication (checkGaslightingPatterns reports)) by keeps.
  unfold runChecks. cbv zeta.
  rewrite K9.
  unfold checkFabricationPattern at 1.
  destruct (FabricationPattern.isFabricated (detectFabricationPattern reports)).
  - unfold addConfidence.
    cbn [deceptionType setConfidence setEvidence pushType markDetected].
    rewrite includes_app. cbn. now rewrite !orb_true_r.
  - rewrite K7, K6, K5, K4, K3, K2, K1. now rewrite orb_false_r.
Qed.

(** [analyzeAgentPattern] past the empty-list return. *)
Lemma analyzeAgentPattern_nonempty (agentId : string) (r : AgentReport)
    (reports : list AgentReport) (st : DetectorState) :
  analyzeAgentPattern Math_sqrt agentId (r :: reports) st
  = (let checked := runChecks Math_sqrt (r :: reports) (newAnalysis agentId) in
     let scored :=
       setTruthScore (calculateOverallTruthScore (r :: reports) checked)
         checked in
     let clamped :=
       setConfidence (Qmin (DeceptionAnalysis.confidence scored) 1.0) scored in
     let final :=
       setRecommendations (generateRecommendations clamped) clamped in
     (final, storeAnalysis agentId final st)).
Proof. reflexivity. Qed.

(** C5.  On an empty report list analyzeAgentPattern returns, for every
    agentId, the analysis it has just created: truthScore 1.0,
    deceptionDetected false, confidence 0, and empty deceptionType, evidence
    and recommendations.  No sub-check contributes: the result is the same
    whatever the detector state and whatever Math.sqrt computes, and the
    state is returned as it was. *)
Theorem analyzeAgentPattern_empty (agentId : string) (st : DetectorState) :
  analyzeAgentPattern Math_sqrt agentId [] st = (newAnalysis agentId, st)
  /\ (DeceptionAnalysis.truthScore
        (analyzeAgentPattern Math_sqrt agentId [] st).1 == 1)%Q
  /\ deceptionDetected (analyzeAgentPattern Math_sqrt agentId [] st).1 = false
  /\ (DeceptionAnalysis.confidence
        (analyzeAgentPattern Math_sqrt agentId [] st).1 == 0)%Q
  /\ deceptionType (analyzeAgentPattern Math_sqrt agentId [] st).1 = []
  /\ DeceptionAnalysis.evidence (analyzeAgentPattern Math_sqrt agentId [] st).1
     = ∅
  /\ recommendations (analyzeAgentPattern Math_sqrt agentId [] st).1 = [].
Proof. repeat split. Qed.

(** C6.  For every agentId and report list, the analysis returned by
    analyzeAgentPattern has its confidence and its truthScore in [0,1]. *)
Theorem analyzeAgentPattern_bounds (agentId : string)
    (reports : list AgentReport) (st : DetectorState) :
  (0 <= DeceptionAnalysis.confidence
          (analyzeAgentPattern Math_sqrt agentId reports st).1 <= 1)%Q
  /\ (0 <= DeceptionAnalysis.truthScore
             (analyzeAgentPattern Math_sqrt agentId reports st).1 <= 1)%Q.
Proof.
  destruct reports as [|r reports].
  - cbn. split; split; discriminate.
  - rewrite analyzeAgentPattern_nonempty.
    cbn [fst DeceptionAnalysis.confidence DeceptionAnalysis.truthScore
         setRecommendations setConfidence setTruthScore].
    pose proof (runChecks_confidence (r :: reports) (newAnalysis agentId))
      as Hraw.
    cbn [newAnalysis DeceptionAnalysis.confidence] in Hraw.
    repeat split.
    + apply Q.min_glb; [exact Hraw | discriminate].
    + apply Qle_trans with 1.0%Q; [apply Q.le_min_r | discriminate].
    + apply Q.le_max_l.
    + apply Q.max_lub; [discriminate | apply Q.le_min_l].
Qed.

(** C7.  A second call of analyzeAgentPattern with the same agentId and
    report list, on the state left by the first, returns the same
    deceptionType, truthScore and confidence; indeed the analysis returned
    does not depend on the detector state at all. *)
Theorem analyzeAgentPattern_repeatable (agentId : string)
    (reports : list AgentReport) (st : DetectorState) :
  (deceptionType
     (analyzeAgentPattern Math_sqrt agentId reports
        (analyzeAgentPattern Math_sqrt agentId reports st).2).1
   = deceptionType (analyzeAgentPattern Math_sqrt agentId reports st).1
   /\ DeceptionAnalysis.truthScore
        (analyzeAgentPattern Math_sqrt agentId reports
           (analyzeAgentPattern Math_sqrt agentId reports st).2).1
      = DeceptionAnalysis.truthScore
          (analyzeAgentPattern Math_sqrt agentId reports st).1
   /\ DeceptionAnalysis.confidence
        (analyzeAgentPattern Math_sqrt agentId reports
           (analyzeAgentPattern Math_sqrt agentId reports st).2).1
      = DeceptionAnalysis.confidence
          (analyzeAgentPattern Math_sqrt agentId reports st).1)
  /\ forall st' : DetectorState,
       (analyzeAgentPattern Math_sqrt agentId reports st').1
       = (analyzeAgentPattern Math_sqrt agentId reports st).1.
Proof.
  assert (Hindependent : forall st1 st2 : DetectorState,
    (analyzeAgentPattern Math_sqrt agentId reports st1).1
    = (analyzeAgentPattern Math_sqrt agentId reports st2).1).
  { intros st1 st2. destruct reports; reflexivity. }
  split; [|intros st'; apply Hindependent].
  now rewrite
    (Hindependent (analyzeAgentPattern Math_sqrt agentId reports st).2 st).
Qed.

(** Storing an analysis appends it to the history of its agent and to no
    other. *)
Lemma getAgentHistory_store (agentId agentId' : string)
    (analysis : DeceptionAnalysis.t) (st : DetectorState) :
  getAgentHistory agentId' (storeAnalysis agentId analysis st)
  = getAgentHistory agentId' st
    ++ (if String.eqb agentId' agentId then [analysis] else []).
Proof.
  unfold getAgentHistory, storeAnalysis. cbn [analysisHistory].
  destruct (String.eqb_spec agentId' agentId) as [->|Hne].
  - rewrite lookup_alter_eq.
    destruct (analysisHistory st !! agentId) as [l|] eqn:Hl.
    + rewrite Hl. reflexivity.
    + rewrite lookup_insert_eq. reflexivity.
  - rewrite lookup_alter_ne by congruence.
    destruct (analysisHistory st !! agentId).
    + now rewrite app_nil_r.
    + rewrite lookup_insert_ne by congruence. now rewrite app_nil_r.
Qed.

(** C10.  A call of analyzeAgentPattern with an empty report list leaves
    getAgentHistory of every agent as it was; a call with a non-empty list
    appends the analysis it returns to the history of its agentId, and leaves
    the history of every other agent as it was. *)
Theorem analyzeAgentPattern_history (agentId agentId' : string)
    (st : DetectorState) :
  getAgentHistory agentId' (analyzeAgentPattern Math_sqrt agentId [] st).2
  = getAgentHistory agentId' st
  /\ forall (r : AgentReport) (reports : list AgentReport),
       getAgentHistory agentId'
         (analyzeAgentPattern Math_sqrt agentId (r :: reports) st).2
       = getAgentHistory agentId' st
         ++ (if String.eqb agentId' agentId
             then [(analyzeAgentPattern Math_sqrt agentId (r :: reports) st).1]
             else []).
Proof.
  split; [reflexivity|].
  intros r reports. rewrite analyzeAgentPattern_nonempty.
  cbv zeta. cbn [fst snd]. apply getAgentHistory_store.
Qed.

(** C2, as amended.  For a list of at least 5 reports: on every report that
    claims success and has a non-zero timestamp, the four tests of the
    fabrication check of analyzeAgentPattern are the four indicators that
    detectFabrication fires on that report, one point each; and the label
    fabrication fires if and only if the total count of the check divided
    by 4n exceeds 0.4. *)
Theorem fabrication_check_counts (agentId : string)
    (reports : list AgentReport) (st : DetectorState) :
  5 <= length reports ->
  (forall r, In r reports -> claimsSuccess r = true -> timestamp r <> 0%Z ->
     patternPerfectResults r = firesIndicator "suspiciously-perfect-results" r
     /\ patternFastCompletion r
        = firesIndicator "unrealistically-fast-completion" r
     /\ lacksEvidence r = firesIndicator "insufficient-evidence" r
     /\ Qgtb (claimedImprovement r) 0.5
        = firesIndicator "unrealistic-performance-improvement" r
     /\ patternIndicators r = standaloneIndicators r)
  /\ (In "fabrication"
        (deceptionType (analyzeAgentPattern Math_sqrt agentId reports st).1)
      <-> (0.4 < num (list_sum (map patternIndicators reports))
                 / num (4 * length reports))%Q).
Proof.
  intros Hfive. split.
  - intros r _. apply patternIndicators_standalone.
  - destruct reports as [|r0 reports]; [simpl in Hfive; lia|].
    rewrite analyzeAgentPattern_nonempty.
    cbv zeta.
    cbn [fst deceptionType setRecommendations setConfidence setTruthScore].
    rewrite <- includes_In, runChecks_fabrication.
    cbn [newAnalysis deceptionType includes existsb orb].
    unfold detectFabricationPattern.
    apply Nat.ltb_ge in Hfive. rewrite Hfive.
    rewrite tallyIndicators_sum.
    cbn [FabricationPattern.isFabricated fst snd]. apply Qgtb_true.
Qed.

End DetectorProperties.

(** C2: a witness, five reports that claim success, with a timestamp: on
    each of them the check and detectFabrication count the same three
    indicators. *)
Lemma fabrication_check_counts_witness :
  5 <= length fiveBoasts
  /\ (In boastful fiveBoasts /\ claimsSuccess boastful = true
      /\ timestamp boastful <> 0%Z)
  /\ (patternPerfectResults boastful
      = firesIndicator "suspiciously-perfect-results" boastful
      /\ patternFastCompletion boastful
         = firesIndicator "unrealistically-fast-completion" boastful
      /\ lacksEvidence boastful
         = firesIndicator "insufficient-evidence" boastful
      /\ Qgtb (claimedImprovement boastful) 0.5
         = firesIndicator "unrealistic-performance-improvement" boastful
      /\ patternIndicators boastful = standaloneIndicators boastful)
  /\ patternIndicators boastful = 3
  /\ (In "fabrication"
        (deceptionType
           (analyzeAgentPattern sqrtDyadic "agent-1" fiveBoasts
              emptyDetector).1)
      <-> (0.4 < num (list_sum (map patternIndicators fiveBoasts))
                 / num (4 * length fiveBoasts))%Q).
Proof.
  assert (Hfive : 5 <= length fiveBoasts) by (vm_compute; lia).
  assert (Hin : In boastful fiveBoasts) by (left; reflexivity).
  assert (Hsuccess : claimsSuccess boastful = true) by reflexivity.
  assert (Htime : timestamp boastful <> 0%Z) by discriminate.
  destruct (fabrication_check_counts sqrtDyadic "agent-1" fiveBoasts
              emptyDetector Hfive) as [Hagree Hlabel].
  split; [exact Hfive|]. split; [now repeat split|].
  split; [exact (Hagree boastful Hin Hsuccess Htime)|].
  split; [reflexivity | exact Hlabel].
Defined.

(** C2 as stated fails.  The check does not ask for success=true in its
    perfect-results test (and not for a timestamp in its timing test): on a
    report of passing tests, no errors and quality 0.99 for a failed task,
    without evidence, it counts 2 indicators where detectFabrication returns
    1.  On five such reports the label fabrication fires, at 10/20, while the
    average of the detectFabrication indicators is 5/20. *)
Lemma fabrication_check_counterexample :
  5 <= length fiveFailed
  /\ patternPerfectResults flawlessButFailed = true
  /\ firesIndicator "suspiciously-perfect-results" flawlessButFailed = false
  /\ patternIndicators flawlessButFailed = 2
  /\ FabricationResult.indicators (detectFabrication flawlessButFailed)
     = ["insufficient-evidence"]
  /\ In "fabrication"
       (deceptionType
          (analyzeAgentPattern sqrtDyadic "agent-1" fiveFailed
             emptyDetector).1)
  /\ (specFabricationAverage fiveFailed == 0.25)%Q
  /\ specFabricationFires fiveFailed = false.
Proof.
  split; [vm_compute; lia|].
  split; [vm_compute; reflexivity|].
  split; [vm_compute; reflexivity|].
  split; [vm_compute; reflexivity|].
  split; [vm_compute; reflexivity|].
  split; [apply includes_In; vm_compute; reflexivity|].
  split; vm_compute; reflexivity.
Qed.

(** C6 is not idle: on twenty reports that claim everything the fired
    confidence deltas add up to 1.6 and the truth-score penalties to more
    than 1; the analysis returned has confidence 1 and truthScore 0. *)
Lemma clamping_is_needed :
  (DeceptionAnalysis.confidence
     (runChecks sqrtDyadic twentyBoasts (newAnalysis "agent-1")) == 1.6)%Q
  /\ (DeceptionAnalysis.confidence
        (analyzeAgentPattern sqrtDyadic "agent-1" twentyBoasts
           emptyDetector).1 == 1)%Q
  /\ deceptionType
       (analyzeAgentPattern sqrtDyadic "agent-1" twentyBoasts emptyDetector).1
     = ["overconfidence"; "exaggeration"; "impossible_claims";
        "quality-inflation"; "issue_hiding"; "fabrication"]
  /\ (DeceptionAnalysis.truthScore
        (analyzeAgentPattern sqrtDyadic "agent-1" twentyBoasts
           emptyDetector).1 == 0)%Q.
Proof. vm_compute. repeat split. Qed.

(** Scenario B of the specification: twenty reports without errors hide 7
    issues. *)
Example issue_hiding_scenarioB :
  detectIssueHiding twentyBoasts = {| isHiding := true; hiddenCount := 7 |}
  /\ DeceptionAnalysis.evidence
       (analyzeAgentPattern sqrtDyadic "agent-1" twentyBoasts emptyDetector).1
     !! "hiddenIssuesCount" = Some (EvNum 7).
Proof. vm_compute. repeat split. Qed.

(** C8: a witness, one success followed by a failure. *)
Lemma analyzeSuccessRates_failure_appended_witness :
  (analyzeSuccessRates ([boastful] ++ [flawlessButFailed])
   <= analyzeSuccessRates [boastful])%Q.
Proof.
  apply (analyzeSuccessRates_failure_appended [boastful] flawlessButFailed).
  - discriminate.
  - intros r [<-|[]]. reflexivity.
  - reflexivity.
  - reflexivity.
Defined.

(** * Further properties of the detector *)

(** ** The labels of analyzeAgentPattern *)

Lemma label_In (fires : bool) (name x : string) :
  In x (label fires name) <-> fires = true /\ name = x.
Proof.
  destruct fires; simpl.
  - split; [intros [H|[]]; now split | intros [_ H]; now left].
  - split; [intros [] | intros [H _]; discriminate H].
Qed.

Ltac fire_cases :=
  unfold_check;
  repeat match goal with
         | |- context [if ?c then _ else _] => destruct c eqn:?
         end;
  cbn [DeceptionAnalysis.confidence deceptionType deceptionDetected
       setConfidence setEvidence pushType markDetected label app].

Lemma exaggeration_of_impossible (reports : list AgentReport) :
  firesImpossibleClaims reports = true -> firesExaggeration reports = true.
Proof.
  unfold firesImpossibleClaims, firesExaggeration.
  rewrite !Qgtb_true. intros H.
  apply Qlt_trans with 0.5%Q; [reflexivity | exact H].
Qed.

Section Labels.

Variable Math_sqrt : Q -> Q.

(** What each block of [analyzeAgentPattern] does to the labels. *)
Lemma runChecks_types (reports : list AgentReport) (a : DeceptionAnalysis.t) :
  deceptionType (runChecks Math_sqrt reports a)
  = deceptionType a ++ firedLabels Math_sqrt reports.
Proof.
  assert (T1 : forall x, deceptionType (checkSuccessRates reports x)
    = deceptionType x ++ label (firesOverconfidence reports) "overconfidence").
  { intros x. unfold firesOverconfidence. fire_cases;
      rewrite ?app_nil_r; reflexivity. }
  assert (T2 : forall x, deceptionType (checkPerformanceClaims reports x)
    = deceptionType x ++ label (firesExaggeration reports) "exaggeration"
      ++ label (firesImpossibleClaims reports) "impossible_claims").
  { intros x. unfold firesExaggeration, firesImpossibleClaims. fire_cases;
      rewrite <- ?app_assoc, ?app_nil_r; reflexivity. }
  assert (T3 : forall x, deceptionType (checkQualityClaims reports x)
    = deceptionType x
      ++ label (firesQualityInflation reports) "quality-inflation").
  { intros x. unfold firesQualityInflation. fire_cases;
      rewrite ?app_nil_r; reflexivity. }
  assert (T4 : forall x, deceptionType (checkConsistency Math_sqrt reports x)
    = deceptionType x
      ++ label (firesInconsistency Math_sqrt reports) "inconsistency").
  { intros x. unfold firesInconsistency. fire_cases;
      rewrite ?app_nil_r; reflexivity. }
  assert (T5 : forall x, deceptionType (checkIssueHiding reports x)
    = deceptionType x
      ++ label (isHiding (detectIssueHiding reports)) "issue_hiding").
  { intros x. fire_cases; rewrite ?app_nil_r; reflexivity. }
  assert (T6 : forall x, deceptionType (checkCherryPicking reports x)
    = deceptionType x ++ label (detectCherryPicking reports) "cherry_picking").
  { intros x. fire_cases; rewrite ?app_nil_r; reflexivity. }
  assert (T7 : forall x, deceptionType (checkContradictions reports x)
    = deceptionType x
      ++ label (hasContradictions (detectContradictions reports))
           "contradictory_statements").
  { intros x. fire_cases; rewrite ?app_nil_r; reflexivity. }
  assert (T8 : forall x, deceptionType (checkFabricationPattern reports x)
    = deceptionType x
      ++ label (FabricationPattern.isFabricated
                  (detectFabricationPattern reports)) "fabrication").
  { intros x. fire_cases; rewrite ?app_nil_r; reflexivity. }
  assert (T9 : forall x, deceptionType (checkGaslightingPatterns reports x)
    = deceptionType x
      ++ label (hasGaslighting (detectGaslightingPatterns reports))
           "gaslighting"
      ++ label (hasDiscrediting (detectGaslightingPatterns reports))
           "discrediting_others").
  { intros x. fire_cases; rewrite <- ?app_assoc, ?app_nil_r; reflexivity. }
  unfold runChecks, firedLabels. cbv zeta.
  rewrite T9, T8, T7, T6, T5, T4, T3, T2, T1.
  rewrite <- !app_assoc. reflexivity.
Qed.


Lemma runChecks_confidence_sum (reports : list AgentReport)
    (a : DeceptionAnalysis.t) :
  DeceptionAnalysis.confidence (runChecks Math_sqrt reports a)
  = addDeltas (firedLabels Math_sqrt reports) (DeceptionAnalysis.confidence a).
Proof.
  assert (C1 : forall x,
    DeceptionAnalysis.confidence (checkSuccessRates reports x)
    = addDeltas (label (firesOverconfidence reports) "overconfidence")
        (DeceptionAnalysis.confidence x)).
  { intros x. unfold firesOverconfidence. fire_cases; reflexivity. }
  assert (C2 : forall x,
    DeceptionAnalysis.confidence (checkPerformanceClaims reports x)
    = addDeltas (label (firesExaggeration reports) "exaggeration"
                 ++ label (firesImpossibleClaims reports) "impossible_claims")
        (DeceptionAnalysis.confidence x)).
  { intros x. unfold firesExaggeration, firesImpossibleClaims.
    fire_cases; reflexivity. }
  assert (C3 : forall x,
    DeceptionAnalysis.confidence (checkQualityClaims reports x)
    = addDeltas (label (firesQualityInflation reports) "quality-inflation")
        (DeceptionAnalysis.confidence x)).
  { intros x. unfold firesQualityInflation. fire_cases; reflexivity. }
  assert (C4 : forall x,
    DeceptionAnalysis.confidence (checkConsistency Math_sqrt reports x)
    = addDeltas (label (firesInconsistency Math_sqrt reports) "inconsistency")
        (DeceptionAnalysis.confidence x)).
  { intros x. unfold firesInconsistency. fire_cases; reflexivity. }
  assert (C5 : forall x,
    DeceptionAnalysis.confidence (checkIssueHiding reports x)
    = addDeltas (label (isHiding (detectIssueHiding reports)) "issue_hiding")
        (DeceptionAnalysis.confidence x)).
  { intros x. fire_cases; reflexivity. }
  assert (C6 : forall x,
    DeceptionAnalysis.confidence (checkCherryPicking reports x)
    = addDeltas (label (detectCherryPicking reports) "cherry_picking")
        (DeceptionAnalysis.confidence x)).
  { intros x. fire_cases; reflexivity. }
  assert (C7 : forall x,
    DeceptionAnalysis.confidence (checkContradictions reports x)
    = addDeltas (label (hasContradictions (detectContradictions reports))
                   "contradictory_statements")
        (DeceptionAnalysis.confidence x)).
  { intros x. fire_cases; reflexivity. }
  assert (C8 : forall x,
    DeceptionAnalysis.confidence (checkFabricationPattern reports x)
    = addDeltas (label (FabricationPattern.isFabricated
                          (detectFabricationPattern reports)) "fabrication")
        (DeceptionAnalysis.confidence x)).
  { intros x. fire_cases; reflexivity. }
  assert (C9 : forall x,
    DeceptionAnalysis.confidence (checkGaslightingPatterns reports x)
    = addDeltas (label (hasGaslighting (detectGaslightingPatterns reports))
                   "gaslighting"
                 ++ label (hasDiscrediting (detectGaslightingPatterns reports))
                      "discrediting_others")
        (DeceptionAnalysis.confidence x)).
  { intros x. fire_cases; reflexivity. }
  unfold runChecks, firedLabels, addDeltas in *. cbv zeta.
  rewrite C9, C8, C7, C6, C5, C4, C3, C2, C1.
  rewrite <- !fold_left_app, <- !app_assoc. reflexivity.
Qed.

Lemma runChecks_detected (reports : list AgentReport)
    (a : DeceptionAnalysis.t) :
  deceptionDetected (runChecks Math_sqrt reports a)
  = deceptionDetected a
    || match firedLabels Math_sqrt reports with [] => false | _ => true end.
Proof.
  assert (D1 : forall x, deceptionDetected (checkSuccessRates reports x)
    = deceptionDetected x || firesOverconfidence reports).
  { intros x. unfold firesOverconfidence. fire_cases;
      rewrite ?orb_true_r, ?orb_false_r; reflexivity. }
  assert (D2 : forall x, deceptionDetected (checkPerformanceClaims reports x)
    = deceptionDetected x || firesExaggeration reports).
  { intros x. unfold firesExaggeration. fire_cases;
      rewrite ?orb_true_r, ?orb_false_r; reflexivity. }
  assert (D3 : forall x, deceptionDetected (checkQualityClaims reports x)
    = deceptionDetected x || firesQualityInflation reports).
  { intros x. unfold firesQualityInflation. fire_cases;
      rewrite ?orb_true_r, ?orb_false_r; reflexivity. }
  assert (D4 : forall x,
    deceptionDetected (checkConsistency Math_sqrt reports x)
    = deceptionDetected x || firesInconsistency Math_sqrt reports).
  { intros x. unfold firesInconsistency. fire_cases;
      rewrite ?orb_true_r, ?orb_false_r; reflexivity. }
  assert (D5 : forall x, deceptionDetected (checkIssueHiding reports x)
    = deceptionDetected x || isHiding (detectIssueHiding reports)).
  { intros x. fire_cases; rewrite ?orb_true_r, ?orb_false_r; reflexivity. }
  assert (D6 : forall x, deceptionDetected (checkCherryPicking reports x)
    = deceptionDetected x || detectCherryPicking reports).
  { intros x. fire_cases; rewrite ?orb_true_r, ?orb_false_r; reflexivity. }
  assert (D7 : forall x, deceptionDetected (checkContradictions reports x)
    = deceptionDetected x
      || hasContradictions (detectContradictions reports)).
  { intros x. fire_cases; rewrite ?orb_true_r, ?orb_false_r; reflexivity. }
  assert (D8 : forall x, deceptionDetected (checkFabricationPattern reports x)
    = deceptionDetected x
      || FabricationPattern.isFabricated (detectFabricationPattern reports)).
  { intros x. fire_cases; rewrite ?orb_true_r, ?orb_false_r; reflexivity. }
  assert (D9 : forall x, deceptionDetected (checkGaslightingPatterns reports x)
    = deceptionDetected x
      || (hasGaslighting (detectGaslightingPatterns reports)
          || hasDiscrediting (detectGaslightingPatterns reports))).
  { intros x. fire_cases; rewrite ?orb_true_r, ?orb_false_r; reflexivity. }
  unfold runChecks, firedLabels. cbv zeta.
  rewrite D9, D8, D7, D6, D5, D4, D3, D2, D1.
  pose proof (exaggeration_of_impossible reports) as Himpossible.
  destruct (firesImpossibleClaims reports);
    [rewrite (Himpossible eq_refl)|clear Himpossible];
    destruct (deceptionDetected a), (firesOverconfidence reports);
    try reflexivity;
    destruct (firesExaggeration reports); try reflexivity;
    destruct (firesQualityInflation reports); try reflexivity;
    destruct (firesInconsistency Math_sqrt reports); try reflexivity;
    destruct (isHiding (detectIssueHiding reports)); try reflexivity;
    destruct (detectCherryPicking reports); try reflexivity;
    destruct (hasContradictions (detectContradictions reports));
    try reflexivity;
    destruct (FabricationPattern.isFabricated
                (detectFabricationPattern reports)); try reflexivity;
    destruct (hasGaslighting (detectGaslightingPatterns reports));
    try reflexivity;
    destruct (hasDiscrediting (detectGaslightingPatterns reports));
    reflexivity.
Qed.

End Labels.

Section AnalysisShape.

Variable Math_sqrt : Q -> Q.

(** The analysis that [analyzeAgentPattern] returns, field by field. *)
Lemma analysis_types (agentId : string) (reports : list AgentReport)
    (st : DetectorState) :
  deceptionType (analyzeAgentPattern Math_sqrt agentId reports st).1
  = firedLabels Math_sqrt reports.
Proof.
  destruct reports as [|r reports]; [reflexivity|].
  rewrite analyzeAgentPattern_nonempty. cbv zeta.
  cbn [fst deceptionType setRecommendations setConfidence setTruthScore].
  now rewrite runChecks_types.
Qed.

Lemma analysis_detected (agentId : string) (reports : list AgentReport)
    (st : DetectorState) :
  deceptionDetected (analyzeAgentPattern Math_sqrt agentId reports st).1
  = match firedLabels Math_sqrt reports with [] => false | _ => true end.
Proof.
  destruct reports as [|r reports]; [reflexivity|].
  rewrite analyzeAgentPattern_nonempty. cbv zeta.
  cbn [fst deceptionDetected setRecommendations setConfidence setTruthScore].
  now rewrite runChecks_detected.
Qed.

Lemma analysis_confidence (agentId : string) (reports : list AgentReport)
    (st : DetectorState) :
  DeceptionAnalysis.confidence
    (analyzeAgentPattern Math_sqrt agentId reports st).1
  = Qmin (addDeltas (firedLabels Math_sqrt reports) 0) 1.0.
Proof.
  destruct reports as [|r reports]; [reflexivity|].
  rewrite analyzeAgentPattern_nonempty. cbv zeta.
  cbn [fst DeceptionAnalysis.confidence setRecommendations setConfidence
       setTruthScore].
  now rewrite runChecks_confidence_sum.
Qed.

Lemma label_sublist (fires : bool) (name : string) :
  label fires name `sublist_of` [name].
Proof. destruct fires; [reflexivity | apply sublist_nil_l]. Qed.

Lemma firedLabels_sublist (reports : list AgentReport) :
  firedLabels Math_sqrt reports `sublist_of` taxonomy.
Proof.
  unfold firedLabels.
  change taxonomy with
    (["overconfidence"] ++ ["exaggeration"] ++ ["impossible_claims"]
     ++ ["quality-inflation"] ++ ["inconsistency"] ++ ["issue_hiding"]
     ++ ["cherry_picking"] ++ ["contradictory_statements"]
     ++ ["fabrication"] ++ ["gaslighting"] ++ ["discrediting_others"]).
  repeat (apply sublist_app; [apply label_sublist|]).
  apply label_sublist.
Qed.

(** X1.  The labels of an analysis come in the order in which the checks
    run, each at most once: deceptionType is a sublist of the taxonomy. *)
Theorem deceptionType_in_order (agentId : string)
    (reports : list AgentReport) (st : DetectorState) :
  deceptionType (analyzeAgentPattern Math_sqrt agentId reports st).1
    `sublist_of` taxonomy
  /\ List.NoDup
       (deceptionType (analyzeAgentPattern Math_sqrt agentId reports st).1).
Proof.
  rewrite analysis_types. split; [apply firedLabels_sublist|].
  apply NoDup_ListNoDup.
  apply sublist_NoDup with taxonomy; [|apply firedLabels_sublist].
  apply NoDup_ListNoDup. unfold taxonomy.
  repeat (constructor; [simpl; intuition discriminate|]). constructor.
Qed.


Lemma label_nil (fires : bool) (name : string) :
  label fires name = [] -> fires = false.
Proof. now destruct fires. Qed.

(** When no check fires, the analysis is left as it was. *)
Lemma runChecks_quiet (reports : list AgentReport) (a : DeceptionAnalysis.t) :
  firedLabels Math_sqrt reports = [] -> runChecks Math_sqrt reports a = a.
Proof.
  unfold firedLabels. intros H.
  repeat (apply app_eq_nil in H;
          let H1 := fresh "Hquiet" in destruct H as [H1 H];
          apply label_nil in H1).
  apply label_nil in H.
  unfold firesOverconfidence, firesExaggeration, firesImpossibleClaims,
    firesQualityInflation, firesInconsistency in *.
  assert (Q1 : forall x, checkSuccessRates reports x = x)
    by (intros x; unfold checkSuccessRates; now rewrite Hquiet).
  assert (Q2 : forall x, checkPerformanceClaims reports x = x)
    by (intros x; unfold checkPerformanceClaims; now rewrite Hquiet0, Hquiet1).
  assert (Q3 : forall x, checkQualityClaims reports x = x)
    by (intros x; unfold checkQualityClaims; now rewrite Hquiet2).
  assert (Q4 : forall x, checkConsistency Math_sqrt reports x = x)
    by (intros x; unfold checkConsistency; now rewrite Hquiet3).
  assert (Q5 : forall x, checkIssueHiding reports x = x)
    by (intros x; unfold checkIssueHiding; now rewrite Hquiet4).
  assert (Q6 : forall x, checkCherryPicking reports x = x)
    by (intros x; unfold checkCherryPicking; now rewrite Hquiet5).
  assert (Q7 : forall x, checkContradictions reports x = x)
    by (intros x; unfold checkContradictions; now rewrite Hquiet6).
  assert (Q8 : forall x, checkFabricationPattern reports x = x)
    by (intros x; unfold checkFabricationPattern; now rewrite Hquiet7).
  assert (Q9 : forall x, checkGaslightingPatterns reports x = x)
    by (intros x; unfold checkGaslightingPatterns; now rewrite Hquiet8, H).
  unfold runChecks. cbv zeta.
  now rewrite Q1, Q2, Q3, Q4, Q5, Q6, Q7, Q8, Q9.
Qed.

Lemma taxonomy_delta (name : string) :
  In name taxonomy -> (0.2 <= confidenceDelta name)%Q.
Proof.
  unfold taxonomy. simpl.
  intros H; repeat (destruct H as [<-|H]; [vm_compute; discriminate|]).
  destruct H.
Qed.

Lemma addDeltas_grows (names : list string) (c : Q) :
  (forall x, In x names -> (0.2 <= confidenceDelta x)%Q) ->
  names <> [] -> (c + 0.2 <= addDeltas names c)%Q.
Proof.
  revert c. induction names as [|x names IH]; intros c Hall Hne;
    [congruence|].
  unfold addDeltas in *. cbn [fold_left].
  pose proof (Hall x (or_introl eq_refl)) as Hx.
  destruct names as [|y names].
  - cbn [fold_left]. lra.
  - apply Qle_trans with (c + confidenceDelta x + 0.2)%Q; [lra|].
    apply IH; [|discriminate]. intros z Hz. apply Hall. now right.
Qed.

Lemma firedLabels_taxonomy (reports : list AgentReport) (x : string) :
  In x (firedLabels Math_sqrt reports) -> In x taxonomy.
Proof.
  intros H. apply list_elem_of_In.
  apply elem_of_sublist with (firedLabels Math_sqrt reports);
    [now apply list_elem_of_In | apply firedLabels_sublist].
Qed.

Lemma recommend_keeps (fires : bool) (texts rs : list string) :
  rs <> [] -> recommend fires texts rs <> [].
Proof.
  unfold recommend. destruct fires; [|easy].
  destruct rs; [congruence | discriminate].
Qed.

Lemma recommend_fires (texts rs : list string) :
  texts <> [] -> recommend true texts rs <> [].
Proof.
  unfold recommend. intros Ht Happ. apply app_eq_nil in Happ. tauto.
Qed.

Lemma generateRecommendations_nonempty (a : DeceptionAnalysis.t) (x : string) :
  In x taxonomy -> includes x (deceptionType a) = true ->
  generateRecommendations a <> [].
Proof.
  unfold taxonomy. simpl.
  intros H Hx; repeat (destruct H as [<-|H];
    [ unfold generateRecommendations; cbv zeta;
      rewrite Hx, ?orb_true_r;
      repeat first [ apply recommend_fires; discriminate
                   | apply recommend_keeps ] |]).
  destruct H.
Qed.

(** X2.  deceptionDetected says whether any label is present.  An analysis
    without labels has confidence 0, truthScore 1 and no recommendations; an
    analysis with a label has confidence at least 0.2 and at least one
    recommendation. *)
Theorem deceptionDetected_iff_labels (agentId : string)
    (reports : list AgentReport) (st : DetectorState) :
  (deceptionDetected (analyzeAgentPattern Math_sqrt agentId reports st).1 = true
   <-> deceptionType (analyzeAgentPattern Math_sqrt agentId reports st).1
       <> [])
  /\ (deceptionDetected (analyzeAgentPattern Math_sqrt agentId reports st).1
      = false ->
      (DeceptionAnalysis.confidence
         (analyzeAgentPattern Math_sqrt agentId reports st).1 == 0)%Q
      /\ (DeceptionAnalysis.truthScore
            (analyzeAgentPattern Math_sqrt agentId reports st).1 == 1)%Q
      /\ recommendations (analyzeAgentPattern Math_sqrt agentId reports st).1
         = [])
  /\ (deceptionDetected (analyzeAgentPattern Math_sqrt agentId reports st).1
      = true ->
      (0.2 <= DeceptionAnalysis.confidence
                (analyzeAgentPattern Math_sqrt agentId reports st).1)%Q
      /\ recommendations (analyzeAgentPattern Math_sqrt agentId reports st).1
         <> []).
Proof.
  rewrite analysis_detected, analysis_types.
  split; [|split].
  - destruct (firedLabels Math_sqrt reports); split; congruence.
  - intros Hnone.
    assert (Hquiet : firedLabels Math_sqrt reports = [])
      by (destruct (firedLabels Math_sqrt reports); [reflexivity|discriminate]).
    destruct reports as [|r reports]; [repeat split|].
    rewrite analyzeAgentPattern_nonempty. cbv zeta.
    rewrite (runChecks_quiet _ _ Hquiet). repeat split.
  - intros Hsome.
    assert (Hfired : firedLabels Math_sqrt reports <> [])
      by (destruct (firedLabels Math_sqrt reports); [discriminate|easy]).
    split.
    + rewrite analysis_confidence.
      apply Q.min_glb; [|discriminate].
      apply Qle_trans with (0 + 0.2)%Q; [discriminate|].
      apply addDeltas_grows; [|exact Hfired].
      intros x Hx. apply taxonomy_delta. now apply firedLabels_taxonomy in Hx.
    + destruct reports as [|r reports]; [now elim Hfired|].
      destruct (firedLabels Math_sqrt (r :: reports)) as [|x rest] eqn:Hl;
        [congruence|].
      rewrite analyzeAgentPattern_nonempty. cbv zeta.
      cbn [fst recommendations setRecommendations].
      apply generateRecommendations_nonempty with x.
      * apply (firedLabels_taxonomy (r :: reports)). rewrite Hl. now left.
      * cbn [deceptionType setConfidence setTruthScore].
        rewrite runChecks_types. cbn [newAnalysis deceptionType app].
        rewrite Hl. apply includes_In. now left.
Qed.

(** X3.  The confidence of an analysis is the sum of the deltas of its
    labels, added in the order of the labels, capped at 1. *)
Theorem confidence_is_capped_sum (agentId : string)
    (reports : list AgentReport) (st : DetectorState) :
  DeceptionAnalysis.confidence
    (analyzeAgentPattern Math_sqrt agentId reports st).1
  = Qmin
      (addDeltas
         (deceptionType (analyzeAgentPattern Math_sqrt agentId reports st).1)
         0)
      1.0.
Proof. rewrite analysis_types. apply analysis_confidence. Qed.

End AnalysisShape.

(** ** Truth score and gates *)

Lemma truthScore_full (reports : list AgentReport) (a : DeceptionAnalysis.t) :
  (calculateOverallTruthScore reports a == 1)%Q
  <-> forallb (fun x => negb (includes x (deceptionType a))) penalized = true.
Proof.
  unfold calculateOverallTruthScore, deduct, penalized. cbv zeta.
  cbn [forallb].
  generalize (includes "overconfidence" (deceptionType a))
    (includes "exaggeration" (deceptionType a))
    (includes "quality-inflation" (deceptionType a))
    (includes "inconsistency" (deceptionType a))
    (includes "issue_hiding" (deceptionType a))
    (includes "cherry_picking" (deceptionType a))
    (includes "fabrication" (deceptionType a))
    (includes "impossible_claims" (deceptionType a))
    (includes "contradictory_statements" (deceptionType a)).
  intros b1 b2 b3 b4 b5 b6 b7 b8 b9.
  destruct b1, b2, b3, b4, b5, b6, b7, b8, b9; vm_compute;
    split; intros H; solve [reflexivity | discriminate H].
Qed.

Lemma firedLabels_In (Math_sqrt : Q -> Q) (reports : list AgentReport)
    (x : string) :
  In x (firedLabels Math_sqrt reports)
  <-> (firesOverconfidence reports = true /\ "overconfidence" = x)
      \/ (firesExaggeration reports = true /\ "exaggeration" = x)
      \/ (firesImpossibleClaims reports = true /\ "impossible_claims" = x)
      \/ (firesQualityInflation reports = true /\ "quality-inflation" = x)
      \/ (firesInconsistency Math_sqrt reports = true /\ "inconsistency" = x)
      \/ (isHiding (detectIssueHiding reports) = true /\ "issue_hiding" = x)
      \/ (detectCherryPicking reports = true /\ "cherry_picking" = x)
      \/ (hasContradictions (detectContradictions reports) = true
          /\ "contradictory_statements" = x)
      \/ (FabricationPattern.isFabricated (detectFabricationPattern reports)
          = true /\ "fabrication" = x)
      \/ (hasGaslighting (detectGaslightingPatterns reports) = true
          /\ "gaslighting" = x)
      \/ (hasDiscrediting (detectGaslightingPatterns reports) = true
          /\ "discrediting_others" = x).
Proof.
  unfold firedLabels. rewrite !in_app_iff, !label_In. reflexivity.
Qed.

Section TruthScore.

Variable Math_sqrt : Q -> Q.

(** X4.  The truthScore of an analysis is 1 exactly when none of the nine
    penalized labels is present: gaslighting and discrediting_others alone
    leave it at 1. *)
Theorem truthScore_one_iff (agentId : string) (reports : list AgentReport)
    (st : DetectorState) :
  (DeceptionAnalysis.truthScore
     (analyzeAgentPattern Math_sqrt agentId reports st).1 == 1)%Q
  <-> forall x, In x penalized ->
        ~ In x (deceptionType
                  (analyzeAgentPattern Math_sqrt agentId reports st).1).
Proof.
  assert (Hall : forall types : list string,
    forallb (fun x => negb (includes x types)) penalized = true
    <-> forall x, In x penalized -> ~ In x types).
  { intros types. rewrite forallb_forall. split; intros H x Hx.
    - specialize (H x Hx). rewrite <- includes_In.
      now destruct (includes x types).
    - specialize (H x Hx). rewrite <- includes_In in H.
      now destruct (includes x types). }
  destruct reports as [|r reports].
  - cbn. split; [intros _ x _ []|reflexivity].
  - rewrite analyzeAgentPattern_nonempty. cbv zeta.
    cbn [fst DeceptionAnalysis.truthScore deceptionType setRecommendations
         setConfidence setTruthScore].
    rewrite truthScore_full. apply Hall.
Qed.

(** X5.  An analysis that carries impossible_claims also carries
    exaggeration. *)
Theorem impossible_claims_exaggerate (agentId : string)
    (reports : list AgentReport) (st : DetectorState) :
  In "impossible_claims"
    (deceptionType (analyzeAgentPattern Math_sqrt agentId reports st).1) ->
  In "exaggeration"
    (deceptionType (analyzeAgentPattern Math_sqrt agentId reports st).1).
Proof.
  rewrite analysis_types, !firedLabels_In.
  intros H.
  assert (Himpossible : firesImpossibleClaims reports = true).
  { repeat (destruct H as [[Hb Heq]|H]; [first [discriminate Heq|exact Hb]|]).
    destruct H as [_ Heq]. discriminate Heq. }
  right. left. split; [|reflexivity].
  now apply exaggeration_of_impossible.
Qed.

(** X6.  A label needs its minimum number of reports: 2 for inconsistency,
    3 for contradictory_statements, 5 for cherry_picking, fabrication,
    gaslighting and discrediting_others, 10 for issue_hiding, and 1 for
    the others. *)
Theorem labels_need_reports (agentId : string) (reports : list AgentReport)
    (st : DetectorState) (x : string) :
  In x (deceptionType (analyzeAgentPattern Math_sqrt agentId reports st).1) ->
  minReports x <= length reports.
Proof.
  rewrite analysis_types.
  destruct reports as [|r0 reports]; [intros []|].
  rewrite firedLabels_In.
  intros H.
  repeat (destruct H as [[Hb <-]|H];
          [try (cbn; lia) | ]); [ .. | destruct H as [Hb <-]].
  all: cbn [minReports String.eqb Ascii.eqb Bool.eqb].
  - unfold firesInconsistency, analyzeConsistency in Hb.
    destruct (length (r0 :: reports) <? 2) eqn:Hlen;
      [discriminate Hb | now apply Nat.ltb_ge in Hlen].
  - unfold detectIssueHiding in Hb.
    destruct (length (r0 :: reports) <? 10) eqn:Hlen;
      [discriminate Hb | now apply Nat.ltb_ge in Hlen].
  - unfold detectCherryPicking in Hb.
    destruct (length (r0 :: reports) <? 5) eqn:Hlen;
      [discriminate Hb | now apply Nat.ltb_ge in Hlen].
  - unfold detectContradictions in Hb.
    destruct (length (r0 :: reports) <? 3) eqn:Hlen;
      [discriminate Hb | now apply Nat.ltb_ge in Hlen].
  - unfold detectFabricationPattern in Hb.
    destruct (length (r0 :: reports) <? 5) eqn:Hlen;
      [discriminate Hb | now apply Nat.ltb_ge in Hlen].
  - unfold detectGaslightingPatterns in Hb.
    destruct (length (r0 :: reports) <? 5) eqn:Hlen;
      [discriminate Hb | now apply Nat.ltb_ge in Hlen].
  - unfold detectGaslightingPatterns in Hb.
    destruct (length (r0 :: reports) <? 5) eqn:Hlen;
      [discriminate Hb | now apply Nat.ltb_ge in Hlen].
Qed.

End TruthScore.

(** ** detectFabrication, continued *)

Lemma firesIndicator_tests (r : AgentReport) :
  firesIndicator "suspiciously-perfect-results" r = perfectResultsFire r
  /\ firesIndicator "insufficient-evidence" r = lacksEvidence r
  /\ firesIndicator "unrealistically-fast-completion" r = timingFires r
  /\ firesIndicator "unrealistic-performance-improvement" r
     = Qgtb (claimedImprovement r) 0.5.
Proof.
  unfold firesIndicator. rewrite detectFabrication_indicators.
  destruct (perfectResultsFire r), (lacksEvidence r), (timingFires r),
    (Qgtb (claimedImprovement r) 0.5); vm_compute; repeat split.
Qed.

(** X7.  The confidence of detectFabrication is the accumulated score
    itself: it lies between 0 and 1, and reaches 1 exactly when all four
    indicators fire.  The indicators come in the order of the checks, each at
    most once. *)
Theorem detectFabrication_confidence (report : AgentReport) :
  (FabricationResult.confidence (detectFabrication report)
   == fs_score (fabricationState report))%Q
  /\ (0 <= FabricationResult.confidence (detectFabrication report) <= 1)%Q
  /\ ((FabricationResult.confidence (detectFabrication report) == 1)%Q
      <-> FabricationResult.indicators (detectFabrication report)
          = fabricationIndicators)
  /\ FabricationResult.indicators (detectFabrication report)
       `sublist_of` fabricationIndicators.
Proof.
  rewrite detectFabrication_indicators.
  unfold detectFabrication. cbn [FabricationResult.confidence].
  rewrite detectFabrication_score.
  destruct (perfectResultsFire report), (lacksEvidence report),
    (timingFires report), (Qgtb (claimedImprovement report) 0.5);
    (split; [vm_compute; reflexivity|]);
    (split; [vm_compute; split; discriminate|]);
    (split; [vm_compute; split; intros H;
             solve [reflexivity | discriminate H]|]);
    cbn [app]; unfold fabricationIndicators;
    repeat first [ apply sublist_nil_l | apply sublist_skip
                 | apply sublist_cons ].
Qed.

(** X8.  detectFabrication calls a report fabricated exactly when
    suspiciously-perfect-results fires together with one of the two 0.25
    indicators, or the three other indicators fire together: no single
    indicator is enough, and any three are.  The comparison with 0.5 comes
    out the same when the score is added up in binary64. *)
Theorem isFabricated_iff (report : AgentReport) :
  FabricationResult.isFabricated (detectFabrication report)
  = (firesIndicator "suspiciously-perfect-results" report
     && (firesIndicator "unrealistically-fast-completion" report
         || firesIndicator "unrealistic-performance-improvement" report))
    || (firesIndicator "insufficient-evidence" report
        && firesIndicator "unrealistically-fast-completion" report
        && firesIndicator "unrealistic-performance-improvement" report)
  /\ FabricationResult.isFabricated (detectFabrication report)
     = PrimFloat.ltb 0.5
         (binary64Score
            (firesIndicator "suspiciously-perfect-results" report)
            (firesIndicator "insufficient-evidence" report)
            (firesIndicator "unrealistically-fast-completion" report)
            (firesIndicator "unrealistic-performance-improvement" report)).
Proof.
  destruct (firesIndicator_tests report) as (-> & -> & -> & ->).
  unfold detectFabrication. cbn [FabricationResult.isFabricated].
  rewrite detectFabrication_score.
  destruct (perfectResultsFire report), (lacksEvidence report),
    (timingFires report), (Qgtb (claimedImprovement report) 0.5);
    vm_compute; split; reflexivity.
Qed.

(** ** detectGaslighting, continued *)

Lemma compareWithOther_counts (report other : AgentReport)
    (st : list string * nat) :
  exists d, d <= 3
    /\ length (compareWithOther report other st).1 = length st.1 + d
    /\ (compareWithOther report other st).2 = st.2 + d.
Proof.
  unfold compareWithOther, pushContradiction.
  exists (b2n (negb (Bool.eqb (claimsSuccess report) (claimsSuccess other)))
          + b2n (Qgtb (Qabs (claimedImprovement report
                             - claimedImprovement other)) 0.3)
          + b2n (Qgtb (claimedCodeQuality report) 0.8
                 && Qltb (claimedCodeQuality other) 0.6)).
  destruct (negb (Bool.eqb (claimsSuccess report) (claimsSuccess other))),
    (Qgtb (Qabs (claimedImprovement report - claimedImprovement other)) 0.3),
    (Qgtb (claimedCodeQuality report) 0.8
     && Qltb (claimedCodeQuality other) 0.6);
    cbn [fst snd b2n]; rewrite ?length_app; cbn [length];
    repeat split; lia.
Qed.

Lemma compareWithOthers_counts (report : AgentReport)
    (peers : list AgentReport) (st : list string * nat) :
  exists d, d <= 3 * length peers
    /\ length
         (fold_left (fun st o => compareWithOther report o st) peers st).1
       = length st.1 + d
    /\ (fold_left (fun st o => compareWithOther report o st) peers st).2
       = st.2 + d.
Proof.
  revert st. induction peers as [|o peers IH]; intros st.
  - exists 0. cbn. repeat split; lia.
  - cbn [fold_left].
    destruct (compareWithOther_counts report o st) as (d1 & Hd1 & Hl1 & Hc1).
    destruct (IH (compareWithOther report o st)) as (d2 & Hd2 & Hl2 & Hc2).
    exists (d1 + d2). cbn [length]. repeat split; lia.
Qed.

(** X9.  detectGaslighting counts what it lists: contradictionsWithOtherAgents
    is the number of contradictions, at most three per report of another
    agent on the same task; isGaslighting says that there are at least two,
    and the confidence lies between 0 and 1. *)
Theorem detectGaslighting_counts (report : AgentReport)
    (otherReports : list AgentReport) :
  GaslightingResult.contradictionsWithOtherAgents
    (detectGaslighting report otherReports)
  = length (GaslightingResult.contradictions
              (detectGaslighting report otherReports))
  /\ length (GaslightingResult.contradictions
               (detectGaslighting report otherReports))
     <= 3 * length (List.filter (sameTaskOtherAgent report) otherReports)
  /\ GaslightingResult.isGaslighting (detectGaslighting report otherReports)
     = (2 <=? GaslightingResult.contradictionsWithOtherAgents
                (detectGaslighting report otherReports))
  /\ (0 <= GaslightingResult.confidence
             (detectGaslighting report otherReports) <= 1)%Q.
Proof.
  unfold detectGaslighting. cbv zeta.
  cbn [GaslightingResult.contradictionsWithOtherAgents
       GaslightingResult.contradictions GaslightingResult.isGaslighting
       GaslightingResult.confidence].
  destruct (compareWithOthers_counts report
              (List.filter (sameTaskOtherAgent report) otherReports) ([], 0))
    as (d & Hd & Hl & Hc).
  cbn [fst snd length] in Hl, Hc.
  rewrite Hl, Hc. repeat split; try lia.
  - apply Q.min_glb; [|discriminate].
    apply Qmult_le_0_compat; [|discriminate].
    unfold num. change 0%Q with (inject_Z 0). rewrite <- Zle_Qle. lia.
  - apply Qle_trans with 1.0%Q; [apply Q.le_min_r | discriminate].
Qed.

(** X10.  Reports of the agent itself and reports on other tasks have no
    part in detectGaslighting: wherever they stand among otherReports, the
    result is the same without them. *)
Theorem detectGaslighting_ignores (report : AgentReport)
    (before extra after : list AgentReport) :
  (forall r, In r extra ->
     taskId r <> taskId report \/ agentId r = agentId report) ->
  detectGaslighting report (before ++ extra ++ after)
  = detectGaslighting report (before ++ after).
Proof.
  intros Hextra. unfold detectGaslighting.
  rewrite !List.filter_app.
  rewrite (filter_none (sameTaskOtherAgent report) extra); [reflexivity|].
  intros r Hr. apply not_true_iff_false.
  rewrite sameTaskOtherAgent_true. specialize (Hextra r Hr). tauto.
Qed.

(** X10: a witness, the unrelated reports between two contradicting ones. *)
Lemma detectGaslighting_ignores_witness :
  detectGaslighting boastful ([claimsFailed] ++ unrelated ++ [claimsFailed])
  = detectGaslighting boastful ([claimsFailed] ++ [claimsFailed]).
Proof.
  apply (detectGaslighting_ignores boastful [claimsFailed] unrelated
           [claimsFailed]).
  intros r [<-|[<-|[<-|[]]]];
    solve [left; discriminate | right; reflexivity].
Defined.

(** ** detectSelectiveReporting *)

(** X11.  detectSelectiveReporting never calls fewer than 11 reports
    selective.  A selective verdict comes with confidence 0.8 or 0.7 and a
    named pattern, any other with confidence 0 and no evidence. *)
Theorem detectSelectiveReporting_verdicts (reports : list AgentReport) :
  (SelectiveResult.isSelective (detectSelectiveReporting reports) = true ->
   10 < length reports
   /\ ((SelectiveResult.confidence (detectSelectiveReporting reports) = 0.8%Q
        /\ exists rate,
             SelectiveResult.evidence (detectSelectiveReporting reports)
             = AlwaysPositive rate (length reports))
       \/ (SelectiveResult.confidence (detectSelectiveReporting reports)
           = 0.7%Q
           /\ SelectiveResult.evidence (detectSelectiveReporting reports)
              = NoErrorsReported (length reports))))
  /\ (SelectiveResult.isSelective (detectSelectiveReporting reports) = false ->
      SelectiveResult.confidence (detectSelectiveReporting reports) = 0%Q
      /\ SelectiveResult.evidence (detectSelectiveReporting reports)
         = NoPattern).
Proof.
  unfold detectSelectiveReporting. cbv zeta.
  destruct (length reports <? 5) eqn:Hfive; [split; [discriminate|easy]|].
  destruct (Qgtb _ _ && (10 <? length reports)) eqn:Hpositive.
  - apply andb_true_iff in Hpositive as [_ Hten]. apply Nat.ltb_lt in Hten.
    split; [|discriminate]. intros _. split; [exact Hten|]. left.
    split; [reflexivity | eexists; reflexivity].
  - destruct ((length _ =? 0) && (15 <? length reports)) eqn:Hsilent.
    + apply andb_true_iff in Hsilent as [_ Hfifteen].
      apply Nat.ltb_lt in Hfifteen.
      split; [|discriminate]. intros _. split; [lia|]. right. now split.
    + split; [discriminate|easy].
Qed.

(** X12.  More than 15 reports of which none admits an error are always
    selective reporting, under one pattern or the other. *)
Theorem detectSelectiveReporting_silent (reports : list AgentReport) :
  15 < length reports ->
  (forall r, In r reports -> claimsNoErrors r = true) ->
  SelectiveResult.isSelective (detectSelectiveReporting reports) = true.
Proof.
  intros Hlen Hclean. unfold detectSelectiveReporting. cbv zeta.
  assert ((length reports <? 5) = false) as -> by (apply Nat.ltb_ge; lia).
  destruct (Qgtb _ _ && _); [reflexivity|].
  rewrite filter_none.
  - assert ((15 <? length reports) = true) as -> by now apply Nat.ltb_lt.
    reflexivity.
  - intros r Hr. now rewrite (Hclean r Hr).
Qed.

(** X12: a witness, sixteen reports without errors. *)
Lemma detectSelectiveReporting_silent_witness :
  SelectiveResult.isSelective
    (detectSelectiveReporting (replicate 16 boastful)) = true.
Proof.
  apply (detectSelectiveReporting_silent (replicate 16 boastful)).
  - vm_compute. lia.
  - intros r Hr. apply list_elem_of_In, elem_of_replicate in Hr as [-> _].
    reflexivity.
Defined.

(** ** Grouping by task *)

Lemma pushToGroup_keys (k : string) (r : AgentReport)
    (groups : list (string * list AgentReport)) (x : string) :
  In x (map fst (pushToGroup k r groups)) -> x = k \/ In x (map fst groups).
Proof.
  induction groups as [|[k0 rs0] groups IH]; cbn [pushToGroup].
  - cbn. intros [<-|[]]. now left.
  - destruct (String.eqb k0 k); cbn [map fst In]; [tauto|].
    intros [<-|H]; [tauto|]. apply IH in H. tauto.
Qed.

Lemma pushToGroup_NoDup (k : string) (r : AgentReport)
    (groups : list (string * list AgentReport)) :
  List.NoDup (map fst groups) ->
  List.NoDup (map fst (pushToGroup k r groups)).
Proof.
  induction groups as [|[k0 rs0] groups IH]; cbn [pushToGroup]; intros Hnd.
  - cbn. constructor; [easy | constructor].
  - destruct (String.eqb_spec k0 k) as [->|Hne]; [exact Hnd|].
    cbn [map fst] in *. inversion Hnd as [|? ? Hnotin Hrest]; subst.
    constructor; [|now apply IH].
    intros Hin. apply pushToGroup_keys in Hin as [->|Hin]; tauto.
Qed.

(** Where an entry of the new table comes from. *)
Lemma pushToGroup_In (k : string) (r : AgentReport)
    (groups : list (string * list AgentReport)) (k' : string)
    (g' : list AgentReport) :
  List.NoDup (map fst groups) ->
  In (k', g') (pushToGroup k r groups) ->
  (k' <> k /\ In (k', g') groups)
  \/ (k' = k /\ exists g, In (k, g) groups /\ g' = g ++ [r])
  \/ (k' = k /\ ~ In k (map fst groups) /\ g' = [r]).
Proof.
  induction groups as [|[k0 rs0] groups IH]; cbn [pushToGroup]; intros Hnd.
  - cbn. intros [H|[]]. injection H as <- <-. right. right. tauto.
  - cbn [map fst] in Hnd. inversion Hnd as [|? ? Hnotin Hrest]; subst.
    destruct (String.eqb_spec k0 k) as [->|Hne].
    + intros [H|H].
      * injection H as <- <-. right. left. split; [reflexivity|].
        exists rs0. split; [now left | reflexivity].
      * left. split; [|now right].
        intros ->. apply Hnotin. apply in_map_iff. now exists (k, g').
    + intros [H|H].
      * injection H as <- <-. left. split; [exact Hne | now left].
      * destruct (IH Hrest H) as [[Hk Hin]|[[-> (g & Hin & ->)]|[-> [Hk ->]]]].
        -- left. split; [exact Hk | now right].
        -- right. left. split; [reflexivity|]. exists g.
           split; [now right | reflexivity].
        -- right. right. repeat split. cbn [map fst In]. tauto.
Qed.

Lemma pushToGroup_has (k : string) (r : AgentReport)
    (groups : list (string * list AgentReport)) :
  In k (map fst (pushToGroup k r groups)).
Proof.
  induction groups as [|[k0 rs0] groups IH]; cbn [pushToGroup].
  - now left.
  - destruct (String.eqb_spec k0 k) as [->|Hne]; cbn [map fst In]; tauto.
Qed.

Lemma pushToGroup_keeps (k : string) (r : AgentReport)
    (groups : list (string * list AgentReport)) (x : string) :
  In x (map fst groups) -> In x (map fst (pushToGroup k r groups)).
Proof.
  induction groups as [|[k0 rs0] groups IH]; cbn [pushToGroup]; [intros []|].
  destruct (String.eqb k0 k); cbn [map fst In]; tauto.
Qed.

Lemma filter_task_snoc (k : string) (prefix : list AgentReport)
    (r : AgentReport) :
  List.filter (fun x => String.eqb (taskId x) k) (prefix ++ [r])
  = List.filter (fun x => String.eqb (taskId x) k) prefix
    ++ (if String.eqb (taskId r) k then [r] else []).
Proof. rewrite List.filter_app. cbn. now destruct (String.eqb _ _). Qed.

Lemma groupByTask_from (reports prefix : list AgentReport)
    (groups : list (string * list AgentReport)) :
  List.NoDup (map fst groups) ->
  (forall k g, In (k, g) groups ->
     g <> [] /\ g = List.filter (fun r => String.eqb (taskId r) k) prefix) ->
  (forall r, In r prefix -> In (taskId r) (map fst groups)) ->
  exists result,
    result
    = fold_left (fun groups report => pushToGroup (taskId report) report groups)
        reports groups
    /\ List.NoDup (map fst result)
    /\ (forall k g, In (k, g) result ->
          g <> []
          /\ g = List.filter (fun r => String.eqb (taskId r) k)
                   (prefix ++ reports))
    /\ (forall r, In r (prefix ++ reports) ->
          In (taskId r) (map fst result)).
Proof.
  revert prefix groups.
  induction reports as [|r reports IH]; intros prefix groups Hnd Hgroups Hkeys.
  - exists groups. cbn [fold_left]. rewrite app_nil_r. auto.
  - cbn [fold_left].
    replace (prefix ++ r :: reports) with ((prefix ++ [r]) ++ reports)
      by now rewrite <- app_assoc.
    apply IH.
    + now apply pushToGroup_NoDup.
    + intros k g Hin. rewrite filter_task_snoc.
      apply pushToGroup_In in Hin
        as [[Hk Hin]|[[-> (g0 & Hin & ->)]|[-> [Hk ->]]]]; [| | |exact Hnd].
      * destruct (Hgroups k g Hin) as [Hne Hg]. split; [exact Hne|].
        assert (String.eqb (taskId r) k = false) as ->
          by (apply String.eqb_neq; congruence).
        now rewrite app_nil_r.
      * destruct (Hgroups _ g0 Hin) as [Hne Hg].
        rewrite String.eqb_refl, <- Hg.
        split; [now destruct g0 | reflexivity].
      * rewrite String.eqb_refl. split; [discriminate|].
        rewrite filter_none; [reflexivity|].
        intros x Hx. apply String.eqb_neq. intros Heq.
        apply Hk. rewrite <- Heq. now apply Hkeys.
    + intros x Hx. apply in_app_iff in Hx as [Hx|[<-|[]]].
      * apply pushToGroup_keeps. now apply Hkeys.
      * apply pushToGroup_has.
Qed.

(** X13.  groupByTask partitions the reports by task: the task ids of the
    table are distinct, every report's task has an entry, and the entry of a
    task holds exactly the reports of that task, in their order in the
    input; no entry is empty. *)
Theorem groupByTask_partition (reports : list AgentReport) :
  List.NoDup (map fst (groupByTask reports))
  /\ (forall k g, In (k, g) (groupByTask reports) ->
        g <> []
        /\ g = List.filter (fun r => String.eqb (taskId r) k) reports)
  /\ (forall r, In r reports ->
        In (taskId r,
            List.filter (fun x => String.eqb (taskId x) (taskId r)) reports)
           (groupByTask reports)).
Proof.
  destruct (groupByTask_from reports [] [])
    as (result & Hresult & Hnd & Hgroups & Hkeys).
  - constructor.
  - intros k g [].
  - intros r [].
  - cbn [app] in Hgroups, Hkeys. fold (groupByTask reports) in Hresult.
    subst result.
    split; [exact Hnd|]. split; [exact Hgroups|].
    intros r Hr. specialize (Hkeys r Hr).
    apply in_map_iff in Hkeys as ([k g] & Hk & Hin). cbn in Hk. subst k.
    destruct (Hgroups _ _ Hin) as [_ Hg]. now rewrite <- Hg.
Qed.

(** ** detectCollusion, continued *)

(** X14.  The confidence of detectCollusion lies between 0 and 1, and a
    verdict of collusion comes with a confidence of at least 0.6. *)
Theorem detectCollusion_confidence (allReports : list AgentReport) :
  (0 <= CollusionResult.confidence (detectCollusion allReports) <= 1)%Q
  /\ (CollusionResult.isCollusion (detectCollusion allReports) = true ->
      (0.6 <= CollusionResult.confidence (detectCollusion allReports))%Q).
Proof.
  unfold detectCollusion. cbv zeta.
  destruct (length allReports <? 4).
  - cbn. repeat split; discriminate.
  - cbn [CollusionResult.confidence CollusionResult.isCollusion].
    set (st := fold_left _ _ _).
    assert (Hnum : forall n m : nat, n <= m -> (num n <= num m)%Q)
      by exact num_le.
    split; [split|].
    + apply Q.min_glb; [|discriminate].
      apply Qmult_le_0_compat; [apply (num_le 0); lia | discriminate].
    + apply Qle_trans with 1.0%Q; [apply Q.le_min_r | discriminate].
    + intros Hcollusion. apply Q.min_glb; [|discriminate].
      assert (Hthree : 3 <= st.2 + st.1).
      { apply orb_true_iff in Hcollusion as [H|H]; apply Nat.ltb_lt in H; lia. }
      apply Qle_trans with (num 3 * 0.2)%Q; [discriminate|].
      apply Qmult_le_compat_r; [now apply num_le | discriminate].
Qed.

Lemma filter_task_distinct (k : string) (reports : list AgentReport) :
  List.NoDup (map taskId reports) ->
  length (List.filter (fun r => String.eqb (taskId r) k) reports) <= 1.
Proof.
  induction reports as [|r reports IH]; cbn [map List.filter length];
    intros Hnd; [lia|].
  inversion Hnd as [|? ? Hnotin Hrest]; subst.
  destruct (String.eqb_spec (taskId r) k) as [<-|Hne]; [|now apply IH].
  rewrite filter_none; [cbn; lia|].
  intros x Hx. apply String.eqb_neq. intros Heq. apply Hnotin.
  rewrite <- Heq. now apply in_map.
Qed.

Lemma groups_of_distinct_tasks (reports : list AgentReport) :
  List.NoDup (map taskId reports) ->
  forall group, In group (groupByTask reports) -> length group.2 <= 1.
Proof.
  intros Hnd [k g] Hin.
  destruct (groupByTask_from reports [] [])
    as (result & Hresult & _ & Hgroups & _);
    [constructor | intros ? ? [] | intros ? [] |].
  unfold groupByTask in Hin. rewrite <- Hresult in Hin.
  destruct (Hgroups k g Hin) as [_ ->]. now apply filter_task_distinct.
Qed.

Lemma fold_left_unchanged {A B} (f : A -> B -> A) (l : list B) (a : A) :
  (forall x b, In b l -> f x b = x) -> fold_left f l a = a.
Proof.
  revert a. induction l as [|b l IH]; intros a Hall; [reflexivity|].
  cbn [fold_left]. rewrite (Hall a b (or_introl eq_refl)).
  apply IH. intros x b' Hb'. apply Hall. now right.
Qed.

(** X15.  Reports on pairwise distinct tasks are never taken for collusion,
    however many they are and however alike their claims and timestamps:
    detectCollusion only compares reports of the same task. *)
Theorem detectCollusion_distinct_tasks (allReports : list AgentReport) :
  List.NoDup (map taskId allReports) ->
  CollusionResult.isCollusion (detectCollusion allReports) = false
  /\ CollusionResult.evidence (detectCollusion allReports)
     = {| CollusionResult.synchronizedReporting := false;
          CollusionResult.identicalFalseClaims := 0 |}
  /\ (CollusionResult.confidence (detectCollusion allReports) == 0)%Q.
Proof.
  intros Hdistinct. unfold detectCollusion. cbv zeta.
  destruct (length allReports <? 4); [repeat split; reflexivity|].
  rewrite fold_left_unchanged.
  - repeat split; reflexivity.
  - intros st group Hgroup. unfold inspectTaskGroup.
    pose proof (groups_of_distinct_tasks allReports Hdistinct group Hgroup).
    destruct (length group.2 <? 2) eqn:Hlen; [reflexivity|].
    apply Nat.ltb_ge in Hlen. lia.
Qed.

(** X15: a witness, four alike reports on four tasks. *)
Lemma detectCollusion_distinct_tasks_witness :
  CollusionResult.isCollusion (detectCollusion distinctTasks) = false
  /\ CollusionResult.evidence (detectCollusion distinctTasks)
     = {| CollusionResult.synchronizedReporting := false;
          CollusionResult.identicalFalseClaims := 0 |}
  /\ (CollusionResult.confidence (detectCollusion distinctTasks) == 0)%Q.
Proof.
  apply detectCollusion_distinct_tasks.
  unfold distinctTasks. cbn [map taskId exampleReport].
  repeat (constructor; [simpl; intuition discriminate|]). constructor.
Defined.

Lemma detectContradictions_distinct (reports : list AgentReport) :
  List.NoDup (map taskId reports) ->
  detectContradictions reports = {| hasContradictions := false; count := 0 |}.
Proof.
  intros Hdistinct. unfold detectContradictions.
  destruct (length reports <? 3); [reflexivity|]. cbv zeta.
  rewrite fold_left_unchanged; [reflexivity|].
  intros n group Hgroup.
  pose proof (groups_of_distinct_tasks reports Hdistinct group Hgroup).
  destruct (1 <? length group.2) eqn:Hlen; [|reflexivity].
  apply Nat.ltb_lt in Hlen. lia.
Qed.

(** X16.  An agent whose reports are all on different tasks is never found
    to contradict itself: detectContradictions counts nothing, and the
    analysis does not carry contradictory_statements. *)
Theorem contradictions_need_shared_task (Math_sqrt : Q -> Q)
    (agentId : string) (reports : list AgentReport) (st : DetectorState) :
  List.NoDup (map taskId reports) ->
  detectContradictions reports = {| hasContradictions := false; count := 0 |}
  /\ ~ In "contradictory_statements"
         (deceptionType (analyzeAgentPattern Math_sqrt agentId reports st).1).
Proof.
  intros Hdistinct.
  pose proof (detectContradictions_distinct reports Hdistinct) as Hnone.
  split; [exact Hnone|].
  rewrite analysis_types, firedLabels_In, Hnone. cbn [hasContradictions].
  intros H.
  repeat (destruct H as [[Hb Heq]|H]; [discriminate|]).
  destruct H as [_ Heq]. discriminate Heq.
Qed.

(** X16: a witness, the same four reports. *)
Lemma contradictions_need_shared_task_witness :
  detectContradictions distinctTasks
  = {| hasContradictions := false; count := 0 |}
  /\ ~ In "contradictory_statements"
         (deceptionType
            (analyzeAgentPattern sqrtDyadic "agent-1" distinctTasks
               emptyDetector).1).
Proof.
  apply contradictions_need_shared_task.
  unfold distinctTasks. cbn [map taskId exampleReport].
  repeat (constructor; [simpl; intuition discriminate|]). constructor.
Defined.

(** ** analyzeSingleReport and the stored analyses *)

Lemma updateLast_snoc {A} (f : A -> A) (l : list A) (x : A) :
  updateLast f (l ++ [x]) = l ++ [f x].
Proof.
  induction l as [|y l IH]; [reflexivity|].
  cbn [app updateLast]. rewrite IH.
  destruct (l ++ [x]) eqn:Hl; [|reflexivity].
  now apply app_eq_nil in Hl as [_ Hl].
Qed.

Lemma getAgentHistory_single (Math_sqrt : Q -> Q) (agentId' : string)
    (report : AgentReport) (historicalReports : list AgentReport)
    (st : DetectorState) :
  getAgentHistory agentId'
    (analyzeSingleReport Math_sqrt report historicalReports st).2
  = getAgentHistory agentId' st
    ++ (if String.eqb agentId' (agentId report)
        then [(analyzeSingleReport Math_sqrt report historicalReports st).1]
        else []).
Proof.
  unfold analyzeSingleReport. cbv zeta. cbn [fst snd].
  set (result := analyzeAgentPattern _ _ _ _).
  assert (Hstored : forall k, getAgentHistory k result.2
    = getAgentHistory k st
      ++ (if String.eqb k (agentId report) then [result.1] else [])).
  { intros k. subst result.
    destruct (historicalReports ++ [report]) as [|r rest] eqn:Hall;
      [now apply app_eq_nil in Hall as [_ Hall]|].
    rewrite analyzeAgentPattern_nonempty. cbv zeta. cbn [fst snd].
    apply getAgentHistory_store. }
  unfold getAgentHistory in *. cbn [analysisHistory].
  destruct (String.eqb_spec agentId' (agentId report)) as [->|Hne].
  - rewrite lookup_alter_eq.
    specialize (Hstored (agentId report)). rewrite String.eqb_refl in Hstored.
    destruct (analysisHistory result.2 !! agentId report) as [l|];
      simpl in Hstored |- *.
    + rewrite Hstored. apply updateLast_snoc.
    + now apply app_cons_not_nil in Hstored.
  - rewrite lookup_alter_ne by congruence.
    specialize (Hstored agentId').
    destruct (String.eqb_spec agentId' (agentId report)); [congruence|].
    exact Hstored.
Qed.

(** X17.  analyzeSingleReport analyses the historical reports followed by
    the report, under the agent of the report; the analysis it returns
    carries the id of the report, is appended to the history of that agent,
    reportId included, and the history of every other agent stays as it
    was. *)
Theorem analyzeSingleReport_history (Math_sqrt : Q -> Q)
    (report : AgentReport) (historicalReports : list AgentReport)
    (st : DetectorState) (agentId' : string) :
  DeceptionAnalysis.reportId
    (analyzeSingleReport Math_sqrt report historicalReports st).1
  = Some (id report)
  /\ deceptionType
       (analyzeSingleReport Math_sqrt report historicalReports st).1
     = deceptionType
         (analyzeAgentPattern Math_sqrt (agentId report)
            (historicalReports ++ [report]) st).1
  /\ getAgentHistory (agentId report)
       (analyzeSingleReport Math_sqrt report historicalReports st).2
     = getAgentHistory (agentId report) st
       ++ [(analyzeSingleReport Math_sqrt report historicalReports st).1]
  /\ (agentId' <> agentId report ->
      getAgentHistory agentId'
        (analyzeSingleReport Math_sqrt report historicalReports st).2
      = getAgentHistory agentId' st).
Proof.
  split; [reflexivity|]. split; [|split].
  - reflexivity.
  - rewrite getAgentHistory_single. now rewrite String.eqb_refl.
  - intros Hother. rewrite getAgentHistory_single.
    destruct (String.eqb_spec agentId' (agentId report)); [congruence|].
    apply app_nil_r.
Qed.

Lemma analysis_sound (Math_sqrt : Q -> Q) (agentId : string)
    (reports : list AgentReport) (st : DetectorState) :
  soundAnalysis (analyzeAgentPattern Math_sqrt agentId reports st).1.
Proof.
  unfold soundAnalysis.
  rewrite analysis_detected, analysis_types, analysis_confidence.
  assert (Hsum : firedLabels Math_sqrt reports <> [] ->
    (0.2 <= addDeltas (firedLabels Math_sqrt reports) 0)%Q).
  { intros Hfired. apply Qle_trans with (0 + 0.2)%Q; [discriminate|].
    apply addDeltas_grows; [|exact Hfired].
    intros x Hx. apply taxonomy_delta.
    now apply firedLabels_taxonomy in Hx. }
  assert (Htruth : (0 <= DeceptionAnalysis.truthScore
    (analyzeAgentPattern Math_sqrt agentId reports st).1 <= 1)%Q).
  { destruct reports as [|r reports]; [cbn; split; discriminate|].
    rewrite analyzeAgentPattern_nonempty. cbv zeta.
    cbn [fst DeceptionAnalysis.truthScore setRecommendations setConfidence
         setTruthScore].
    split; [apply Q.le_max_l|].
    apply Q.max_lub; [discriminate | apply Q.le_min_l]. }
  destruct (firedLabels Math_sqrt reports) as [|x rest] eqn:Hfired.
  - repeat split; try discriminate; try apply Htruth.
    destruct reports as [|r reports]; [reflexivity|].
    rewrite analyzeAgentPattern_nonempty. cbv zeta.
    rewrite (runChecks_quiet _ _ _ Hfired). reflexivity.
  - assert (Hpos : (0.2 <= addDeltas (x :: rest) 0)%Q)
      by (apply Hsum; discriminate).
    split; [split|split; [exact Htruth|split; [discriminate|intros _]]].
    + apply Q.min_glb; [lra | discriminate].
    + apply Qle_trans with 1.0%Q; [apply Q.le_min_r | discriminate].
    + apply Q.min_glb; [exact Hpos | discriminate].
Qed.

Lemma reachable_sound (Math_sqrt : Q -> Q) (st : DetectorState) :
  reachable Math_sqrt st ->
  forall agentId a, In a (getAgentHistory agentId st) -> soundAnalysis a.
Proof.
  induction 1 as [|st agent reports _ IH|st report hist _ IH];
    intros k a Ha.
  - unfold getAgentHistory in Ha. cbn in Ha. rewrite lookup_empty in Ha.
    destruct Ha.
  - destruct reports as [|r reports]; [now apply (IH k)|].
    rewrite analyzeAgentPattern_nonempty in Ha. cbv zeta in Ha.
    cbn [snd] in Ha. rewrite getAgentHistory_store in Ha.
    apply in_app_iff in Ha as [Ha|Ha]; [now apply (IH k)|].
    destruct (String.eqb k agent); [|destruct Ha].
    destruct Ha as [<-|[]].
    apply (analysis_sound Math_sqrt agent (r :: reports) st).
  - rewrite getAgentHistory_single in Ha.
    apply in_app_iff in Ha as [Ha|Ha]; [now apply (IH k)|].
    destruct (String.eqb k (agentId report)); [|destruct Ha].
    destruct Ha as [<-|[]].
    exact (analysis_sound Math_sqrt (agentId report) (hist ++ [report]) st).
Qed.

(** ** calculateRiskScore *)

Lemma num_S (n : nat) : (num (S n) == num n + 1)%Q.
Proof.
  unfold num. rewrite Nat2Z.inj_succ, <- Z.add_1_r, inject_Z_plus.
  reflexivity.
Qed.

Lemma sum_between {A} (f : A -> Q) (lo hi : Q) (l : list A) (c : Q) :
  (forall a, In a l -> (lo <= f a <= hi)%Q) ->
  (c + num (length l) * lo <= fold_left (fun sum a => sum + f a) l c
   <= c + num (length l) * hi)%Q.
Proof.
  revert c. induction l as [|a l IH]; intros c Hall.
  - cbn. change (num 0) with 0%Q. lra.
  - cbn [fold_left length]. rewrite num_S.
    pose proof (Hall a (or_introl eq_refl)) as Ha.
    destruct (IH (c + f a)%Q) as [Hlo Hhi];
      [intros b Hb; apply Hall; now right|].
    split; lra.
Qed.

Lemma average_between (s n lo hi : Q) :
  (0 < n)%Q -> (n * lo <= s <= n * hi)%Q -> (lo <= s / n <= hi)%Q.
Proof.
  intros Hn [Hlo Hhi]. split.
  - apply Qle_shift_div_l; [exact Hn | lra].
  - apply Qle_shift_div_r; [exact Hn | lra].
Qed.

Lemma filter_nil_none {A} (f : A -> bool) (l : list A) :
  List.filter f l = [] -> forall x, In x l -> f x = false.
Proof.
  intros Hnil x Hx. destruct (f x) eqn:Hfx; [|reflexivity].
  assert (Hin : In x (List.filter f l)) by (apply filter_In; now split).
  rewrite Hnil in Hin. destruct Hin.
Qed.

Lemma lastFive_In {A} (l : list A) (x : A) : In x (lastFive l) -> In x l.
Proof.
  unfold lastFive. intros Hx.
  rewrite <- (firstn_skipn (length l - 5) l). apply in_app_iff. now right.
Qed.

Lemma flat_map_nil {A B} (f : A -> list B) (l : list A) :
  (forall a, In a l -> f a = []) -> flat_map f l = [].
Proof.
  induction l as [|a l IH]; intros Hall; [reflexivity|].
  cbn [flat_map]. rewrite (Hall a (or_introl eq_refl)).
  apply IH. intros b Hb. apply Hall. now right.
Qed.

Lemma uniqueStrings_from (labels seen : list string) :
  List.NoDup seen ->
  List.NoDup
    (fold_left (fun seen x => if includes x seen then seen else seen ++ [x])
       labels seen)
  /\ forall x,
       In x (fold_left
               (fun seen x => if includes x seen then seen else seen ++ [x])
               labels seen)
       <-> In x seen \/ In x labels.
Proof.
  revert seen. induction labels as [|y labels IH]; intros seen Hseen.
  - cbn. split; [exact Hseen | intros x; tauto].
  - cbn [fold_left].
    destruct (includes y seen) eqn:Hy.
    + destruct (IH seen Hseen) as [Hnd Hin]. split; [exact Hnd|].
      intros x. rewrite Hin. cbn [In]. apply includes_In in Hy.
      split; [tauto|]. intros [H|[<-|H]]; tauto.
    + assert (Hnew : ~ In y seen).
      { intros Hin. apply includes_In in Hin. congruence. }
      assert (Hseen' : List.NoDup (seen ++ [y])).
      { apply NoDup_ListNoDup, NoDup_app.
        split; [now apply NoDup_ListNoDup|]. split; [|apply NoDup_singleton].
        intros z Hz Hzy. apply list_elem_of_In in Hz, Hzy.
        destruct Hzy as [<-|[]]. contradiction. }
      destruct (IH (seen ++ [y]) Hseen') as [Hnd Hin]. split; [exact Hnd|].
      intros x. rewrite Hin, in_app_iff. cbn [In]. tauto.
Qed.

(** The three averages of [calculateRiskScore], on a non-empty history of
    sound analyses. *)
Lemma risk_parts (history : list DeceptionAnalysis.t) :
  history <> [] ->
  (forall a, In a history -> soundAnalysis a) ->
  let n := num (length history) in
  let avgTruthScore :=
    (fold_left (fun sum a => sum + DeceptionAnalysis.truthScore a) history 0
       / n)%Q in
  let avgConfidence :=
    (fold_left (fun sum a => sum + DeceptionAnalysis.confidence a) history 0
       / n)%Q in
  let deceptionCount := length (List.filter deceptionDetected history) in
  let deceptionRate := (num deceptionCount / n)%Q in
  (0 <= avgTruthScore <= 1)%Q
  /\ (0 <= avgConfidence <= 1)%Q
  /\ (0 <= deceptionRate <= 1)%Q
  /\ (deceptionCount = 0 ->
      (avgTruthScore == 1)%Q /\ (avgConfidence == 0)%Q
      /\ (deceptionRate == 0)%Q)
  /\ (0 < deceptionCount -> (0 < deceptionRate)%Q)
  /\ (deceptionCount = length history ->
      (deceptionRate == 1)%Q /\ (0.2 <= avgConfidence)%Q).
Proof.
  intros Hne Hsound n avgTruthScore avgConfidence deceptionCount deceptionRate.
  assert (Hn : (0 < n)%Q).
  { apply num_pos. destruct history; [congruence | cbn; lia]. }
  assert (Hcount : deceptionCount <= length history) by apply filter_length_le.
  split; [|split; [|split; [|split; [|split]]]].
  - apply average_between; [exact Hn|].
    pose proof (sum_between DeceptionAnalysis.truthScore 0 1 history 0) as H.
    fold n in H. destruct H as [Hlo Hhi];
      [intros a Ha; apply (Hsound a Ha) | split; lra].
  - apply average_between; [exact Hn|].
    pose proof (sum_between DeceptionAnalysis.confidence 0 1 history 0) as H.
    fold n in H. destruct H as [Hlo Hhi];
      [intros a Ha; apply (Hsound a Ha) | split; lra].
  - apply average_between; [exact Hn|].
    pose proof (num_le 0 deceptionCount) as Hlo.
    pose proof (num_le deceptionCount (length history) Hcount) as Hhi.
    fold n in Hhi. change (num 0) with 0%Q in Hlo.
    split; [|lra]. assert (0 <= num deceptionCount)%Q by (apply Hlo; lia).
    lra.
  - intros Hzero.
    assert (Hclean : forall a, In a history ->
      (DeceptionAnalysis.confidence a == 0)%Q
      /\ (DeceptionAnalysis.truthScore a == 1)%Q).
    { intros a Ha. destruct (Hsound a Ha) as (_ & _ & Hquiet & _).
      destruct Hquiet as (Hc & Ht & _); [|now split].
      apply (filter_nil_none deceptionDetected history); [|exact Ha].
      now apply length_zero_iff_nil. }
    split; [|split].
    + assert (Hboth : (1 <= avgTruthScore <= 1)%Q); [|lra].
      apply average_between; [exact Hn|].
      pose proof (sum_between DeceptionAnalysis.truthScore 1 1 history 0)
        as H.
      fold n in H. destruct H as [Hlo Hhi]; [|split; lra].
      intros a Ha. destruct (Hclean a Ha) as [_ Ht]. lra.
    + assert (Hboth : (0 <= avgConfidence <= 0)%Q); [|lra].
      apply average_between; [exact Hn|].
      pose proof (sum_between DeceptionAnalysis.confidence 0 0 history 0)
        as H.
      fold n in H. destruct H as [Hlo Hhi]; [|split; lra].
      intros a Ha. destruct (Hclean a Ha) as [Hc _]. lra.
    + subst deceptionRate. rewrite Hzero. change (num 0) with 0%Q.
      field. lra.
  - intros Hpos. subst deceptionRate.
    apply Qlt_shift_div_l; [exact Hn|].
    pose proof (num_pos deceptionCount Hpos). lra.
  - intros Hall. split.
    + subst deceptionRate. rewrite Hall. fold n. field. lra.
    + assert (Hboth : (0.2 <= avgConfidence <= 1)%Q); [|lra].
      apply average_between; [exact Hn|].
      pose proof (sum_between DeceptionAnalysis.confidence 0.2 1 history 0)
        as H.
      fold n in H. destruct H as [Hlo Hhi]; [|split; lra].
      intros a Ha. destruct (Hsound a Ha) as (Hc & _ & _ & Hloud).
      split; [|apply Hc]. apply Hloud.
      destruct (deceptionDetected a) eqn:Hd; [reflexivity|].
      exfalso.
      assert (Hlt : length (List.filter deceptionDetected history)
                    < length history); [|fold deceptionCount in Hlt; lia].
      clear -Ha Hd. induction history as [|b history IH]; [destruct Ha|].
      cbn [List.filter]. destruct Ha as [->|Ha].
      * rewrite Hd. cbn [length].
        pose proof (filter_length_le deceptionDetected history). lia.
      * specialize (IH Ha). destruct (deceptionDetected b); cbn [length]; lia.
Qed.

Section RiskScore.

Variable Math_sqrt : Q -> Q.

(** X18.  On a detector state that the methods of the class have produced,
    the risk score of every agent lies between 0 and 1. *)
Theorem calculateRiskScore_bounds (agentId : string) (st : DetectorState) :
  reachable Math_sqrt st ->
  (0 <= RiskResult.riskScore (calculateRiskScore agentId st) <= 1)%Q.
Proof.
  intros Hreach. unfold calculateRiskScore. cbv zeta.
  pose proof (reachable_sound Math_sqrt st Hreach agentId) as Hsound.
  destruct (getAgentHistory agentId st) as [|a history] eqn:Hh;
    [cbn; split; discriminate|].
  cbn [length Nat.eqb RiskResult.riskScore].
  destruct (risk_parts (a :: history)) as (Ht & Hc & Hr & _);
    [discriminate | exact Hsound |].
  cbn [length] in Ht, Hc, Hr. split; lra.
Qed.

(** X19.  On such a state the risk score of an agent is 0 exactly when none
    of its stored analyses detected deception (in particular when the agent
    was never analysed); the agent is then rated low, with no recent
    patterns. *)
Theorem calculateRiskScore_zero (agentId : string) (st : DetectorState) :
  reachable Math_sqrt st ->
  ((RiskResult.riskScore (calculateRiskScore agentId st) == 0)%Q
   <-> forall a, In a (getAgentHistory agentId st) ->
         deceptionDetected a = false)
  /\ ((forall a, In a (getAgentHistory agentId st) ->
         deceptionDetected a = false) ->
      RiskResult.riskLevel (calculateRiskScore agentId st) = low
      /\ RiskResult.recentPatterns (calculateRiskScore agentId st) = []).
Proof.
  intros Hreach. unfold calculateRiskScore. cbv zeta.
  pose proof (reachable_sound Math_sqrt st Hreach agentId) as Hsound.
  destruct (getAgentHistory agentId st) as [|a0 history] eqn:Hh.
  { cbn. split; [split; [intros _ a []|reflexivity]|].
    intros _. split; reflexivity. }
  cbn [length Nat.eqb RiskResult.riskScore RiskResult.riskLevel
       RiskResult.recentPatterns].
  destruct (risk_parts (a0 :: history))
    as (Ht & Hc & Hr & Hzero & Hpos & _); [discriminate | exact Hsound |].
  cbn [length] in Ht, Hc, Hr, Hzero, Hpos.
  assert (Hclean : (forall a, In a (a0 :: history) ->
                      deceptionDetected a = false)
    <-> length (List.filter deceptionDetected (a0 :: history)) = 0).
  { split.
    - intros Hnone. now rewrite filter_none.
    - intros Hnil. apply filter_nil_none. now apply length_zero_iff_nil. }
  split.
  - rewrite Hclean. split.
    + intros Hrisk.
      destruct (length (List.filter deceptionDetected (a0 :: history)))
        as [|k]; [reflexivity|].
      assert (0 < S k) as Hk by lia. specialize (Hpos Hk). lra.
    + intros Hnone. destruct (Hzero Hnone) as (Ht1 & Hc0 & Hr0).
      rewrite Ht1, Hc0, Hr0. reflexivity.
  - intros Hnone. pose proof Hnone as Hcount. apply Hclean in Hcount.
    destruct (Hzero Hcount) as (Ht1 & Hc0 & Hr0). split.
    + match goal with
      | |- (if Qltb ?x 0.3 then _ else _) = _ =>
          assert (Hlow : Qltb x 0.3 = true)
            by (apply Qltb_true; rewrite Ht1, Hc0, Hr0; reflexivity);
          now rewrite Hlow
      end.
    + rewrite flat_map_nil; [reflexivity|].
      intros a Ha. apply lastFive_In in Ha.
      destruct (Hsound a Ha) as (_ & _ & Hquiet & _).
      now apply Hquiet, Hnone.
Qed.

(** X20.  On such a state an agent with a non-empty history in which every
    analysis detected deception has a risk score of at least 0.36, and is
    never rated low. *)
Theorem calculateRiskScore_always_deceptive (agentId : string)
    (st : DetectorState) :
  reachable Math_sqrt st ->
  getAgentHistory agentId st <> [] ->
  (forall a, In a (getAgentHistory agentId st) -> deceptionDetected a = true) ->
  (0.36 <= RiskResult.riskScore (calculateRiskScore agentId st))%Q
  /\ RiskResult.riskLevel (calculateRiskScore agentId st) <> low.
Proof.
  intros Hreach Hne Hall. unfold calculateRiskScore. cbv zeta.
  pose proof (reachable_sound Math_sqrt st Hreach agentId) as Hsound.
  destruct (getAgentHistory agentId st) as [|a0 history] eqn:Hh;
    [congruence|].
  cbn [length Nat.eqb RiskResult.riskScore RiskResult.riskLevel].
  destruct (risk_parts (a0 :: history))
    as (Ht & Hc & Hr & _ & _ & Hfull); [discriminate | exact Hsound |].
  cbn [length] in Ht, Hc, Hr, Hfull.
  destruct Hfull as [Hr1 Hc2]; [now rewrite filter_all|].
  match goal with
  | |- (_ <= ?x)%Q /\ _ => assert (Hrisk : (0.36 <= x)%Q) by lra
  end.
  split; [exact Hrisk|].
  match goal with
  | |- (if Qltb ?x 0.3 then _ else _) <> _ =>
      assert (Hlow : Qltb x 0.3 = false) by (apply Qltb_false; lra);
      rewrite Hlow
  end.
  repeat match goal with
         | |- (if ?c then _ else _) <> _ => destruct c
         end; discriminate.
Qed.

End RiskScore.

(** X21.  The recent patterns of an agent are the labels of its last five
    stored analyses, each listed once. *)
Theorem recentPatterns_of_last_five (agentId : string) (st : DetectorState) :
  List.NoDup (RiskResult.recentPatterns (calculateRiskScore agentId st))
  /\ forall x,
       In x (RiskResult.recentPatterns (calculateRiskScore agentId st))
       <-> exists a, In a (lastFive (getAgentHistory agentId st))
                     /\ In x (deceptionType a).
Proof.
  unfold calculateRiskScore. cbv zeta.
  destruct (getAgentHistory agentId st) as [|a0 history].
  { cbn. split; [constructor|]. intros x. split; [intros []|].
    intros (a & [] & _). }
  cbn [length Nat.eqb RiskResult.recentPatterns]. unfold uniqueStrings.
  destruct (uniqueStrings_from
              (flat_map deceptionType (lastFive (a0 :: history))) [])
    as [Hnd Hin]; [constructor|].
  split; [exact Hnd|].
  intros x. rewrite Hin, in_flat_map. cbn [In]. tauto.
Qed.

(** X5: a witness, one report that claims an improvement of 0.9. *)
Lemma impossible_claims_exaggerate_witness :
  In "impossible_claims"
    (deceptionType
       (analyzeAgentPattern sqrtDyadic "agent-1" [boastful] emptyDetector).1)
  /\ In "exaggeration"
       (deceptionType
          (analyzeAgentPattern sqrtDyadic "agent-1" [boastful]
             emptyDetector).1).
Proof.
  assert (H : In "impossible_claims"
    (deceptionType
       (analyzeAgentPattern sqrtDyadic "agent-1" [boastful] emptyDetector).1)).
  { apply (proj1 (includes_In "impossible_claims" _)).
    vm_compute. reflexivity. }
  split; [exact H|].
  exact (impossible_claims_exaggerate sqrtDyadic "agent-1" [boastful]
           emptyDetector H).
Defined.

(** X6: a witness, fabrication on five reports. *)
Lemma labels_need_reports_witness :
  In "fabrication"
    (deceptionType
       (analyzeAgentPattern sqrtDyadic "agent-1" fiveFailed emptyDetector).1)
  /\ minReports "fabrication" <= length fiveFailed.
Proof.
  assert (H : In "fabrication"
    (deceptionType
       (analyzeAgentPattern sqrtDyadic "agent-1" fiveFailed emptyDetector).1)).
  { apply (proj1 (includes_In "fabrication" _)). vm_compute. reflexivity. }
  split; [exact H|].
  exact (labels_need_reports sqrtDyadic "agent-1" fiveFailed emptyDetector
           "fabrication" H).
Defined.

(** X18: a witness, the state after one analysis of twenty boasts. *)
Lemma calculateRiskScore_bounds_witness :
  reachable sqrtDyadic afterBoasts
  /\ (0 <= RiskResult.riskScore (calculateRiskScore "agent-1" afterBoasts)
      <= 1)%Q.
Proof.
  split; [apply reachable_pattern, reachable_new|].
  apply (calculateRiskScore_bounds sqrtDyadic).
  apply reachable_pattern, reachable_new.
Defined.

(** X19: a witness, an agent that was never analysed. *)
Lemma calculateRiskScore_zero_witness :
  reachable sqrtDyadic afterBoasts
  /\ (RiskResult.riskScore (calculateRiskScore "agent-2" afterBoasts) == 0)%Q
  /\ RiskResult.riskLevel (calculateRiskScore "agent-2" afterBoasts) = low
  /\ RiskResult.recentPatterns (calculateRiskScore "agent-2" afterBoasts) = [].
Proof.
  assert (Hreach : reachable sqrtDyadic afterBoasts)
    by apply reachable_pattern, reachable_new.
  assert (Hnone : forall a, In a (getAgentHistory "agent-2" afterBoasts) ->
                    deceptionDetected a = false)
    by (vm_compute; intros a []).
  destruct (calculateRiskScore_zero sqrtDyadic "agent-2" afterBoasts Hreach)
    as [Hzero Hlow].
  split; [exact Hreach|]. split; [now apply Hzero | now apply Hlow].
Defined.

(** X20: a witness, the agent of the twenty boasts. *)
Lemma calculateRiskScore_always_deceptive_witness :
  reachable sqrtDyadic afterBoasts
  /\ (0.36 <= RiskResult.riskScore (calculateRiskScore "agent-1" afterBoasts))%Q
  /\ RiskResult.riskLevel (calculateRiskScore "agent-1" afterBoasts) <> low.
Proof.
  assert (Hreach : reachable sqrtDyadic afterBoasts)
    by apply reachable_pattern, reachable_new.
  split; [exact Hreach|].
  apply (calculateRiskScore_always_deceptive sqrtDyadic); [exact Hreach | |].
  - vm_compute. discriminate.
  - vm_compute. intros a [<-|[]]. reflexivity.
Defined.

(** * Properties of the TruthDBAdapter *)

(** ** hashString *)

Lemma toInt32_range (x : Z) : (-2147483648 <= toInt32 x < 2147483648)%Z.
Proof.
  unfold toInt32.
  pose proof (Z.mod_pos_bound (x + 2147483648) 4294967296). lia.
Qed.

Lemma toInt32_small (x : Z) :
  (-2147483648 <= x < 2147483648)%Z -> toInt32 x = x.
Proof.
  intros Hx. unfold toInt32. rewrite Z.mod_small; lia.
Qed.

Lemma toInt32_congruent (x y : Z) :
  (x mod 4294967296 = y mod 4294967296)%Z -> toInt32 x = toInt32 y.
Proof.
  intros Hxy. unfold toInt32.
  rewrite <- (Zplus_mod_idemp_l x), <- (Zplus_mod_idemp_l y), Hxy.
  reflexivity.
Qed.

Lemma toInt32_mod (x : Z) :
  (toInt32 x mod 4294967296 = x mod 4294967296)%Z.
Proof.
  unfold toInt32.
  rewrite <- Zminus_mod_idemp_l, Z.mod_mod by lia.
  rewrite Zminus_mod_idemp_l. f_equal. lia.
Qed.

Lemma hashStep_wraps (hash char : Z) :
  (-2147483648 <= hash < 2147483648)%Z ->
  hashStep hash char = toInt32 (31 * hash + char).
Proof.
  intros Hh. unfold hashStep. cbv zeta.
  rewrite Z.land_diag, (toInt32_small hash Hh), Z.shiftl_mul_pow2 by lia.
  rewrite (toInt32_small (toInt32 _)) by apply toInt32_range.
  apply toInt32_congruent.
  rewrite <- Zplus_mod_idemp_l, <- Zminus_mod_idemp_l, toInt32_mod.
  rewrite Zminus_mod_idemp_l, Zplus_mod_idemp_l. f_equal. lia.
Qed.

Lemma hash_loop (units : list Z) (h p : Z) :
  (-2147483648 <= h < 2147483648)%Z ->
  h = toInt32 p ->
  fold_left hashStep units h
  = toInt32 (fold_left (fun h c => (31 * h + c)%Z) units p).
Proof.
  revert h p. induction units as [|c units IH]; intros h p Hh Hp;
    [exact Hp|].
  cbn [fold_left]. apply IH.
  - rewrite hashStep_wraps by exact Hh. apply toInt32_range.
  - rewrite hashStep_wraps by exact Hh. subst h.
    apply toInt32_congruent.
    rewrite <- Zplus_mod_idemp_l, <- Zmult_mod_idemp_r, toInt32_mod.
    rewrite Zmult_mod_idemp_r, Zplus_mod_idemp_l. reflexivity.
Qed.

(** X22.  hashString is the absolute value of the base-31 polynomial of the
    code units, wrapped once to 32 bits: wrapping at every step of the loop
    loses nothing.  The hash lies between 0 and 2^31. *)
Theorem hashString_polynomial (units : list Z) (str : string) :
  hashCodeUnits units = Z.abs (toInt32 (polynomial31 units))
  /\ (0 <= hashCodeUnits units <= 2147483648)%Z
  /\ hashString str
     = Z.abs (toInt32 (polynomial31
                         (map charCodeAt (String.list_ascii_of_string str))))
  /\ (0 <= hashString str <= 2147483648)%Z.
Proof.
  assert (Hunits : forall us,
    hashCodeUnits us = Z.abs (toInt32 (polynomial31 us))).
  { intros us. unfold hashCodeUnits, polynomial31. f_equal.
    apply hash_loop; [lia | reflexivity]. }
  assert (Hrange : forall us, (0 <= hashCodeUnits us <= 2147483648)%Z).
  { intros us. rewrite Hunits.
    pose proof (toInt32_range (polynomial31 us)). lia. }
  unfold hashString. repeat split; try apply Hunits; apply Hrange.
Qed.

(** ** The embeddings *)

Lemma hashBit_testbit (hash : Z) (i : nat) :
  (0 <= hash <= 2147483648)%Z -> i < 16 ->
  hashBit hash i = Z.testbit hash (Z.of_nat i).
Proof.
  intros Hh Hi. unfold hashBit.
  assert (Hbit : Z.testbit (toInt32 hash) (Z.of_nat i)
                 = Z.testbit hash (Z.of_nat i)).
  { rewrite <- (Z.mod_pow2_bits_low (toInt32 hash) 32) by lia.
    rewrite <- (Z.mod_pow2_bits_low hash 32 (Z.of_nat i)) by lia.
    change (2 ^ 32)%Z with 4294967296%Z. now rewrite toInt32_mod. }
  rewrite <- Hbit.
  change 1%Z with (Z.ones 1). rewrite Z.land_ones by lia.
  change (2 ^ 1)%Z with 2%Z.
  rewrite Z.shiftr_div_pow2, <- Z.testbit_spec' by lia.
  now destruct (Z.testbit (toInt32 hash) (Z.of_nat i)).
Qed.

Lemma writeBits_from (offset : nat) (value : nat -> Q) (n start : nat)
    (embedding : list Q) (j : nat) :
  offset + start + n <= length embedding ->
  fold_left (fun embedding i => <[offset + i := value i]> embedding)
    (seq start n) embedding !! j
  = if (offset + start <=? j) && (j <? offset + start + n)
    then Some (value (j - offset))
    else embedding !! j.
Proof.
  revert start embedding. induction n as [|n IH]; intros start embedding Hlen.
  - cbn [seq fold_left].
    destruct (offset + start <=? j) eqn:H1; [|reflexivity].
    destruct (j <? offset + start + 0) eqn:H2; [|reflexivity].
    apply Nat.leb_le in H1. apply Nat.ltb_lt in H2. lia.
  - cbn [seq fold_left]. rewrite IH by (rewrite length_insert; lia).
    destruct (Nat.eq_dec j (offset + start)) as [->|Hne].
    + replace (offset + S start <=? offset + start) with false
        by (symmetry; apply Nat.leb_gt; lia).
      replace (offset + start <=? offset + start) with true
        by (symmetry; apply Nat.leb_le; lia).
      replace (offset + start <? offset + start + S n) with true
        by (symmetry; apply Nat.ltb_lt; lia).
      cbn [andb]. rewrite list_lookup_insert_eq by lia.
      f_equal. f_equal. lia.
    + rewrite list_lookup_insert_ne by lia.
      destruct (offset + S start <=? j) eqn:H1;
        destruct (offset + start <=? j) eqn:H2;
        destruct (j <? offset + S start + n) eqn:H3;
        destruct (j <? offset + start + S n) eqn:H4;
        try reflexivity;
        rewrite ?Nat.leb_le, ?Nat.leb_gt, ?Nat.ltb_lt, ?Nat.ltb_ge in *; lia.
Qed.

Lemma writeHashBits_lookup (offset : nat) (hash : Z) (embedding : list Q)
    (j : nat) :
  offset + 16 <= length embedding ->
  writeHashBits offset hash embedding !! j
  = if (offset <=? j) && (j <? offset + 16)
    then Some (if hashBit hash (j - offset) then 0.5%Q else (-0.5)%Q)
    else embedding !! j.
Proof.
  intros Hlen. unfold writeHashBits.
  rewrite (writeBits_from offset
             (fun i => if hashBit hash i then 0.5%Q else (-0.5)%Q) 16 0)
    by lia.
  now rewrite !Nat.add_0_r.
Qed.

Lemma writeHashBits_length (offset : nat) (hash : Z) (embedding : list Q) :
  length (writeHashBits offset hash embedding) = length embedding.
Proof.
  unfold writeHashBits. generalize (seq 0 16). intros l. revert embedding.
  induction l as [|i l IH]; intros embedding; [reflexivity|].
  cbn [fold_left]. now rewrite IH, length_insert.
Qed.

Lemma writeId_length (offset : nat) (id : option string)
    (embedding : list Q) :
  length (writeId offset id embedding) = length embedding.
Proof.
  unfold writeId. destruct (truthyString id); [|reflexivity].
  apply writeHashBits_length.
Qed.

Lemma writeId_lookup (offset : nat) (id : option string)
    (embedding : list Q) (j : nat) :
  offset + 16 <= length embedding ->
  writeId offset id embedding !! j
  = if truthyString id && (offset <=? j) && (j <? offset + 16)
    then Some (if hashBit (hashString (default "" id)) (j - offset)
               then 0.5%Q else (-0.5)%Q)
    else embedding !! j.
Proof.
  intros Hlen. unfold writeId. destruct (truthyString id); [|reflexivity].
  cbn [andb]. now apply writeHashBits_lookup.
Qed.

Lemma writePhase_length (phase : option string) (embedding : list Q) :
  length (writePhase phase embedding) = length embedding.
Proof.
  unfold writePhase. cbv zeta.
  destruct (_ && _); [apply length_insert | reflexivity].
Qed.

Lemma indexFrom_spec (x : string) (l : list string) (start : Z) :
  indexFrom start x l = (-1)%Z /\ ~ In x l
  \/ exists i : nat,
       indexFrom start x l = (start + Z.of_nat i)%Z /\ l !! i = Some x
       /\ forall k : nat, k < i -> l !! k <> Some x.
Proof.
  revert start. induction l as [|y l IH]; intros start; cbn [indexFrom].
  - left. split; [reflexivity | intros []].
  - destruct (String.eqb_spec y x) as [->|Hne].
    + right. exists 0. split; [lia|]. split; [reflexivity|]. intros k Hk. lia.
    + destruct (IH (start + 1)%Z) as [[Hnone Hnot]|(i & Hi & Hl & Hfirst)].
      * left. split; [exact Hnone|]. intros [Heq|Hin]; [congruence|tauto].
      * right. exists (S i). split; [lia|]. split; [exact Hl|].
        intros [|k] Hk; cbn; [congruence|]. apply Hfirst. lia.
Qed.

Lemma phases_NoDup : NoDup phases.
Proof.
  apply NoDup_ListNoDup. unfold phases.
  repeat (constructor; [simpl; intuition discriminate|]). constructor.
Qed.

(** Where [writePhase] writes: at the place of the phase in [phases]. *)
Lemma writePhase_lookup (phase : option string) (embedding : list Q)
    (i : nat) :
  48 <= length embedding -> i < 16 ->
  writePhase phase embedding !! (32 + i)
  = if decide (phases !! i = Some (default "pre-task" phase))
    then Some 1%Q else embedding !! (32 + i).
Proof.
  intros Hlen Hi. unfold writePhase, indexOf. cbv zeta.
  destruct (indexFrom_spec (default "pre-task" phase) phases 0)
    as [[-> Hnot]|(k & -> & Hk & _)].
  - cbn [Z.leb andb].
    destruct (decide _) as [Hphase|]; [|reflexivity].
    exfalso. apply Hnot, list_elem_of_In.
    now apply list_elem_of_lookup_2 with i.
  - assert (Hk6 : k < 6) by (apply lookup_lt_Some in Hk; exact Hk).
    replace ((0 <=? 0 + Z.of_nat k)%Z && (0 + Z.of_nat k <? 16)%Z) with true
      by (symmetry; apply andb_true_iff; split;
          [apply Z.leb_le | apply Z.ltb_lt]; lia).
    replace (Z.to_nat (32 + (0 + Z.of_nat k))) with (32 + k) by lia.
    destruct (decide (phases !! i = Some (default "pre-task" phase)))
      as [Hphase|Hphase].
    + assert (i = k) as ->
        by (apply (NoDup_lookup phases i k (default "pre-task" phase));
            [apply phases_NoDup | exact Hphase | exact Hk]).
      apply list_lookup_insert_eq. lia.
    + apply list_lookup_insert_ne. intros Heq.
      assert (k = i) as -> by lia. contradiction.
Qed.

Lemma writePhase_elsewhere (phase : option string) (embedding : list Q)
    (j : nat) :
  j < 32 \/ 38 <= j ->
  writePhase phase embedding !! j = embedding !! j.
Proof.
  intros Hj. unfold writePhase, indexOf. cbv zeta.
  destruct (indexFrom_spec (default "pre-task" phase) phases 0)
    as [[-> _]|(k & -> & Hk & _)]; [reflexivity|].
  assert (Hk6 : k < 6) by (apply lookup_lt_Some in Hk; exact Hk).
  destruct (_ && _); [|reflexivity].
  apply list_lookup_insert_ne. lia.
Qed.

Ltac bounds :=
  repeat match goal with
         | |- context [?a <=? ?b] =>
             first [ replace (a <=? b) with true
                       by (symmetry; apply Nat.leb_le; lia)
                   | replace (a <=? b) with false
                       by (symmetry; apply Nat.leb_gt; lia) ]
         | |- context [?a <? ?b] =>
             first [ replace (a <? b) with true
                       by (symmetry; apply Nat.ltb_lt; lia)
                   | replace (a <? b) with false
                       by (symmetry; apply Nat.ltb_ge; lia) ]
         end;
  rewrite ?andb_true_r, ?andb_false_r; cbn [andb].

Ltac embedding_length :=
  rewrite ?writeId_length, ?writePhase_length, ?length_insert,
    ?length_replicate; lia.

Lemma hashString_range (str : string) :
  (0 <= hashString str <= 2147483648)%Z.
Proof.
  unfold hashString, hashCodeUnits.
  set (units := map charCodeAt _).
  assert (H : fold_left hashStep units 0%Z
              = toInt32 (fold_left (fun h c => (31 * h + c)%Z) units 0%Z))
    by (apply hash_loop; [lia | reflexivity]).
  rewrite H.
  match goal with |- context [toInt32 ?p] => pose proof (toInt32_range p) end.
  lia.
Qed.

Lemma writeId_block (offset : nat) (id : option string)
    (embedding : list Q) (i : nat) :
  offset + 16 <= length embedding -> i < 16 ->
  embedding !! (offset + i) = Some 0%Q ->
  writeId offset id embedding !! (offset + i) = Some (idEntry id i).
Proof.
  intros Hlen Hi Hzero. rewrite writeId_lookup by exact Hlen.
  unfold idEntry. bounds.
  destruct (truthyString id); [|exact Hzero]. cbn [andb].
  replace (offset + i - offset) with i by lia.
  now rewrite hashBit_testbit by (apply hashString_range || exact Hi).
Qed.

Lemma writeId_elsewhere (offset : nat) (id : option string)
    (embedding : list Q) (j : nat) :
  offset + 16 <= length embedding -> j < offset \/ offset + 16 <= j ->
  writeId offset id embedding !! j = embedding !! j.
Proof.
  intros Hlen Hj. rewrite writeId_lookup by exact Hlen.
  destruct Hj; bounds; reflexivity.
Qed.

Section Embeddings.

Variables Math_sin Math_cos : Q -> Q.
Variable Math_PI : Q.

(** X23.  Both embeddings have 128 entries.  A context embedding is 0 at
    the places 6-15, 19-31, 38-47 and 80-127, and a snapshot embedding at
    the places 1-31, 38-47, 64-79 and 96-127, whatever the document. *)
Theorem embedding_shape (now : Z) (doc : TruthDocument.t)
    (snapshot : SnapshotDocument.t) :
  length (generateEmbedding Math_sin Math_cos Math_PI now doc) = 128
  /\ length (generateSnapshotEmbedding now snapshot) = 128
  /\ (forall j, 6 <= j < 16 \/ 19 <= j < 32 \/ 38 <= j < 48 \/ 80 <= j < 128 ->
        generateEmbedding Math_sin Math_cos Math_PI now doc !! j = Some 0%Q)
  /\ (forall j, 1 <= j < 32 \/ 38 <= j < 48 \/ 64 <= j < 80 \/ 96 <= j < 128 ->
        generateSnapshotEmbedding now snapshot !! j = Some 0%Q).
Proof.
  unfold generateEmbedding, generateSnapshotEmbedding. cbv zeta.
  split; [embedding_length|]. split; [embedding_length|]. split.
  - intros j Hj.
    rewrite !writeId_elsewhere by (embedding_length || lia).
    rewrite writePhase_elsewhere by lia.
    rewrite !list_lookup_insert_ne by lia.
    apply lookup_replicate_2. lia.
  - intros j Hj.
    rewrite !writeId_elsewhere by (embedding_length || lia).
    rewrite writePhase_elsewhere by lia.
    rewrite !list_lookup_insert_ne by lia.
    apply lookup_replicate_2. lia.
Qed.

(** X24.  The places 32-47 of both embeddings encode the phase one-hot: the
    place 32+i holds 1 when the phase (pre-task if the document has none) is
    the i-th of the six phases, and 0 otherwise; for a phase that is none of
    the six the whole block is 0. *)
Theorem embedding_phase_one_hot (now : Z) (doc : TruthDocument.t)
    (snapshot : SnapshotDocument.t) (i : nat) :
  i < 16 ->
  generateEmbedding Math_sin Math_cos Math_PI now doc !! (32 + i)
  = Some (if decide (phases !! i
                     = Some (default "pre-task" (TruthDocument.phase doc)))
          then 1%Q else 0%Q)
  /\ generateSnapshotEmbedding now snapshot !! (32 + i)
     = Some (if decide
                  (phases !! i
                   = Some (default "pre-task"
                             (SnapshotDocument.phase snapshot)))
             then 1%Q else 0%Q).
Proof.
  intros Hi. unfold generateEmbedding, generateSnapshotEmbedding. cbv zeta.
  split.
  - rewrite !writeId_elsewhere by (embedding_length || lia).
    rewrite writePhase_lookup by (embedding_length || lia).
    destruct (decide _); [reflexivity|].
    rewrite !list_lookup_insert_ne by lia.
    apply lookup_replicate_2. lia.
  - rewrite !writeId_elsewhere by (embedding_length || lia).
    rewrite writePhase_lookup by (embedding_length || lia).
    destruct (decide _); [reflexivity|].
    rewrite !list_lookup_insert_ne by lia.
    apply lookup_replicate_2. lia.
Qed.

(** X25.  The block of an id holds 16 bits of its hash: the place 48+i of
    both embeddings is 0.5 or -0.5 as bit i of hashString(taskId) is set or
    not, and likewise the place 64+i for the sessionId of a context and the
    place 80+i for the snapshotId of a snapshot; the block of a missing or
    empty id is 0. *)
Theorem embedding_id_bits (now : Z) (doc : TruthDocument.t)
    (snapshot : SnapshotDocument.t) (i : nat) :
  i < 16 ->
  generateEmbedding Math_sin Math_cos Math_PI now doc !! (48 + i)
  = Some (idEntry (TruthDocument.taskId doc) i)
  /\ generateEmbedding Math_sin Math_cos Math_PI now doc !! (64 + i)
     = Some (idEntry (TruthDocument.sessionId doc) i)
  /\ generateSnapshotEmbedding now snapshot !! (48 + i)
     = Some (idEntry (SnapshotDocument.taskId snapshot) i)
  /\ generateSnapshotEmbedding now snapshot !! (80 + i)
     = Some (idEntry (SnapshotDocument.snapshotId snapshot) i).
Proof.
  intros Hi. unfold generateEmbedding, generateSnapshotEmbedding. cbv zeta.
  split; [|split; [|split]].
  - rewrite writeId_elsewhere by (embedding_length || lia).
    apply writeId_block; [embedding_length | exact Hi |].
    rewrite writePhase_elsewhere by lia.
    rewrite !list_lookup_insert_ne by lia.
    apply lookup_replicate_2. lia.
  - apply writeId_block; [embedding_length | exact Hi |].
    rewrite writeId_elsewhere by (embedding_length || lia).
    rewrite writePhase_elsewhere by lia.
    rewrite !list_lookup_insert_ne by lia.
    apply lookup_replicate_2. lia.
  - rewrite writeId_elsewhere by (embedding_length || lia).
    apply writeId_block; [embedding_length | exact Hi |].
    rewrite writePhase_elsewhere by lia.
    rewrite !list_lookup_insert_ne by lia.
    apply lookup_replicate_2. lia.
  - apply writeId_block; [embedding_length | exact Hi |].
    rewrite writeId_elsewhere by (embedding_length || lia).
    rewrite writePhase_elsewhere by lia.
    rewrite !list_lookup_insert_ne by lia.
    apply lookup_replicate_2. lia.
Qed.

End Embeddings.

(** X24: a witness, the place of the phase validation. *)
Lemma embedding_phase_one_hot_witness :
  3 < 16
  /\ generateEmbedding (fun _ => 0%Q) (fun _ => 1%Q) 3.14%Q 0 sampleDocument
       !! (32 + 3)
     = Some (if decide (phases !! 3
                        = Some (default "pre-task"
                                  (TruthDocument.phase sampleDocument)))
             then 1%Q else 0%Q)
  /\ generateSnapshotEmbedding 0 sampleSnapshot !! (32 + 3)
     = Some (if decide (phases !! 3
                        = Some (default "pre-task"
                                  (SnapshotDocument.phase sampleSnapshot)))
             then 1%Q else 0%Q).
Proof. split; [lia | apply embedding_phase_one_hot; lia]. Defined.

(** X25: a witness, bit 3 of the hashes of the sample ids. *)
Lemma embedding_id_bits_witness :
  3 < 16
  /\ generateEmbedding (fun _ => 0%Q) (fun _ => 1%Q) 3.14%Q 0 sampleDocument
       !! (48 + 3)
     = Some (idEntry (TruthDocument.taskId sampleDocument) 3)
  /\ generateEmbedding (fun _ => 0%Q) (fun _ => 1%Q) 3.14%Q 0 sampleDocument
       !! (64 + 3)
     = Some (idEntry (TruthDocument.sessionId sampleDocument) 3)
  /\ generateSnapshotEmbedding 0 sampleSnapshot !! (48 + 3)
     = Some (idEntry (SnapshotDocument.taskId sampleSnapshot) 3)
  /\ generateSnapshotEmbedding 0 sampleSnapshot !! (80 + 3)
     = Some (idEntry (SnapshotDocument.snapshotId sampleSnapshot) 3).
Proof. split; [lia | apply embedding_id_bits; lia]. Defined.

Lemma dayNorm_bounds (timestamp : Z) :
  (-1 <= dayNorm timestamp <= 1)%Q
  /\ ((0 <= timestamp)%Z -> (0 <= dayNorm timestamp)%Q
                            /\ (dayNorm timestamp < 1)%Q).
Proof.
  unfold dayNorm.
  assert (Hday : (0 < 86400000)%Q) by reflexivity.
  split; [split|intros Hpos; split].
  - apply Qle_shift_div_l; [exact Hday|].
    change (-1 * 86400000)%Q with (inject_Z (-86400000)).
    rewrite <- Zle_Qle.
    pose proof (Z.rem_bound_abs timestamp 86400000). lia.
  - apply Qle_shift_div_r; [exact Hday|].
    change (1 * 86400000)%Q with (inject_Z 86400000).
    rewrite <- Zle_Qle.
    pose proof (Z.rem_bound_abs timestamp 86400000). lia.
  - apply Qle_shift_div_l; [exact Hday|].
    change (0 * 86400000)%Q with (inject_Z 0).
    rewrite <- Zle_Qle.
    pose proof (Z.rem_bound_pos timestamp 86400000). lia.
  - apply Qlt_shift_div_r; [exact Hday|].
    change (1 * 86400000)%Q with (inject_Z 86400000).
    rewrite <- Zlt_Qlt.
    pose proof (Z.rem_bound_pos timestamp 86400000). lia.
Qed.

Lemma idEntry_bounds (id : option string) (i : nat) :
  (-1 <= idEntry id i <= 1)%Q.
Proof.
  unfold idEntry. destruct (truthyString id); [|split; discriminate].
  destruct (Z.testbit _ _); split; discriminate.
Qed.

(** X26.  Every entry of a snapshot embedding lies between -1 and 1; its
    first entry, the time of day, lies in [0,1) when the timestamp used is
    not negative. *)
Theorem snapshot_embedding_bounded (now : Z) (snapshot : SnapshotDocument.t) :
  Forall (fun x => (-1 <= x <= 1)%Q) (generateSnapshotEmbedding now snapshot)
  /\ ((0 <= default now (SnapshotDocument.timestamp snapshot))%Z ->
      exists x, generateSnapshotEmbedding now snapshot !! 0 = Some x
                /\ (0 <= x)%Q /\ (x < 1)%Q).
Proof.
  split.
  - apply Forall_lookup. intros j x Hx.
    assert (Hj : j < 128).
    { apply lookup_lt_Some in Hx. revert Hx.
      unfold generateSnapshotEmbedding. cbv zeta.
      rewrite ?writeId_length, ?writePhase_length, ?length_insert,
        ?length_replicate. lia. }
    revert Hx. unfold generateSnapshotEmbedding. cbv zeta.
    destruct (Nat.eq_dec j 0) as [->|Hj0];
      [|destruct (Nat.lt_ge_cases j 32) as [H32|H32];
        [|destruct (Nat.lt_ge_cases j 48) as [H48|H48];
          [|destruct (Nat.lt_ge_cases j 64) as [H64|H64];
            [|destruct (Nat.lt_ge_cases j 80) as [H80|H80];
              [|destruct (Nat.lt_ge_cases j 96) as [H96|H96]]]]]].
    + rewrite !writeId_elsewhere by (embedding_length || lia).
      rewrite writePhase_elsewhere by lia.
      rewrite list_lookup_insert_eq by (rewrite length_replicate; lia).
      intros [= <-]. apply dayNorm_bounds.
    + rewrite !writeId_elsewhere by (embedding_length || lia).
      rewrite writePhase_elsewhere by lia.
      rewrite list_lookup_insert_ne by lia.
      rewrite lookup_replicate_2 by lia. intros [= <-]. split; discriminate.
    + rewrite !writeId_elsewhere by (embedding_length || lia).
      replace j with (32 + (j - 32)) by lia.
      rewrite writePhase_lookup by (embedding_length || lia).
      destruct (decide _); [intros [= <-]; split; discriminate|].
      rewrite list_lookup_insert_ne by lia.
      rewrite lookup_replicate_2 by lia. intros [= <-]. split; discriminate.
    + rewrite writeId_elsewhere by (embedding_length || lia).
      replace j with (48 + (j - 48)) by lia.
      rewrite writeId_block; [| embedding_length | lia |].
      * intros [= <-]. apply idEntry_bounds.
      * rewrite writePhase_elsewhere by lia.
        rewrite list_lookup_insert_ne by lia.
        apply lookup_replicate_2. lia.
    + rewrite !writeId_elsewhere by (embedding_length || lia).
      rewrite writePhase_elsewhere by lia.
      rewrite list_lookup_insert_ne by lia.
      rewrite lookup_replicate_2 by lia. intros [= <-]. split; discriminate.
    + replace j with (80 + (j - 80)) by lia.
      rewrite writeId_block; [| embedding_length | lia |].
      * intros [= <-]. apply idEntry_bounds.
      * rewrite writeId_elsewhere by (embedding_length || lia).
        rewrite writePhase_elsewhere by lia.
        rewrite list_lookup_insert_ne by lia.
        apply lookup_replicate_2. lia.
    + rewrite !writeId_elsewhere by (embedding_length || lia).
      rewrite writePhase_elsewhere by lia.
      rewrite list_lookup_insert_ne by lia.
      rewrite lookup_replicate_2 by lia. intros [= <-]. split; discriminate.
  - intros Hpos. exists (dayNorm (default now
                                    (SnapshotDocument.timestamp snapshot))).
    split; [|now apply dayNorm_bounds].
    unfold generateSnapshotEmbedding. cbv zeta.
    rewrite !writeId_elsewhere by (embedding_length || lia).
    rewrite writePhase_elsewhere by lia.
    apply list_lookup_insert_eq. rewrite length_replicate. lia.
Qed.

(** ** The adapter *)

Section AdapterProperties.

Variables Math_sin Math_cos : Q -> Q.
Variable Math_PI : Q.
Context {Backend : Type} `{AgentDBBackend Backend}.

Lemma callBackend_other {A} (c : BackendCall)
    (method : Backend -> Backend * Outcome A) (st : Adapter Backend) :
  isInitialize c = false ->
  initialized (callBackend c method st).2 = initialized st
  /\ initPromise (callBackend c method st).2 = initPromise st
  /\ initializeCalls (callBackend c method st).2 = initializeCalls st.
Proof.
  intros Hc. unfold callBackend, initializeCalls. cbn.
  rewrite List.filter_app. cbn. rewrite Hc. now rewrite app_nil_r.
Qed.

Lemma initializedOnce_other {A} (c : BackendCall)
    (method : Backend -> Backend * Outcome A) (st : Adapter Backend) :
  isInitialize c = false -> initializedOnce st ->
  initializedOnce (callBackend c method st).2.
Proof.
  intros Hc Hst.
  destruct (callBackend_other c method st Hc) as (Hi & Hp & Hcalls).
  unfold initializedOnce in *. now rewrite Hi, Hp, Hcalls.
Qed.

Lemma initialize_once (st : Adapter Backend) :
  initializedOnce st -> initializedOnce (initialize st).2.
Proof.
  unfold initialize. destruct (initialized st) eqn:Hi; [easy|].
  destruct (initPromise st) eqn:Hp; [easy|].
  unfold initializedOnce. rewrite Hp. intros [_ Hnone].
  unfold doInitialize, callBackend, setInitPromise, initializeCalls in *.
  cbn. destruct (backend_initialize (backend st)) as [b [u|e]]; cbn;
    rewrite List.filter_app, Hnone; reflexivity.
Qed.

Lemma ensureInitialized_once (st : Adapter Backend) :
  initializedOnce st -> initializedOnce (ensureInitialized st).
Proof.
  unfold ensureInitialized. destruct (negb (initialized st)); [|easy].
  apply initialize_once.
Qed.

Lemma invoke_once (m : Method) (st : Adapter Backend) :
  initializedOnce st ->
  initializedOnce (invoke Math_sin Math_cos Math_PI m st).2.
Proof.
  intros Hst. destruct m; cbn [invoke snd].
  - now apply initialize_once.
  - exact Hst.
  - unfold saveContext. cbv zeta.
    pose proof (ensureInitialized_once st Hst) as Hen.
    destruct (negb (initialized (ensureInitialized st))); [exact Hen|].
    match goal with
    | |- context [callBackend ?c ?f ?s] =>
        pose proof (initializedOnce_other c f s eq_refl Hen);
        destruct (callBackend c f s).1; assumption
    end.
  - unfold getContext. cbv zeta.
    pose proof (ensureInitialized_once st Hst) as Hen.
    destruct (negb (initialized (ensureInitialized st))); [exact Hen|].
    match goal with
    | |- context [callBackend ?c ?f ?s] =>
        pose proof (initializedOnce_other c f s eq_refl Hen);
        destruct (callBackend c f s).1 as [[[?|]|]|]; assumption
    end.
  - unfold deleteContext. cbv zeta.
    destruct (negb (initialized st)); [exact Hst|].
    match goal with
    | |- context [callBackend ?c ?f ?s] =>
        pose proof (initializedOnce_other c f s eq_refl Hst);
        destruct (callBackend c f s).1; assumption
    end.
  - unfold saveSnapshot. cbv zeta.
    pose proof (ensureInitialized_once st Hst) as Hen.
    destruct (negb (initialized (ensureInitialized st))); [exact Hen|].
    now apply initializedOnce_other.
  - unfold getSnapshots. cbv zeta.
    destruct (negb (initialized st)); [exact Hst|].
    match goal with
    | |- context [callBackend ?c ?f ?s] =>
        pose proof (initializedOnce_other c f s eq_refl Hst);
        destruct (callBackend c f s).1; assumption
    end.
  - unfold searchSimilar. cbv zeta.
    destruct (negb (initialized st)); [exact Hst|].
    match goal with
    | |- context [callBackend ?c ?f ?s] =>
        pose proof (initializedOnce_other c f s eq_refl Hst);
        destruct (callBackend c f s).1; assumption
    end.
  - unfold getStats. cbv zeta.
    destruct (negb (initialized st)); [exact Hst|].
    match goal with
    | |- context [callBackend ?c ?f ?s] =>
        pose proof (initializedOnce_other c f s eq_refl Hst);
        destruct (callBackend c f s).1; assumption
    end.
  - unfold close.
    destruct (initialized st) eqn:Hi; [|exact Hst].
    match goal with
    | |- context [callBackend ?c ?f ?s] =>
        pose proof (initializedOnce_other c f s eq_refl Hst) as Hnext;
        destruct (callBackend_other c f s eq_refl) as (Hi' & Hp' & Hc');
        destruct (callBackend c f s).1; [|assumption]
    end.
    cbn [snd]. unfold initializedOnce, setInitialized, initializeCalls in *.
    cbn [initPromise initialized calls] in *.
    destruct (initPromise (callBackend _ _ st).2); [exact Hnext|].
    destruct Hnext as [_ Hnone]. now split.
Qed.

Lemma run_once (ms : list Method) (st : Adapter Backend) :
  initializedOnce st -> initializedOnce (run Math_sin Math_cos Math_PI ms st).2.
Proof.
  revert st. induction ms as [|m ms IH]; intros st Hst; [exact Hst|].
  cbn [run snd]. apply IH. now apply invoke_once.
Qed.

(** X27.  Whatever methods are called on a new adapter, and however the
    backend answers, backend.initialize is called at most once. *)
Theorem backend_initialized_at_most_once (b : Backend) (ms : list Method) :
  length
    (List.filter isInitialize
       (calls (run Math_sin Math_cos Math_PI ms (newAdapter b)).2)) <= 1.
Proof.
  assert (Hnew : initializedOnce (newAdapter b)) by (split; reflexivity).
  pose proof (run_once ms (newAdapter b) Hnew) as Hrun.
  unfold initializedOnce, initializeCalls in Hrun.
  destruct (initPromise _); [rewrite Hrun; cbn; lia|].
  destruct Hrun as [_ ->]. cbn. lia.
Qed.

Lemma invoke_dead (m : Method) (st : Adapter Backend) :
  initPromise st = true -> initialized st = false ->
  invoke Math_sin Math_cos Math_PI m st = (notInitializedReply m, st).
Proof.
  intros Hp Hi.
  destruct m; cbn [invoke notInitializedReply];
    unfold initialize, isReady, saveContext, getContext, deleteContext,
      saveSnapshot, getSnapshots, searchSimilar, getStats, close,
      ensureInitialized, initialize;
    cbv zeta; rewrite ?Hi; cbn [negb]; rewrite ?Hi, ?Hp; cbn [negb fst snd];
    rewrite ?Hi; reflexivity.
Qed.

(** X28.  An adapter has one life: once backend.initialize has been called
    and the adapter is not initialized (the call was rejected, or close has
    been called since), no method calls the backend again or changes the
    adapter, and every method answers as on an uninitialized adapter. *)
Theorem adapter_has_one_life (b : Backend) (before after : list Method) :
  existsb isInitialize
    (calls (run Math_sin Math_cos Math_PI before (newAdapter b)).2) = true ->
  initialized (run Math_sin Math_cos Math_PI before (newAdapter b)).2
  = false ->
  run Math_sin Math_cos Math_PI after
    (run Math_sin Math_cos Math_PI before (newAdapter b)).2
  = (map notInitializedReply after,
     (run Math_sin Math_cos Math_PI before (newAdapter b)).2).
Proof.
  intros Hcalled Hi.
  assert (Hnew : initializedOnce (newAdapter b)) by (split; reflexivity).
  pose proof (run_once before (newAdapter b) Hnew) as Hrun.
  set (st := (run Math_sin Math_cos Math_PI before (newAdapter b)).2) in *.
  assert (Hp : initPromise st = true).
  { unfold initializedOnce, initializeCalls in Hrun.
    destruct (initPromise st); [reflexivity|]. destruct Hrun as [_ Hnone].
    apply existsb_exists in Hcalled as (c & Hc & Hinit).
    assert (Hin : In c (List.filter isInitialize (calls st)))
      by (apply filter_In; now split).
    rewrite Hnone in Hin. destruct Hin. }
  clearbody st. clear Hrun Hcalled.
  induction after as [|m after IH]; [reflexivity|].
  cbn [run map]. rewrite (invoke_dead m st Hp Hi). cbn [fst snd].
  now rewrite IH.
Qed.

End AdapterProperties.

(** ** getSnapshots *)

Lemma insertSnapshot_permutation (x : Metadata) (sorted : list Metadata) :
  Permutation (insertSnapshot x sorted) (x :: sorted).
Proof.
  induction sorted as [|y sorted IH]; cbn [insertSnapshot]; [reflexivity|].
  destruct (earlier x y); [reflexivity|].
  rewrite IH. apply perm_swap.
Qed.

Lemma sortSnapshots_from (snapshots acc : list Metadata) :
  Permutation
    (fold_left (fun sorted x => insertSnapshot x sorted) snapshots acc)
    (acc ++ snapshots).
Proof.
  revert acc. induction snapshots as [|x snapshots IH]; intros acc.
  - cbn. now rewrite app_nil_r.
  - cbn [fold_left]. rewrite IH, insertSnapshot_permutation.
    cbn [app]. apply Permutation_middle.
Qed.

Lemma notLater_trans (a b c : Metadata) :
  notLater a b -> notLater b c -> notLater a c.
Proof.
  unfold notLater.
  destruct (metaTimestamp a), (metaTimestamp b), (metaTimestamp c);
    try tauto. lia.
Qed.

Lemma insertSnapshot_sorted (x : Metadata) (sorted : list Metadata) :
  metaTimestamp x <> None ->
  Forall (fun m => metaTimestamp m <> None) sorted ->
  StronglySorted notLater sorted ->
  StronglySorted notLater (insertSnapshot x sorted).
Proof.
  intros Hx Hall Hsorted.
  induction Hsorted as [|y sorted Hsorted IH Hy]; cbn [insertSnapshot].
  - repeat constructor.
  - apply Forall_cons in Hall as [Hty Hall].
    destruct (earlier x y) eqn:Hxy.
    + assert (Hle : notLater x y).
      { unfold earlier, notLater in *.
        destruct (metaTimestamp x), (metaTimestamp y); try discriminate.
        apply Z.ltb_lt in Hxy. lia. }
      constructor; [now constructor|].
      constructor; [exact Hle|].
      eapply Forall_impl; [exact Hy|]. intros z Hz.
      now apply notLater_trans with y.
    + assert (Hle : notLater y x).
      { unfold earlier, notLater in *.
        destruct (metaTimestamp x), (metaTimestamp y); try congruence.
        apply Z.ltb_ge in Hxy. exact Hxy. }
      constructor; [now apply IH|].
      rewrite insertSnapshot_permutation. now constructor.
Qed.

Lemma sortSnapshots_sorted (snapshots acc : list Metadata) :
  Forall (fun m => metaTimestamp m <> None) snapshots ->
  Forall (fun m => metaTimestamp m <> None) acc ->
  StronglySorted notLater acc ->
  StronglySorted notLater
    (fold_left (fun sorted x => insertSnapshot x sorted) snapshots acc).
Proof.
  revert acc. induction snapshots as [|x snapshots IH];
    intros acc Hall Hacc Hsorted; [exact Hsorted|].
  apply Forall_cons in Hall as [Hx Hall].
  cbn [fold_left]. apply IH; [exact Hall | |].
  - rewrite insertSnapshot_permutation. now constructor.
  - now apply insertSnapshot_sorted.
Qed.

Lemma keepSnapshot_valid (results : list (option Metadata)) (m : Metadata) :
  m ∈ omap keepSnapshot results ->
  exists s storedAt,
    m = SnapshotMeta s storedAt
    /\ truthyString (SnapshotDocument.snapshotId s) = true.
Proof.
  intros Hm. apply list_elem_of_omap in Hm as (r & _ & Hr).
  destruct r as [[d t v|s t]|]; cbn in Hr; try discriminate.
  destruct (truthyString (SnapshotDocument.snapshotId s)) eqn:Hid;
    [|discriminate].
  injection Hr as <-. now exists s, t.
Qed.

Section GetSnapshots.

Context {Backend : Type} `{AgentDBBackend Backend}.

(** X29.  When the search of the backend resolves, getSnapshots on an
    initialized adapter returns the metadata found that carry a non-empty
    snapshotId, all of them and nothing else, ordered by timestamp, provided
    each of them has a timestamp. *)
Theorem getSnapshots_sorted (now : Z) (taskId : string)
    (st : Adapter Backend) (results : list (option Metadata)) :
  initialized st = true ->
  (forall embedding options,
     (backend_search embedding options (backend st)).2 = Resolved results) ->
  (forall m, m ∈ omap keepSnapshot results -> metaTimestamp m <> None) ->
  Permutation (getSnapshots now taskId st).1 (omap keepSnapshot results)
  /\ StronglySorted notLater (getSnapshots now taskId st).1
  /\ forall m, m ∈ (getSnapshots now taskId st).1 ->
       exists s storedAt,
         m = SnapshotMeta s storedAt
         /\ truthyString (SnapshotDocument.snapshotId s) = true.
Proof.
  intros Hi Hsearch Htimes. unfold getSnapshots. rewrite Hi. cbn [negb].
  cbv zeta. unfold callBackend. cbn [fst snd]. rewrite Hsearch. cbn [fst].
  assert (Hperm : Permutation (sortSnapshots (omap keepSnapshot results))
                    (omap keepSnapshot results))
    by apply (sortSnapshots_from _ []).
  split; [exact Hperm|]. split.
  - apply sortSnapshots_sorted; [|constructor|constructor].
    apply Forall_forall. intros m Hm. now apply Htimes.
  - intros m Hm. rewrite Hperm in Hm. now apply keepSnapshot_valid in Hm.
Qed.

End GetSnapshots.

(** X29: a witness, the three search results of [foundSnapshots]. *)
Lemma getSnapshots_sorted_witness :
  Permutation
    (@getSnapshots unit (mockBackend true foundSnapshots) 5000 "task-1"
       (@initialize unit (mockBackend true foundSnapshots) (newAdapter tt)).2).1
    (omap keepSnapshot foundSnapshots)
  /\ StronglySorted notLater
       (@getSnapshots unit (mockBackend true foundSnapshots) 5000 "task-1"
          (@initialize unit (mockBackend true foundSnapshots)
             (newAdapter tt)).2).1
  /\ forall m,
       m ∈ (@getSnapshots unit (mockBackend true foundSnapshots) 5000 "task-1"
              (@initialize unit (mockBackend true foundSnapshots)
                 (newAdapter tt)).2).1 ->
       exists s storedAt,
         m = SnapshotMeta s storedAt
         /\ truthyString (SnapshotDocument.snapshotId s) = true.
Proof.
  apply (@getSnapshots_sorted unit (mockBackend true foundSnapshots)
           5000 "task-1" _ foundSnapshots).
  - reflexivity.
  - intros embedding options. reflexivity.
  - intros m Hm. vm_compute in Hm.
    apply elem_of_cons in Hm as [->|Hm]; [discriminate|].
    apply elem_of_cons in Hm as [->|Hm]; [discriminate|].
    now apply elem_of_nil in Hm.
Defined.

(** X28: a witness, an adapter whose backend rejects initialize. *)
Lemma adapter_has_one_life_witness :
  @run (fun _ => 0%Q) (fun _ => 1%Q) 3.14%Q unit (mockBackend false [])
    [GetStats; Initialize; DeleteContext "task-1"]
    (@run (fun _ => 0%Q) (fun _ => 1%Q) 3.14%Q unit (mockBackend false [])
       [Initialize] (newAdapter tt)).2
  = ([ReplyStats StatsNotInitialized; ReplyBool false; ReplyBool false],
     (@run (fun _ => 0%Q) (fun _ => 1%Q) 3.14%Q unit (mockBackend false [])
        [Initialize] (newAdapter tt)).2).
Proof.
  apply (@adapter_has_one_life (fun _ => 0%Q) (fun _ => 1%Q) 3.14%Q unit
           (mockBackend false []) tt [Initialize]
           [GetStats; Initialize; DeleteContext "task-1"]); reflexivity.
Defined.

(** * createSecuritySystem *)

(** The integer quotient is what binary64 computes: on the sampled node
    counts, up to [maxExactNodes] itself, the two thresholds are equal.  One
    node further, and at the largest odd integer of binary64, the quotient
    is rounded up and binary64 gives one more. *)
Lemma binary64_threshold_agrees :
  forallb (fun n => (binary64DefaultThreshold n =? n * 2 / 3 + 1)%Z)
    sampledNodes = true
  /\ binary64DefaultThreshold (maxExactNodes + 1)
     = ((maxExactNodes + 1) * 2 / 3 + 2)%Z
  /\ binary64DefaultThreshold 9007199254740991 = 6004799503160662%Z
  /\ (9007199254740991 * 2 / 3 + 1 = 6004799503160661)%Z.
Proof. vm_compute. repeat split. Qed.

(** X30.  For a positive node count of at most 3 * 2^51
    (6755399441055744, up to which binary64 computes the floor of two thirds
    exactly) and without a threshold in the configuration (or with threshold
    0), createSecuritySystem picks the least threshold above two thirds of
    the nodes, which never exceeds the number of nodes; without a node count
    (or with 0 nodes) there are 5 nodes.  The production and high-security
    presets carry that very threshold; the development preset, 2 of 3, is
    one short of it. *)
Theorem default_threshold_two_thirds (config : option SecurityConfig.t) :
  orElse (config ≫= SecurityConfig.threshold) 0 = 0%Z ->
  (0 < orElse (config ≫= SecurityConfig.totalNodes) 5 <= maxExactNodes)%Z ->
  let system := createSecuritySystem config in
  SecuritySystem.totalNodes system
  = orElse (config ≫= SecurityConfig.totalNodes) 5
  /\ twoThirdsMajority system
  /\ (3 * (SecuritySystem.threshold system - 1)
      <= 2 * SecuritySystem.totalNodes system)%Z
  /\ (SecuritySystem.threshold system <= SecuritySystem.totalNodes system)%Z
  /\ createProductionSecuritySystem
     = createSecuritySystem
         (Some {| SecurityConfig.totalNodes := Some 7%Z;
                  SecurityConfig.threshold := None |})
  /\ createHighSecuritySystem
     = createSecuritySystem
         (Some {| SecurityConfig.totalNodes := Some 9%Z;
                  SecurityConfig.threshold := None |})
  /\ ~ twoThirdsMajority createDevelopmentSecuritySystem.
Proof.
  intros Hthreshold Hnodes. cbv zeta.
  unfold createSecuritySystem, twoThirdsMajority. cbv zeta.
  cbn [SecuritySystem.totalNodes SecuritySystem.threshold].
  set (n := orElse (config ≫= SecurityConfig.totalNodes) 5) in *.
  assert (Hdefault : orElse (config ≫= SecurityConfig.threshold)
                       (n * 2 / 3 + 1) = (n * 2 / 3 + 1)%Z).
  { unfold orElse in *.
    destruct (config ≫= SecurityConfig.threshold) as [t|]; [|reflexivity].
    destruct (Z.eqb_spec t 0); [reflexivity | contradiction]. }
  rewrite Hdefault.
  destruct Hnodes as [Hnodes _].
  pose proof (Z.div_mod (n * 2) 3 ltac:(lia)) as Hdiv.
  pose proof (Z.mod_pos_bound (n * 2) 3 ltac:(lia)) as Hmod.
  split; [reflexivity|]. split; [lia|]. split; [lia|]. split; [lia|].
  split; [reflexivity|]. split; [reflexivity|].
  unfold createDevelopmentSecuritySystem. cbn. lia.
Qed.

(** X30: a witness, no configuration at all. *)
Lemma default_threshold_two_thirds_witness :
  let system := createSecuritySystem None in
  SecuritySystem.totalNodes system = 5%Z
  /\ twoThirdsMajority system
  /\ (3 * (SecuritySystem.threshold system - 1)
      <= 2 * SecuritySystem.totalNodes system)%Z
  /\ (SecuritySystem.threshold system <= SecuritySystem.totalNodes system)%Z
  /\ createProductionSecuritySystem
     = createSecuritySystem
         (Some {| SecurityConfig.totalNodes := Some 7%Z;
                  SecurityConfig.threshold := None |})
  /\ createHighSecuritySystem
     = createSecuritySystem
         (Some {| SecurityConfig.totalNodes := Some 9%Z;
                  SecurityConfig.threshold := None |})
  /\ ~ twoThirdsMajority createDevelopmentSecuritySystem.
Proof.
  apply (default_threshold_two_thirds None); [reflexivity|].
  unfold maxExactNodes. cbn. lia.
Defined.
